(** * Vehicle speed detector: tracking, speed estimation and plate fusion

    A shallow embedding of [speed_detection/video_processor.py]
    (class [VehicleSpeedDetector]) and the properties of its tracking
    loop.

    Conventions of the embedding:
    - Python [int] is [Z]; Python [float] (and numpy's [float64]) is the
      kernel's binary64 [float], so every comparison and every rounding
      is the one the interpreter performs.
    - A Python [dict] is an insertion-ordered association list
      ([PyDict]), because the tracker's tie-breaking follows the
      iteration order of [vehicle_tracks] and [inactive_tracks].
    - Code that can raise runs in the [result] monad.
    - The detector, the OpenCV filters, the text-recognition engine and
      Python's Unicode tables are not part of the repository: they are
      the fields of the class [Externals]. *)

From Stdlib Require Import ZArith NArith List Bool String Ascii Lia.
From Stdlib Require Import Floats Uint63.
Import ListNotations.

Set Warnings "-inexact-float".
Local Open Scope Z_scope.

(** ** Exceptions *)

Inductive exn : Type :=
| KeyError
| ZeroDivisionError
| TypeError
| ValueError
| OverflowError
| EngineError (code : Z).

Inductive result (A : Type) : Type :=
| Ok (a : A)
| Raise (e : exn).

Arguments Ok {A} a.
Arguments Raise {A} e.

Definition bind {A B : Type} (c : result A) (k : A -> result B) : result B :=
  match c with
  | Ok a => k a
  | Raise e => Raise e
  end.

Notation "x <- c ;; k" := (bind c (fun x => k))
  (at level 61, c at next level, right associativity).
Notation "' pat <- c ;; k" := (bind c (fun x => match x with pat => k end))
  (at level 61, pat pattern, c at next level, right associativity).

(** [try: body except Exception: handler]. *)
Definition try_except {A : Type} (body : result A) (handler : exn -> result A)
  : result A :=
  match body with
  | Ok a => Ok a
  | Raise e => handler e
  end.

(** ** Insertion-ordered dictionaries with integer keys *)

Module PyDict.
Section Dict.
Context {V : Type}.

Definition t : Type := list (Z * V).

Definition empty : t := [].

(** [d.get(k)] *)
Fixpoint get (k : Z) (d : t) : option V :=
match d with
| [] => None
| (k', v) :: r => if k =? k' then Some v else get k r
end.

(** [k in d] *)
Definition mem (k : Z) (d : t) : bool :=
match get k d with
| Some _ => true
| None => false
end.

(** [d[k] = v]: an existing key keeps its place, a new one goes last. *)
Fixpoint set (k : Z) (v : V) (d : t) : t :=
match d with
| [] => [(k, v)]
| (k', v') :: r => if k =? k' then (k, v) :: r else (k', v') :: set k v r
end.

(** [del d[k]], used only on keys that are present. *)
Fixpoint del (k : Z) (d : t) : t :=
match d with
| [] => []
| (k', v') :: r => if k =? k' then del k r else (k', v') :: del k r
end.

(** [list(d.keys())] *)
Definition keys (d : t) : list Z := map fst d.

(** [d[k]] *)
Definition lookup (k : Z) (d : t) : result V :=
match get k d with
| Some v => Ok v
| None => Raise KeyError
end.
End Dict.
Arguments t V : clear implicits.
End PyDict.

(** ** Numbers *)

(** [float(z)], as the interpreter and numpy convert an integer below
    2^63 in absolute value (frame indices, pixel coordinates and their
    squared distances are far below). *)
Definition Z2float (z : Z) : float :=
  match z with
  | Z0 => PrimFloat.zero
  | Zpos _ => PrimFloat.of_uint63 (Uint63.of_Z z)
  | Zneg p => PrimFloat.opp (PrimFloat.of_uint63 (Uint63.of_Z (Zpos p)))
  end.

(** [a / b] on two Python integers: the quotient of the two conversions,
    which is the correctly rounded quotient for operands below 2^53. *)
Definition int_truediv (a b : Z) : result float :=
  if b =? 0 then Raise ZeroDivisionError
  else Ok (Z2float a / Z2float b)%float.

(** [int(f)]: truncation toward zero. *)
Definition py_int (f : float) : result Z :=
  match Prim2SF f with
  | S754_zero _ => Ok 0
  | S754_infinity _ => Raise OverflowError
  | S754_nan => Raise ValueError
  | S754_finite s m e =>
      let mag := if 0 <=? e then Zpos m * 2 ^ e else Zpos m / 2 ^ (- e) in
      Ok (if s then - mag else mag)
  end.

(** [max(a, b)] and [min(a, b)] on numbers: the first argument wins unless
    the second is strictly better. *)
Definition py_max (a b : float) : float := if (a <? b)%float then b else a.
Definition py_min (a b : float) : float := if (b <? a)%float then b else a.

(** [np.mean] of a list of fewer than eight numbers: numpy's
    [add.reduce] starts from the identity of the addition and adds the
    elements from left to right, and the sum is divided by the count.
    The mean of no number is [0 / 0], a NaN. Releases of numpy differ in
    the sign of the zero they start from; it has no influence on a list
    that starts with a positive number ([add_zero_positive] and
    [np_mean_left_to_right] below). *)
Definition np_mean (xs : list float) : float :=
  (fold_left PrimFloat.add xs 0 / Z2float (Z.of_nat (List.length xs)))%float.

(** ** Python list operations *)

(** [l[-n:]] *)
Definition last_n {A : Type} (n : nat) (l : list A) : list A :=
  skipn (List.length l - n) l.

(** [l[-i]] for [1 <= i <= len(l)]; [None] stands for an empty list or an
    index out of range. *)
Definition neg_index {A : Type} (l : list A) (i : nat) : option A :=
  if ((1 <=? i) && (i <=? List.length l))%nat
  then nth_error l (List.length l - i) else None.

(** [l[-1] = f(l[-1])] on a list that is not empty. *)
Fixpoint update_last {A : Type} (f : A -> A) (l : list A) : list A :=
  match l with
  | [] => []
  | [x] => [f x]
  | x :: r => x :: update_last f r
  end.

(** ** Data model *)

Definition point : Type := Z * Z.
Definition quad : Type := list point.

(** One entry of a track's history: the dictionary built by
    [calculate_speed], with the three keys that [process_video] adds to
    some entries. *)
Record sample : Type := {
  position : point;
  frame : Z;
  timestamp : float;
  license_plate : option string;
  license_plate_bbox : option quad;
  license_plate_confidence : option float
}.

Record VehicleSpeedDetector : Type := {
  vehicle_tracks : PyDict.t (list sample);
  vehicle_speeds : PyDict.t float;
  next_vehicle_id : Z;
  inactive_tracks : PyDict.t point;
  track_last_seen : PyDict.t Z;
  track_max_age : Z;
  speed_limit : Z;
  pixels_per_meter : float;
  speed_detection_zone : option (Z * Z * Z * Z)
}.

(** [__init__] *)
Definition init : VehicleSpeedDetector := {|
  vehicle_tracks := PyDict.empty;
  vehicle_speeds := PyDict.empty;
  next_vehicle_id := 1;
  inactive_tracks := PyDict.empty;
  track_last_seen := PyDict.empty;
  track_max_age := 30;
  speed_limit := 80;
  pixels_per_meter := 8;
  speed_detection_zone := None
|}.

Definition with_vehicle_tracks (x : PyDict.t (list sample))
  (st : VehicleSpeedDetector) : VehicleSpeedDetector := {|
  vehicle_tracks := x;
  vehicle_speeds := vehicle_speeds st;
  next_vehicle_id := next_vehicle_id st;
  inactive_tracks := inactive_tracks st;
  track_last_seen := track_last_seen st;
  track_max_age := track_max_age st;
  speed_limit := speed_limit st;
  pixels_per_meter := pixels_per_meter st;
  speed_detection_zone := speed_detection_zone st
|}.

Definition with_vehicle_speeds (x : PyDict.t float)
  (st : VehicleSpeedDetector) : VehicleSpeedDetector := {|
  vehicle_tracks := vehicle_tracks st;
  vehicle_speeds := x;
  next_vehicle_id := next_vehicle_id st;
  inactive_tracks := inactive_tracks st;
  track_last_seen := track_last_seen st;
  track_max_age := track_max_age st;
  speed_limit := speed_limit st;
  pixels_per_meter := pixels_per_meter st;
  speed_detection_zone := speed_detection_zone st
|}.

Definition with_next_vehicle_id (x : Z)
  (st : VehicleSpeedDetector) : VehicleSpeedDetector := {|
  vehicle_tracks := vehicle_tracks st;
  vehicle_speeds := vehicle_speeds st;
  next_vehicle_id := x;
  inactive_tracks := inactive_tracks st;
  track_last_seen := track_last_seen st;
  track_max_age := track_max_age st;
  speed_limit := speed_limit st;
  pixels_per_meter := pixels_per_meter st;
  speed_detection_zone := speed_detection_zone st
|}.

Definition with_inactive_tracks (x : PyDict.t point)
  (st : VehicleSpeedDetector) : VehicleSpeedDetector := {|
  vehicle_tracks := vehicle_tracks st;
  vehicle_speeds := vehicle_speeds st;
  next_vehicle_id := next_vehicle_id st;
  inactive_tracks := x;
  track_last_seen := track_last_seen st;
  track_max_age := track_max_age st;
  speed_limit := speed_limit st;
  pixels_per_meter := pixels_per_meter st;
  speed_detection_zone := speed_detection_zone st
|}.

Definition with_track_last_seen (x : PyDict.t Z)
  (st : VehicleSpeedDetector) : VehicleSpeedDetector := {|
  vehicle_tracks := vehicle_tracks st;
  vehicle_speeds := vehicle_speeds st;
  next_vehicle_id := next_vehicle_id st;
  inactive_tracks := inactive_tracks st;
  track_last_seen := x;
  track_max_age := track_max_age st;
  speed_limit := speed_limit st;
  pixels_per_meter := pixels_per_meter st;
  speed_detection_zone := speed_detection_zone st
|}.

Definition with_pixels_per_meter (x : float)
  (st : VehicleSpeedDetector) : VehicleSpeedDetector := {|
  vehicle_tracks := vehicle_tracks st;
  vehicle_speeds := vehicle_speeds st;
  next_vehicle_id := next_vehicle_id st;
  inactive_tracks := inactive_tracks st;
  track_last_seen := track_last_seen st;
  track_max_age := track_max_age st;
  speed_limit := speed_limit st;
  pixels_per_meter := x;
  speed_detection_zone := speed_detection_zone st
|}.

Definition with_speed_detection_zone (x : option (Z * Z * Z * Z))
  (st : VehicleSpeedDetector) : VehicleSpeedDetector := {|
  vehicle_tracks := vehicle_tracks st;
  vehicle_speeds := vehicle_speeds st;
  next_vehicle_id := next_vehicle_id st;
  inactive_tracks := inactive_tracks st;
  track_last_seen := track_last_seen st;
  track_max_age := track_max_age st;
  speed_limit := speed_limit st;
  pixels_per_meter := pixels_per_meter st;
  speed_detection_zone := x
|}.

(** ** Identity resolver *)

(** [calculate_distance] *)
Definition calculate_distance (pos1 pos2 : point) : float :=
  PrimFloat.sqrt
    (Z2float ((fst pos1 - fst pos2) ^ 2 + (snd pos1 - snd pos2) ^ 2)).

(** [positions[-1]] when [positions] is not empty. *)
Definition last_sample (positions : list sample) : option sample :=
  neg_index positions 1.

(** The loop over [self.vehicle_tracks.items()] (lines 114-123). *)
Fixpoint scan_active (current_pos : point) (frame_number : Z)
  (max_distance : float) (items : list (Z * list sample))
  (min_distance : float) (assigned_id : option Z)
  (st : VehicleSpeedDetector) : float * option Z * VehicleSpeedDetector :=
  match items with
  | [] => (min_distance, assigned_id, st)
  | (vehicle_id, positions) :: rest =>
      match last_sample positions with
      | None =>
          scan_active current_pos frame_number max_distance rest
            min_distance assigned_id st
      | Some s =>
          let distance := calculate_distance current_pos (position s) in
          if ((distance <? max_distance) && (distance <? min_distance))%float
          then
            scan_active current_pos frame_number max_distance rest
              distance (Some vehicle_id)
              (with_track_last_seen
                 (PyDict.set vehicle_id frame_number (track_last_seen st)) st)
          else
            scan_active current_pos frame_number max_distance rest
              min_distance assigned_id st
      end
  end.

(** The loop over the copied keys of [self.inactive_tracks]
    (lines 129-139). *)
Fixpoint scan_inactive (current_pos : point) (frame_number : Z)
  (max_distance : float) (inactive_track_ids : list Z)
  (min_distance : float) (assigned_id : option Z)
  (st : VehicleSpeedDetector)
  : result (float * option Z * VehicleSpeedDetector) :=
  match inactive_track_ids with
  | [] => Ok (min_distance, assigned_id, st)
  | vehicle_id :: rest =>
      last_pos <- PyDict.lookup vehicle_id (inactive_tracks st) ;;
      let distance := calculate_distance current_pos last_pos in
      if ((distance <? max_distance) && (distance <? min_distance))%float
      then
        let st1 :=
          with_track_last_seen
            (PyDict.set vehicle_id frame_number (track_last_seen st)) st in
        let st2 :=
          with_inactive_tracks
            (PyDict.del vehicle_id (inactive_tracks st1)) st1 in
        scan_inactive current_pos frame_number max_distance rest
          distance (Some vehicle_id) st2
      else
        scan_inactive current_pos frame_number max_distance rest
          min_distance assigned_id st
  end.

(** [assign_vehicle_id(center_x, center_y, frame_number, max_distance)] *)
Definition assign_vehicle_id_gate (center_x center_y frame_number : Z)
  (max_distance : float) (st : VehicleSpeedDetector)
  : result (Z * VehicleSpeedDetector) :=
  let current_pos := (center_x, center_y) in
  let '(min_distance, assigned_id, st1) :=
    scan_active current_pos frame_number max_distance (vehicle_tracks st)
      PrimFloat.infinity None st in
  '(min_distance, assigned_id, st2) <-
    match assigned_id with
    | None =>
        scan_inactive current_pos frame_number max_distance
          (PyDict.keys (inactive_tracks st1)) min_distance assigned_id st1
    | Some _ => Ok (min_distance, assigned_id, st1)
    end ;;
  match assigned_id with
  | None =>
      let new_id := next_vehicle_id st2 in
      let st3 := with_next_vehicle_id (new_id + 1) st2 in
      Ok (new_id,
          with_track_last_seen
            (PyDict.set new_id frame_number (track_last_seen st3)) st3)
  | Some vehicle_id => Ok (vehicle_id, st2)
  end.

(** The call with the default gate, [max_distance=50]. *)
Definition assign_vehicle_id (center_x center_y frame_number : Z)
  (st : VehicleSpeedDetector) : result (Z * VehicleSpeedDetector) :=
  assign_vehicle_id_gate center_x center_y frame_number 50 st.

(** ** Aging (the "Update inactive tracks" block of [process_video]) *)

Fixpoint age_loop (frame_count : Z) (track_keys : list Z)
  (st : VehicleSpeedDetector) : VehicleSpeedDetector :=
  match track_keys with
  | [] => st
  | vehicle_id :: rest =>
      let seen :=
        match PyDict.get vehicle_id (track_last_seen st) with
        | Some f => f
        | None => 0
        end in
      if track_max_age st <? frame_count - seen then
        match PyDict.get vehicle_id (vehicle_tracks st) with
        | Some positions =>
            match last_sample positions with
            | Some s =>
                let st1 :=
                  with_inactive_tracks
                    (PyDict.set vehicle_id (position s) (inactive_tracks st))
                    st in
                let st2 :=
                  if PyDict.mem vehicle_id (track_last_seen st1)
                  then with_track_last_seen
                         (PyDict.del vehicle_id (track_last_seen st1)) st1
                  else st1 in
                age_loop frame_count rest st2
            | None => age_loop frame_count rest st
            end
        | None => age_loop frame_count rest st
        end
      else age_loop frame_count rest st
  end.

Definition age_tracks (frame_count : Z) (st : VehicleSpeedDetector)
  : VehicleSpeedDetector :=
  age_loop frame_count (PyDict.keys (track_last_seen st)) st.

(** ** Speed estimator *)

Definition new_sample (current_pos : point) (frame_number : Z) (ts : float)
  : sample := {|
  position := current_pos;
  frame := frame_number;
  timestamp := ts;
  license_plate := None;
  license_plate_bbox := None;
  license_plate_confidence := None
|}.

(** Lines 177-187: the scaled speed of a pair of samples, before any
    filtering. *)
Definition scaled_speed (ppm : float) (s1 s2 : sample) : float :=
  (calculate_distance (position s1) (position s2) / ppm
   / (timestamp s2 - timestamp s1) * 3.6 * 1.2)%float.

(** The body of the loop over the last intervals (lines 171-191): the
    speed contributed by the pair [track[-i-1]], [track[-i]], if any. *)
Definition interval_speed (ppm : float) (s1 s2 : sample) : option float :=
  let distance_pixels := calculate_distance (position s1) (position s2) in
  let time_diff := (timestamp s2 - timestamp s1)%float in
  if ((0 <? time_diff) && (1 <? distance_pixels))%float then
    let distance_meters := (distance_pixels / ppm)%float in
    let speed_ms := (distance_meters / time_diff)%float in
    let speed_kmh := (speed_ms * 3.6)%float in
    let speed_kmh := (speed_kmh * 1.2)%float in
    if ((0 <? speed_kmh) && (speed_kmh <? 200))%float
    then Some speed_kmh else None
  else None.

Definition speed_step (ppm : float) (track : list sample)
  (speeds : list float) (i : nat) : list float :=
  match neg_index track (i + 1), neg_index track i with
  | Some s1, Some s2 =>
      match interval_speed ppm s1 s2 with
      | Some v => speeds ++ [v]
      | None => speeds
      end
  | _, _ => speeds
  end.

(** [for i in range(1, min(len(track), 6))] *)
Definition interval_speeds (ppm : float) (track : list sample) : list float :=
  fold_left (speed_step ppm track)
    (seq 1 (Nat.min (List.length track) 6 - 1)) [].

(** The history of [vehicle_id] after the append and the truncation to
    the last 15 entries (lines 152-160). *)
Definition appended_track (vehicle_id : Z) (current_pos : point)
  (frame_number : Z) (ts : float) (st : VehicleSpeedDetector) : list sample :=
  let old :=
    match PyDict.get vehicle_id (vehicle_tracks st) with
    | Some l => l
    | None => []
    end in
  let appended := old ++ [new_sample current_pos frame_number ts] in
  if (15 <? List.length appended)%nat then last_n 15 appended else appended.

(** [calculate_speed(vehicle_id, current_pos, frame_number, fps)]; the
    integer [0] of the early return is the float zero. *)
Definition calculate_speed (vehicle_id : Z) (current_pos : point)
  (frame_number fps : Z) (st : VehicleSpeedDetector)
  : result (float * VehicleSpeedDetector) :=
  ts <- int_truediv frame_number fps ;;
  let track := appended_track vehicle_id current_pos frame_number ts st in
  let st1 :=
    with_vehicle_tracks (PyDict.set vehicle_id track (vehicle_tracks st)) st in
  if (List.length track <? 3)%nat then Ok (0%float, st1)
  else
    let speeds := interval_speeds (pixels_per_meter st1) track in
    match speeds with
    | _ :: _ =>
        let new_speed := np_mean speeds in
        match PyDict.get vehicle_id (vehicle_speeds st1) with
        | Some previous =>
            let alpha := 0.3%float in
            let smoothed_speed :=
              ((1 - alpha) * previous + alpha * new_speed)%float in
            Ok (smoothed_speed,
                with_vehicle_speeds
                  (PyDict.set vehicle_id smoothed_speed (vehicle_speeds st1))
                  st1)
        | None =>
            Ok (new_speed,
                with_vehicle_speeds
                  (PyDict.set vehicle_id new_speed (vehicle_speeds st1)) st1)
        end
    | [] =>
        Ok (match PyDict.get vehicle_id (vehicle_speeds st1) with
            | Some v => v
            | None => 0%float
            end, st1)
    end.

(** ** Images and the external collaborators *)

(** A numpy image: its first two dimensions, its channel count and its
    pixels; [size] is numpy's element count. *)
Record ndarray : Type := {
  shape0 : N;
  shape1 : N;
  channels : N;
  pixels : list N
}.

Definition size (a : ndarray) : N := (shape0 a * shape1 a * channels a)%N.

(** What is drawn on a frame before it is written out. *)
Inductive draw_op : Type :=
| BoxRectangle (x1 y1 x2 y2 : Z) (overspeed : bool)
| IdText (vehicle_id : Z)
| SpeedText (speed : float) (overspeed : bool)
| PlateText (plate : string)
| PlateRectangle (x1 y1 x2 y2 : Z)
| ZoneLines (zone_y1 zone_y2 : Z)
| InfoText (frame_count total_frames : Z) (vehicles : nat).

(** One entry of the recognition engine's answer: [(bbox, text, conf)]. *)
Definition ocr_result : Type := quad * string * float.

(** What the class calls and does not define: the OpenCV filters of
    [detect_license_plate] ([clahe_apply] stands for [cv2.createCLAHE]
    followed by [apply], [cv2_threshold] for the thresholded image) and
    [readtext] of the recognition engine, each of which may raise; the
    character tests of [str]; [round]; and the numpy slice
    [frame[y1:y2, x1:x2]], taken from the frame as drawn on so far. *)
Class Externals : Type := {
  cv2_resize : ndarray -> float -> float -> result ndarray;
  cv2_cvtColor : ndarray -> result ndarray;
  cv2_bilateralFilter : ndarray -> result ndarray;
  clahe_apply : ndarray -> result ndarray;
  cv2_threshold : ndarray -> result ndarray;
  readtext : ndarray -> result (list ocr_result);
  isalnum : ascii -> bool;
  isdigit : ascii -> bool;
  isalpha : ascii -> bool;
  py_round : float -> Z -> float;
  slice_frame : ndarray -> list draw_op -> Z * Z * Z * Z -> ndarray
}.

Fixpoint string_filter (p : ascii -> bool) (s : string) : string :=
  match s with
  | EmptyString => EmptyString
  | String c r => if p c then String c (string_filter p r) else string_filter p r
  end.

Fixpoint string_any (p : ascii -> bool) (s : string) : bool :=
  match s with
  | EmptyString => false
  | String c r => p c || string_any p r
  end.

(** Truth value of an optional string: [None] and [''] are false. *)
Definition truthy (s : option string) : bool :=
  match s with
  | Some (String _ _) => true
  | _ => false
  end.

Definition option_string_eqb (a b : option string) : bool :=
  match a, b with
  | None, None => true
  | Some x, Some y => String.eqb x y
  | _, _ => false
  end.

(** What [detect_license_plate] hands back: the bare [None] of the
    invalid-crop return, or a pair. *)
Inductive plate_result : Type :=
| ReturnNone
| ReturnPair (text : option string) (box : option quad).

Definition candidate : Type := string * float * quad.
Definition cand_conf (c : candidate) : float := snd (fst c).

(** [license_plates.sort(key=lambda x: x[1], reverse=True)]: a stable
    sort, highest confidence first (the keys are above 0.4, so any two of
    them compare). *)
Fixpoint insert_desc (x : candidate) (l : list candidate) : list candidate :=
  match l with
  | [] => [x]
  | y :: r =>
      if (cand_conf x <? cand_conf y)%float
      then y :: insert_desc x r
      else x :: y :: r
  end.

Definition sort_by_confidence (l : list candidate) : list candidate :=
  fold_right insert_desc [] l.

Section Recognition.
Context `{E : Externals}.

(** [''.join(c for c in text if c.isalnum())] *)
Definition clean_text (text : string) : string := string_filter isalnum text.

Definition plate_like (cleaned_text : string) : bool :=
  (4 <=? String.length cleaned_text)%nat
  && string_any isdigit cleaned_text
  && string_any isalpha cleaned_text.

(** The loop over [all_results] (lines 84-90). *)
Fixpoint collect_plates (all_results : list ocr_result) : list candidate :=
  match all_results with
  | [] => []
  | (bbox, text, conf) :: rest =>
      if (0.4 <? conf)%float then
        let cleaned_text := clean_text text in
        if plate_like cleaned_text
        then (cleaned_text, conf, bbox) :: collect_plates rest
        else collect_plates rest
      else collect_plates rest
  end.

(** Lines 92-96. *)
Definition best_plate (all_results : list ocr_result) : plate_result :=
  match collect_plates all_results with
  | [] => ReturnPair None None
  | first :: others =>
      let '(text, _, bbox) :=
        hd first (sort_by_confidence (first :: others)) in
      ReturnPair (Some text) (Some bbox)
  end.

(** The [try] block of [detect_license_plate]. *)
Definition detect_license_plate_body (vehicle_crop : option ndarray)
  : result plate_result :=
  match vehicle_crop with
  | None => Ok ReturnNone
  | Some crop0 =>
      if ((size crop0 =? 0) || (shape0 crop0 =? 0) || (shape1 crop0 =? 0))%N
      then Ok ReturnNone
      else
        let h := shape0 crop0 in
        let w := shape1 crop0 in
        crop1 <-
          (if ((h <? 100) || (w <? 100))%N then
             fh <- int_truediv 100 (Z.of_N h) ;;
             fw <- int_truediv 100 (Z.of_N w) ;;
             let scale_factor := py_max fh fw in
             cv2_resize crop0 scale_factor scale_factor
           else Ok crop0) ;;
        gray <- cv2_cvtColor crop1 ;;
        bilateral <- cv2_bilateralFilter gray ;;
        enhanced <- clahe_apply bilateral ;;
        thresh <- cv2_threshold enhanced ;;
        results1 <- readtext enhanced ;;
        results2 <- readtext thresh ;;
        Ok (best_plate (results1 ++ results2))
  end.

(** [detect_license_plate]: the body under [except Exception]. *)
Definition detect_license_plate (vehicle_crop : option ndarray)
  : result plate_result :=
  try_except (detect_license_plate_body vehicle_crop)
    (fun _ => Ok (ReturnPair None None)).
End Recognition.

(** ** The frame loop of [process_video] *)

(** A box of the detector's answer, after [int(box.cls[0])],
    [map(int, box.xyxy[0])] and [float(box.conf[0])]. *)
Record box : Type := {
  cls : Z;
  xyxy : Z * Z * Z * Z;
  conf : float
}.

(** An entry of [current_detections]. *)
Record detection : Type := {
  bbox : Z * Z * Z * Z;
  center : point;
  confidence : float;
  class_id : Z
}.

(** A decoded frame together with the detector's answer for it: one
    optional list of boxes ([r.boxes]) per result. *)
Record frame_in : Type := {
  image : ndarray;
  results : list (option (list box))
}.

Record DetectionRecord : Type := {
  r_frame_number : Z;
  r_vehicle_id : Z;
  r_speed : float;
  r_license_plate : string;
  r_license_plate_confidence : float;
  r_is_overspeed : bool;
  r_x1 : Z;
  r_y1 : Z;
  r_x2 : Z;
  r_y2 : Z;
  r_confidence : float;
  r_vehicle_class : string;
  r_timestamp : float
}.

Definition vehicle_classes : list Z := [2; 3; 5; 7].

(** [get_class_name] *)
Definition get_class_name (class_id : Z) : string :=
  if class_id =? 2 then "car"%string
  else if class_id =? 3 then "motorcycle"%string
  else if class_id =? 5 then "bus"%string
  else if class_id =? 7 then "truck"%string
  else "unknown"%string.

Definition in_list (x : Z) (l : list Z) : bool := existsb (Z.eqb x) l.

(** Lines 266-284, for the boxes of one result. *)
Fixpoint detections_of_boxes (boxes : list box) : list detection :=
  match boxes with
  | [] => []
  | b :: rest =>
      if in_list (cls b) vehicle_classes then
        let '(x1, y1, x2, y2) := xyxy b in
        if (0.5 <? conf b)%float then
          {| bbox := (x1, y1, x2, y2);
             center := ((x1 + x2) / 2, (y1 + y2) / 2);
             confidence := conf b;
             class_id := cls b |} :: detections_of_boxes rest
        else detections_of_boxes rest
      else detections_of_boxes rest
  end.

(** Lines 261-284: [current_detections]. *)
Fixpoint collect_detections (rs : list (option (list box))) : list detection :=
  match rs with
  | [] => []
  | None :: rest => collect_detections rest
  | Some boxes :: rest => detections_of_boxes boxes ++ collect_detections rest
  end.

(** The three assignments of lines 340-342 on one history entry. *)
Definition store_plate (plate : option string) (plate_bbox : option quad)
  (plate_confidence : float) (s : sample) : sample := {|
  position := position s;
  frame := frame s;
  timestamp := timestamp s;
  license_plate := plate;
  license_plate_bbox := plate_bbox;
  license_plate_confidence := Some plate_confidence
|}.

(** The loop of lines 346-350 over [reversed(track)]. *)
Fixpoint first_cached (reversed_track : list sample)
  : option (string * option quad) :=
  match reversed_track with
  | [] => None
  | pos :: rest =>
      if truthy (license_plate pos) then
        match license_plate pos with
        | Some p => Some (p, license_plate_bbox pos)
        | None => first_cached rest
        end
      else first_cached rest
  end.

Definition cached_plate (track : list sample) : option (string * option quad) :=
  first_cached (rev track).

(** The loop of lines 417-420 over [reversed(track)]. *)
Fixpoint first_confidence (plate : option string)
  (reversed_track : list sample) : option float :=
  match reversed_track with
  | [] => None
  | pos :: rest =>
      match license_plate_confidence pos with
      | Some c =>
          if option_string_eqb (license_plate pos) plate then Some c
          else first_confidence plate rest
      | None => first_confidence plate rest
      end
  end.

Definition unpack_plate (r : plate_result)
  : result (option string * option quad) :=
  match r with
  | ReturnNone => Raise TypeError
  | ReturnPair text b => Ok (text, b)
  end.

Definition unpack_zone (z : option (Z * Z * Z * Z)) : result (Z * Z * Z * Z) :=
  match z with
  | Some q => Ok q
  | None => Raise TypeError
  end.

(** Lines 318-319: whether recognition runs for this detection. *)
Definition recognition_due (frame_count : Z) (speed : float)
  (vehicle_crop : ndarray) : bool :=
  let ocr_frequency := if (speed <? 40)%float then 5 else 10 in
  (frame_count mod ocr_frequency =? 0) && (0 <? size vehicle_crop)%N.

Section Pipeline.
Context `{E : Externals}.

(** Lines 327-338: the confidence of the first raw reading whose clean
    text is the plate; any failure of the engine leaves [0.0]. *)
Fixpoint matching_confidence (plate : string) (results1 : list ocr_result)
  : float :=
  match results1 with
  | [] => 0%float
  | (_, text, c) :: rest =>
      if String.eqb (clean_text text) plate then c
      else matching_confidence plate rest
  end.

Definition ocr_confidence (vehicle_crop : ndarray) (plate : string) : float :=
  match readtext vehicle_crop with
  | Ok results1 => matching_confidence plate results1
  | Raise _ => 0%float
  end.

(** Lines 313-350: the plate for this detection, read now or taken
    from the history. *)
Definition plate_stage (frame_count : Z) (speed : float) (vehicle_id : Z)
  (vehicle_crop : ndarray) (st : VehicleSpeedDetector)
  : result (option string * option quad * VehicleSpeedDetector) :=
  if recognition_due frame_count speed vehicle_crop then
    r <- detect_license_plate (Some vehicle_crop) ;;
    '(plate, plate_bbox) <- unpack_plate r ;;
    match plate with
    | Some text =>
        if truthy plate && PyDict.mem vehicle_id (vehicle_tracks st) then
          match PyDict.get vehicle_id (vehicle_tracks st) with
          | Some (s :: track) =>
              let plate_confidence := ocr_confidence vehicle_crop text in
              Ok (plate, plate_bbox,
                  with_vehicle_tracks
                    (PyDict.set vehicle_id
                       (update_last
                          (store_plate plate plate_bbox plate_confidence)
                          (s :: track))
                       (vehicle_tracks st)) st)
          | _ => Ok (plate, plate_bbox, st)
          end
        else Ok (plate, plate_bbox, st)
    | None => Ok (plate, plate_bbox, st)
    end
  else
    match PyDict.get vehicle_id (vehicle_tracks st) with
    | Some (s :: track) =>
        match cached_plate (s :: track) with
        | Some (p, b) => Ok (Some p, b, st)
        | None => Ok (None, None, st)
        end
    | _ => Ok (None, None, st)
    end.

(** Lines 352-397: what is drawn for one detection. *)
Definition overlay (d : detection) (vehicle_id : Z) (speed : float)
  (is_overspeed : bool) (zone : Z * Z * Z * Z)
  (plate : option string) (plate_bbox : option quad) : list draw_op :=
  let '(x1, y1, x2, y2) := bbox d in
  let '(_, center_y) := center d in
  let '(zone_x1, zone_y1, zone_x2, zone_y2) := zone in
  [BoxRectangle x1 y1 x2 y2 is_overspeed; IdText vehicle_id]
  ++ (if (zone_y1 <=? center_y) && (center_y <=? zone_y2)
      then [SpeedText speed is_overspeed] else [])
  ++ (if truthy plate then
        match plate with
        | Some p =>
            PlateText p ::
            match plate_bbox with
            | Some q =>
                match nth_error q 0, nth_error q 2 with
                | Some (lp_x1, lp_y1), Some (lp_x2, lp_y2) =>
                    [PlateRectangle (x1 + lp_x1) (y1 + lp_y1)
                       (x1 + lp_x2) (y1 + lp_y2)]
                | _, _ => []
                end
            | None => []
            end
        | None => []
        end
      else []).

(** Lines 399-422: the records appended for one detection. *)
Definition emit_record (frame_count fps : Z) (d : detection)
  (vehicle_id : Z) (speed : float) (is_overspeed : bool)
  (plate : option string) (st : VehicleSpeedDetector)
  : result (list DetectionRecord) :=
  if (0 <? speed)%float then
    let '(x1, y1, x2, y2) := bbox d in
    ts <- int_truediv frame_count fps ;;
    let plate_confidence :=
      match PyDict.get vehicle_id (vehicle_tracks st) with
      | Some (s :: track) =>
          match first_confidence plate (rev (s :: track)) with
          | Some c => c
          | None => 0%float
          end
      | _ => 0%float
      end in
    Ok [{| r_frame_number := frame_count;
           r_vehicle_id := vehicle_id;
           r_speed := py_round speed 2;
           r_license_plate :=
             match plate with
             | Some p => if truthy plate then p else "N/A"%string
             | None => "N/A"%string
             end;
           r_license_plate_confidence := plate_confidence;
           r_is_overspeed := is_overspeed;
           r_x1 := x1; r_y1 := y1; r_x2 := x2; r_y2 := y2;
           r_confidence := py_round (confidence d) 2;
           r_vehicle_class := get_class_name (class_id d);
           r_timestamp := ts |}]
  else Ok [].

(** The state threaded through the detections of one frame: the
    detector, [detection_data] and what has been drawn on the frame. *)
Definition frame_acc : Type :=
  (VehicleSpeedDetector * list DetectionRecord * list draw_op)%type.

(** Lines 300-422: the body of [for detection in current_detections].
    The set [current_active_ids] is filled and never read; it is left
    out. *)
Definition process_detection (frame : ndarray) (frame_count fps : Z)
  (acc : frame_acc) (d : detection) : result frame_acc :=
  let '(st, detection_data, canvas) := acc in
  let '(center_x, center_y) := center d in
  '(vehicle_id, st1) <- assign_vehicle_id center_x center_y frame_count st ;;
  '(speed, st2) <-
    calculate_speed vehicle_id (center_x, center_y) frame_count fps st1 ;;
  let '(x1, y1, x2, y2) := bbox d in
  let vehicle_crop := slice_frame frame canvas (x1, y1, x2, y2) in
  '(plate, plate_bbox, st3) <-
    plate_stage frame_count speed vehicle_id vehicle_crop st2 ;;
  let is_overspeed := (Z2float (speed_limit st3) <? speed)%float in
  zone <- unpack_zone (speed_detection_zone st3) ;;
  let drawn :=
    overlay d vehicle_id speed is_overspeed zone plate plate_bbox in
  records <-
    emit_record frame_count fps d vehicle_id speed is_overspeed plate st3 ;;
  Ok (st3, detection_data ++ records, canvas ++ drawn).

Fixpoint process_detections (frame : ndarray) (frame_count fps : Z)
  (acc : frame_acc) (ds : list detection) : result frame_acc :=
  match ds with
  | [] => Ok acc
  | d :: rest =>
      acc1 <- process_detection frame frame_count fps acc d ;;
      process_detections frame frame_count fps acc1 rest
  end.

(** The state of the [while] loop. *)
Record run_state : Type := {
  detector : VehicleSpeedDetector;
  frame_count : Z;
  detection_data : list DetectionRecord;
  written : list (list draw_op);
  progress : list float
}.

(** One turn of the [while] loop (lines 251-435) on a frame that was
    read. The report printed every 100 frames depends on the wall clock
    and is left out. *)
Definition process_frame (fps total_frames : Z) (rs : run_state)
  (fr : frame_in) : result run_state :=
  let frame_count1 := frame_count rs + 1 in
  fraction <- int_truediv frame_count1 total_frames ;;
  let percent := (fraction * 100)%float in
  let current_detections := collect_detections (results fr) in
  let st := age_tracks frame_count1 (detector rs) in
  '(st1, data1, canvas) <-
    process_detections (image fr) frame_count1 fps
      (st, detection_data rs, []) current_detections ;;
  '(_, zone_y1, _, zone_y2) <- unpack_zone (speed_detection_zone st1) ;;
  let canvas1 :=
    canvas ++ [ZoneLines zone_y1 zone_y2;
               InfoText frame_count1 total_frames
                 (List.length current_detections)] in
  Ok {| detector := st1;
        frame_count := frame_count1;
        detection_data := data1;
        written := written rs ++ [canvas1];
        progress := progress rs ++ [percent] |}.

Fixpoint process_frames (fps total_frames : Z) (rs : run_state)
  (frames : list frame_in) : result run_state :=
  match frames with
  | [] => Ok rs
  | fr :: rest =>
      rs1 <- process_frame fps total_frames rs fr ;;
      process_frames fps total_frames rs1 rest
  end.

(** The properties of the opened video and its frames. *)
Record video : Type := {
  fps : Z;
  width : Z;
  height : Z;
  total_frames : Z;
  frames : list frame_in
}.

(** Lines 220-239: the zone and the scale, set before the loop. *)
Definition calibrate (v : video) (st : VehicleSpeedDetector)
  : result VehicleSpeedDetector :=
  zone_top <- py_int (Z2float (height v) * 0.4)%float ;;
  zone_bottom <- py_int (Z2float (height v) * 0.7)%float ;;
  let estimated_road_width_pixels := (Z2float (width v) * 0.6)%float in
  let estimated_road_width_meters := (Z2float 2 * 3.5)%float in
  Ok (with_pixels_per_meter
        (py_min 8
           (py_max 5
              (estimated_road_width_pixels / estimated_road_width_meters)))
        (with_speed_detection_zone
           (Some (0, zone_top, width v, zone_bottom)) st)).

(** [process_video], from a detector in state [st]; its return value is
    the length of [detection_data] in the final state. *)
Definition process_video_from (st : VehicleSpeedDetector) (v : video)
  : result run_state :=
  st1 <- calibrate v st ;;
  process_frames (fps v) (total_frames v)
    {| detector := st1;
       frame_count := 0;
       detection_data := [];
       written := [];
       progress := [] |}
    (frames v).

(** [VehicleSpeedDetector().process_video(...)] *)
Definition process_video (v : video) : result run_state :=
  process_video_from init v.
End Pipeline.

(** ** Notions used in the statements *)

(** A number that compares above another one is not a NaN. *)
Definition comparable (x : float) : Prop := Prim2SF x <> S754_nan.

(** The head of a list dominates the list. *)
Definition head_is_best (l : list candidate) : Prop :=
  match l with
  | [] => True
  | h :: _ => forall c, In c l -> (cand_conf c <=? cand_conf h)%float = true
  end.

(** A history entry that the loop of lines 346-350 passes over. *)
Definition plateless (s : sample) : Prop := truthy (license_plate s) = false.

(** Consecutive calls of [calculate_speed] for one vehicle, one per
    sighting [(position, frame)], with nothing stored in between. *)
Fixpoint feed (vehicle_id fps : Z) (sightings : list (point * Z))
  (st : VehicleSpeedDetector) : result VehicleSpeedDetector :=
  match sightings with
  | [] => Ok st
  | (current_pos, frame_number) :: rest =>
      '(_, st1) <- calculate_speed vehicle_id current_pos frame_number fps st ;;
      feed vehicle_id fps rest st1
  end.

(** What the loop relies on between two steps: the keys of
    [inactive_tracks] are distinct, as the keys of a dictionary are, and
    the zone has been set. *)
Definition ready (st : VehicleSpeedDetector) : Prop :=
  NoDup (PyDict.keys (inactive_tracks st))
  /\ exists zone, speed_detection_zone st = Some zone.

(** The history held for [vehicle_id], empty when there is none. *)
Definition track_of (vehicle_id : Z) (st : VehicleSpeedDetector) : list sample :=
  match PyDict.get vehicle_id (vehicle_tracks st) with
  | Some l => l
  | None => []
  end.

(** The last [k] entries of a history carry no plate, and the history
    has been truncated at least once when [k] is not zero. *)
Definition recent_plateless (k : nat) (track : list sample) : Prop :=
  Forall plateless (last_n k track)
  /\ ((1 <= k)%nat -> (List.length track <= 15)%nat).

(** The identities written on a frame by [cv2.putText(frame, "ID:...")]. *)
Definition drawn_ids (canvas : list draw_op) : list Z :=
  flat_map (fun op => match op with IdText v => [v] | _ => [] end) canvas.

(** Each detection lies within the distance gate of the one before it,
    starting from the position [p]. *)
Fixpoint chain (p : point) (ds : list detection) : Prop :=
  match ds with
  | [] => True
  | d :: rest =>
      (calculate_distance (center d) p <? 50)%float = true
      /\ chain (center d) rest
  end.

Definition within_gate (ds : list detection) : Prop :=
  match ds with
  | [] => True
  | d :: rest => chain (center d) rest
  end.

(** The frame holds exactly the detection [d]. *)
Definition single_detection (fr : frame_in) (d : detection) : Prop :=
  collect_detections (results fr) = [d].

(** The store holds the history [h] of identity 1 and nothing else, and
    the history ends at [p]. *)
Definition tracks_one (st : VehicleSpeedDetector) (p : point) : Prop :=
  exists h s,
    vehicle_tracks st = [(1, h)] /\ last_sample h = Some s /\ position s = p.

(** ** Concrete collaborators and inputs used by the examples *)

Definition ascii_isdigit (c : ascii) : bool :=
  let n := nat_of_ascii c in ((48 <=? n) && (n <=? 57))%nat.

Definition ascii_isalpha (c : ascii) : bool :=
  let n := nat_of_ascii c in
  (((65 <=? n) && (n <=? 90)) || ((97 <=? n) && (n <=? 122)))%nat.

Definition ascii_isalnum (c : ascii) : bool :=
  ascii_isalpha c || ascii_isdigit c.

(** The crop of a box as numpy shapes it when the box lies inside the
    frame; its pixels play no role. *)
Definition plain_slice (frame : ndarray) (canvas : list draw_op)
  (b : Z * Z * Z * Z) : ndarray :=
  let '(x1, y1, x2, y2) := b in
  {| shape0 := Z.to_N (y2 - y1);
     shape1 := Z.to_N (x2 - x1);
     channels := channels frame;
     pixels := [] |}.

(** An engine that gives the same answer for every image; the filters
    hand their input on. *)
Definition fixed_engine (answer : result (list ocr_result)) : Externals := {|
  cv2_resize := fun a _ _ => Ok a;
  cv2_cvtColor := fun a => Ok a;
  cv2_bilateralFilter := fun a => Ok a;
  clahe_apply := fun a => Ok a;
  cv2_threshold := fun a => Ok a;
  readtext := fun _ => answer;
  isalnum := ascii_isalnum;
  isdigit := ascii_isdigit;
  isalpha := ascii_isalpha;
  py_round := fun x _ => x;
  slice_frame := plain_slice
|}.

(** An engine that reads nothing, and one that always fails. *)
Definition silent_engine : Externals := fixed_engine (Ok []).
Definition failing_engine : Externals := fixed_engine (Raise (EngineError 1)).

Definition blank_image : ndarray :=
  {| shape0 := 480; shape1 := 640; channels := 3; pixels := [] |}.

(** A car box of 20 by 20 pixels centred on [(cx, cy)], detector
    confidence 0.9. *)
Definition car_at (cx cy : Z) : box :=
  {| cls := 2; xyxy := (cx - 10, cy - 10, cx + 10, cy + 10); conf := 0.9 |}.

Definition frame_of (boxes : list box) : frame_in :=
  {| image := blank_image; results := [Some boxes] |}.

Definition clip (frs : list frame_in) : video :=
  {| fps := 30; width := 640; height := 480;
     total_frames := Z.of_nat (List.length frs); frames := frs |}.

(** One sighting at [(100, 100)] in frame 1, then 32 empty frames. *)
Definition one_sighting : video :=
  clip (frame_of [car_at 100 100] :: repeat (frame_of []) 32).

(** The same sighting, 30 empty frames, then the vehicle seen at
    [(140, 100)] in frame 32 and at [(180, 100)] in frame 33. *)
Definition sighting_then_drift : video :=
  clip (frame_of [car_at 100 100] :: repeat (frame_of []) 30
        ++ [frame_of [car_at 140 100]; frame_of [car_at 180 100]]).

(** The drift, followed by a detection back at [(100, 100)] in frame 34. *)
Definition drift_and_return : video :=
  clip (frame_of [car_at 100 100] :: repeat (frame_of []) 30
        ++ [frame_of [car_at 140 100]; frame_of [car_at 180 100];
            frame_of [car_at 100 100]]).

(** Two vehicles 60 pixels apart in one frame; and the same frame
    followed by one with a single detection between the two. *)
Definition two_vehicles : video :=
  clip [frame_of [car_at 100 100; car_at 160 100]].

Definition two_then_one : video :=
  clip [frame_of [car_at 100 100; car_at 160 100];
        frame_of [car_at 145 100]].

(** A history entry as [calculate_speed] builds it at 30 frames per
    second. *)
Definition sample_at (p : point) (f : Z) : sample :=
  new_sample p f (Z2float f / Z2float 30)%float.

(** A detector whose only track, of identity 1, has the given history
    and, possibly, a smoothed speed. *)
Definition tracking (history : list sample) (smoothed : option float)
  : VehicleSpeedDetector :=
  with_vehicle_tracks [(1, history)]
    (with_vehicle_speeds
       (match smoothed with Some v => [(1, v)] | None => [] end)
       (with_next_vehicle_id 2
          (with_track_last_seen [(1, 2)] init))).

(** Two samples one pixel apart, and two samples ten pixels apart. *)
Definition crawling : VehicleSpeedDetector :=
  tracking [sample_at (100, 100) 1; sample_at (101, 100) 2] None.

Definition cruising (smoothed : option float) : VehicleSpeedDetector :=
  tracking [sample_at (100, 100) 1; sample_at (100, 110) 2] smoothed.

(** Two samples at the same place. *)
Definition parked (smoothed : option float) : VehicleSpeedDetector :=
  tracking [sample_at (100, 100) 1; sample_at (100, 100) 2] smoothed.

(** The detection that [car_at cx cy] becomes in [current_detections],
    and the zone of a frame 480 pixels high. *)
Definition seen_at (cx cy : Z) : detection :=
  {| bbox := (cx - 10, cy - 10, cx + 10, cy + 10);
     center := (cx, cy);
     confidence := 0.9;
     class_id := 2 |}.

Definition zone_480 : Z * Z * Z * Z := (0, 192, 640, 336).

(** Four readings of one crop: too short, digits only, a plate, and a
    weaker plate. *)
Definition corner_quad : quad := [(0, 0); (60, 0); (60, 20); (0, 20)].

Definition sample_readings : list ocr_result :=
  [(corner_quad, "AB"%string, 0.99%float);
   (corner_quad, "1234"%string, 0.95%float);
   (corner_quad, "KA-01 AB 1234"%string, 0.8%float);
   (corner_quad, "MH12"%string, 0.6%float)].

Definition reading_engine : Externals := fixed_engine (Ok sample_readings).

Definition crop_120_200 : ndarray :=
  {| shape0 := 120; shape1 := 200; channels := 3; pixels := [] |}.

(** A vehicle moving two pixels per frame, slow enough for recognition
    to run on frame 5. *)
Definition five_frames : video :=
  clip [frame_of [car_at 100 100]; frame_of [car_at 100 102];
        frame_of [car_at 100 104]; frame_of [car_at 100 106];
        frame_of [car_at 100 108]].

(** A track whose only sample carries a plate, and fifteen later
    sightings one pixel apart. *)
Definition plate_read_once : VehicleSpeedDetector :=
  tracking
    [store_plate (Some "KA01AB1234"%string) (Some corner_quad) 0.8
       (sample_at (100, 100) 1)]
    None.

Definition fifteen_sightings : list (point * Z) :=
  map (fun k => ((100, 100 + Z.of_nat k), 1 + Z.of_nat k)) (seq 1 15).

(** The detections of [five_frames]. *)
Definition five_detections : list detection :=
  [seen_at 100 100; seen_at 100 102; seen_at 100 104; seen_at 100 106;
   seen_at 100 108].

(** ** Notions used in the further properties *)

(** The distance from a detection to the end of a history that is not
    empty. *)
Definition track_distance (current_pos : point) (positions : list sample)
  : option float :=
  match last_sample positions with
  | Some s => Some (calculate_distance current_pos (position s))
  | None => None
  end.

(** The history ends at distance [d] from the detection, inside the
    gate. *)
Definition in_gate (current_pos : point) (max_distance : float)
  (positions : list sample) (d : float) : Prop :=
  track_distance current_pos positions = Some d
  /\ (d <? max_distance)%float = true.

(** The identity [k] is a key of one of the four dictionaries. *)
Definition known (k : Z) (st : VehicleSpeedDetector) : Prop :=
  In k (PyDict.keys (vehicle_tracks st))
  \/ In k (PyDict.keys (vehicle_speeds st))
  \/ In k (PyDict.keys (inactive_tracks st))
  \/ In k (PyDict.keys (track_last_seen st)).

(** Every identity in use is below the counter. *)
Definition ids_below (st : VehicleSpeedDetector) : Prop :=
  1 <= next_vehicle_id st
  /\ forall k, known k st -> 1 <= k < next_vehicle_id st.

(** Two active tracks, ending at [(100, 100)] and [(160, 100)]. *)
Definition two_tracks : VehicleSpeedDetector :=
  with_vehicle_tracks
    [(1, [sample_at (100, 100) 1]); (2, [sample_at (160, 100) 1])]
    (with_next_vehicle_id 3
       (with_track_last_seen [(1, 1); (2, 1)] init)).

(** All the detections of a list of frames, in the order in which the
    run meets them. *)
Definition all_detections (frs : list frame_in) : list detection :=
  flat_map (fun fr => collect_detections (results fr)) frs.

(** The state of the loop before the first frame. *)
Definition start_state (st : VehicleSpeedDetector) : run_state :=
  {| detector := st;
     frame_count := 0;
     detection_data := [];
     written := [];
     progress := [] |}.

(** A history of seven samples, ten pixels apart except for the first,
    which is at [start]. *)
Definition seven_samples (start : point) : list sample :=
  sample_at start 1
  :: map (fun k => sample_at (100, 100 + 10 * Z.of_nat k) (1 + Z.of_nat k))
       (seq 1 6).

(** [h] is the first of the entries of [l] with the highest confidence:
    the entries before it are strictly below it, the entries after it
    are not above it. *)
Definition first_best (l : list candidate) (h : candidate) : Prop :=
  exists pre post,
    l = pre ++ h :: post
    /\ (forall c, In c pre -> (cand_conf c <? cand_conf h)%float = true)
    /\ (forall c, In c post -> (cand_conf c <=? cand_conf h)%float = true).


(** The fields that the loop reads and never writes. *)
Definition settings (st : VehicleSpeedDetector)
  : Z * Z * float * option (Z * Z * Z * Z) :=
  (track_max_age st, speed_limit st, pixels_per_meter st,
   speed_detection_zone st).

(** The record [r] describes the detection [d] of frame [k], at the
    frame rate [fps] and under the speed limit [limit]: it was written
    for a positive speed, which it holds rounded, and its flag compares
    the speed as computed with the limit. *)
Definition record_of `{E : Externals} (fps limit k : Z) (d : detection)
  (r : DetectionRecord) : Prop :=
  r_frame_number r = k
  /\ (r_x1 r, r_y1 r, r_x2 r, r_y2 r) = bbox d
  /\ r_confidence r = py_round (confidence d) 2
  /\ r_vehicle_class r = get_class_name (class_id d)
  /\ r_timestamp r = (Z2float k / Z2float fps)%float
  /\ exists speed,
       (0 <? speed)%float = true
       /\ r_speed r = py_round speed 2
       /\ r_is_overspeed r = (Z2float limit <? speed)%float.

(** The record [r] describes a detection of the frame of [frs] that its
    frame number names, counting from 1. *)
Definition from_frames `{E : Externals} (fps limit : Z) (frs : list frame_in)
  (r : DetectionRecord) : Prop :=
  exists fr d,
    1 <= r_frame_number r
    /\ nth_error frs (Z.to_nat (r_frame_number r - 1)) = Some fr
    /\ In d (collect_detections (results fr))
    /\ record_of fps limit (r_frame_number r) d r.

Fixpoint nondecreasing (l : list Z) : Prop :=
  match l with
  | [] => True
  | x :: r => Forall (Z.le x) r /\ nondecreasing r
  end.

(** What is written on the [k]-th frame after the overlays of its
    detections. *)
Definition frame_footer (zone : Z * Z * Z * Z) (k total_frames : Z)
  (fr : frame_in) : list draw_op :=
  [ZoneLines (snd (fst (fst zone))) (snd zone);
   InfoText k total_frames (List.length (collect_detections (results fr)))].

(** What holds of the state of the loop after the frames [done]. *)
Definition run_invariant `{E : Externals} (fps total : Z)
  (st0 : VehicleSpeedDetector) (done : list frame_in) (rs : run_state)
  : Prop :=
  settings (detector rs) = settings st0
  /\ frame_count rs = Z.of_nat (List.length done)
  /\ Forall (from_frames fps (speed_limit st0) done) (detection_data rs)
  /\ nondecreasing (map r_frame_number (detection_data rs))
  /\ Forall (fun r => r_frame_number r <= frame_count rs) (detection_data rs)
  /\ (List.length (detection_data rs)
      <= List.length (all_detections done))%nat
  /\ List.length (written rs) = List.length done
  /\ progress rs
     = map (fun k => (Z2float (Z.of_nat k) / Z2float total * 100)%float)
         (seq 1 (List.length done)).

(** The frame [fr] as it is written out: the overlays of its detections,
    one identity label for each, then the zone lines and the frame
    information. *)
Definition written_for (total_frames : Z) (canvas : list draw_op)
  (fr : frame_in) : Prop :=
  exists drawn zone k,
    canvas = drawn ++ frame_footer zone k total_frames fr
    /\ List.length (drawn_ids drawn)
       = List.length (collect_detections (results fr)).

(** A detector's answer with a car, a person, a car at confidence 0.5
    exactly, and a result without boxes. *)
Definition mixed_answer : list (option (list box)) :=
  [Some [car_at 100 100;
         {| cls := 0; xyxy := (0, 0, 10, 10); conf := 0.9 |};
         {| cls := 2; xyxy := (0, 0, 10, 10); conf := 0.5 |}];
   None].

(** Every history has between one and fifteen entries. *)
Definition tracks_bounded (st : VehicleSpeedDetector) : Prop :=
  forall k h,
    In (k, h) (vehicle_tracks st) -> (1 <= List.length h <= 15)%nat.

(** Videos whose container reports no frame count, or no frame rate. *)
Definition uncounted (frs : list frame_in) : video :=
  {| fps := 30; width := 640; height := 480; total_frames := 0;
     frames := frs |}.

Definition unpaced (frs : list frame_in) : video :=
  {| fps := 0; width := 640; height := 480;
     total_frames := Z.of_nat (List.length frs); frames := frs |}.

(** Two dormant tracks and no active one. *)
Definition two_dormant : VehicleSpeedDetector :=
  with_inactive_tracks [(1, (100, 100)); (2, (160, 100))]
    (with_next_vehicle_id 3 init).

(** The sample [s] was appended in the frame of [frs] that it names,
    counting from 1, at the centre of one of that frame's detections and
    with that frame's time. *)
Definition sample_from (fps : Z) (frs : list frame_in) (s : sample) : Prop :=
  exists fr d,
    1 <= frame s
    /\ nth_error frs (Z.to_nat (frame s - 1)) = Some fr
    /\ In d (collect_detections (results fr))
    /\ position s = center d
    /\ timestamp s = (Z2float (frame s) / Z2float fps)%float.

(** A sample that has one of the three plate keys has them from a frame
    on which recognition runs: its frame number is a multiple of 5, its
    plate is not empty and it has a confidence. *)
Definition plate_on_fifth (s : sample) : Prop :=
  license_plate s <> None \/ license_plate_bbox s <> None
  \/ license_plate_confidence s <> None ->
  frame s mod 5 = 0
  /\ truthy (license_plate s) = true
  /\ license_plate_confidence s <> None.

Definition samples_sound (fps : Z) (frs : list frame_in)
  (st : VehicleSpeedDetector) : Prop :=
  forall k h s,
    In (k, h) (vehicle_tracks st) -> In s h ->
    sample_from fps frs s /\ plate_on_fifth s.

(** A track seen in frames 3 and 4, two pixels apart. *)
Definition seen_twice : VehicleSpeedDetector :=
  with_speed_detection_zone (Some zone_480)
    (tracking [sample_at (100, 100) 3; sample_at (100, 102) 4] None).

(** A crop without pixels, as numpy cuts it for a box of no height. *)
Definition empty_crop : ndarray :=
  {| shape0 := 0; shape1 := 20; channels := 3; pixels := [] |}.

(** The number is above zero and, when it is finite, at least [k] times
    the smallest positive binary64 number, [2 ^ emin]. *)
Definition at_least (k : Z) (x : float) : Prop :=
  Prim2SF x = S754_infinity false
  \/ exists m e,
       Prim2SF x = S754_finite false m e /\ k <= Zpos m * 2 ^ (e - emin).

(** An engine whose answer depends on the image it is shown: the
    conversion to gray leaves one channel, the threshold fills the
    pixels, and [readtext] tells the crop as it was cut out from the
    enhanced image and from the thresholded one. *)
Definition staged_engine (raw enhanced thresholded : result (list ocr_result))
  : Externals := {|
  cv2_resize := fun a _ _ => Ok a;
  cv2_cvtColor := fun a =>
    Ok {| shape0 := shape0 a; shape1 := shape1 a; channels := 1;
          pixels := pixels a |};
  cv2_bilateralFilter := fun a => Ok a;
  clahe_apply := fun a => Ok a;
  cv2_threshold := fun a =>
    Ok {| shape0 := shape0 a; shape1 := shape1 a; channels := channels a;
          pixels := [255%N] |};
  readtext := fun a =>
    if (channels a =? 1)%N then
      match pixels a with
      | [] => enhanced
      | _ :: _ => thresholded
      end
    else raw;
  isalnum := ascii_isalnum;
  isdigit := ascii_isdigit;
  isalpha := ascii_isalpha;
  py_round := fun x _ => x;
  slice_frame := plain_slice
|}.

(** Two plates read with the same confidence, one on the enhanced image
    and one on the thresholded image. *)
Definition enhanced_reading : list ocr_result :=
  [(corner_quad, "KA-01 AB 1234"%string, 0.8%float)].

Definition thresholded_reading : list ocr_result :=
  [([(5, 5); (65, 5); (65, 25); (5, 25)]%Z, "MH12 AB 0001"%string,
    0.8%float)].

Definition tie_engine : Externals :=
  staged_engine (Ok []) (Ok enhanced_reading) (Ok thresholded_reading).

(** The crop as it was cut out read twice as the same plate, with two
    confidences, both below the one of the enhanced image; a crop read as
    another plate; and a crop on which the engine fails. *)
Definition raw_twice : list ocr_result :=
  [(corner_quad, "AB"%string, 0.99%float);
   (corner_quad, "KA01 AB1234"%string, 0.5%float);
   (corner_quad, "KA-01-AB-1234"%string, 0.7%float)].

Definition twice_engine : Externals :=
  staged_engine (Ok raw_twice) (Ok enhanced_reading) (Ok []).

Definition other_engine : Externals :=
  staged_engine (Ok [(corner_quad, "MH12 AB 0001"%string, 0.9%float)])
    (Ok enhanced_reading) (Ok []).

Definition raw_failing_engine : Externals :=
  staged_engine (Raise (EngineError 1)) (Ok enhanced_reading) (Ok []).

(** * Properties *)

(** ** Dictionaries *)

Module PyDictFacts.
Section Facts.
Context {V : Type}.
Implicit Types (d : PyDict.t V) (k : Z) (v : V).

Lemma get_set_same d k v : PyDict.get k (PyDict.set k v d) = Some v.
Proof.
  induction d as [|[k' v'] r IH]; simpl.
  - now rewrite Z.eqb_refl.
  - destruct (k =? k') eqn:E; simpl.
    + now rewrite Z.eqb_refl.
    + now rewrite E.
Qed.

Lemma get_set_other d k k' v :
  k <> k' -> PyDict.get k' (PyDict.set k v d) = PyDict.get k' d.
Proof.
  intros Hne. induction d as [|[k0 v0] r IH]; simpl.
  - destruct (k' =? k) eqn:E; [apply Z.eqb_eq in E; congruence | reflexivity].
  - destruct (k =? k0) eqn:E; simpl.
    + apply Z.eqb_eq in E; subst k0.
      destruct (k' =? k) eqn:E'; [apply Z.eqb_eq in E'; congruence | reflexivity].
    + now rewrite IH.
Qed.

Lemma get_del_same d k : PyDict.get k (PyDict.del k d) = None.
Proof.
  induction d as [|[k0 v0] r IH]; simpl; [reflexivity|].
  destruct (k =? k0) eqn:E; simpl; [assumption | now rewrite E].
Qed.

Lemma get_del_other d k k' :
  k <> k' -> PyDict.get k' (PyDict.del k d) = PyDict.get k' d.
Proof.
  intros Hne. induction d as [|[k0 v0] r IH]; simpl; [reflexivity|].
  destruct (k =? k0) eqn:E; simpl.
  - apply Z.eqb_eq in E; subst k0.
    destruct (k' =? k) eqn:E'; [apply Z.eqb_eq in E'; congruence | assumption].
  - now rewrite IH.
Qed.

Lemma in_keys_get d k :
  In k (PyDict.keys d) <-> exists v, PyDict.get k d = Some v.
Proof.
  induction d as [|[k0 v0] r IH]; simpl.
  - split; [tauto | intros [v Hv]; discriminate].
  - destruct (k =? k0) eqn:E.
    + apply Z.eqb_eq in E; subst. split; eauto.
    + apply Z.eqb_neq in E. rewrite <- IH. split; [intros [?|?]|]; try tauto.
      congruence.
Qed.

Lemma in_keys_set d k k' v :
  In k' (PyDict.keys (PyDict.set k v d)) <-> k' = k \/ In k' (PyDict.keys d).
Proof.
  rewrite !in_keys_get. destruct (Z.eq_dec k k') as [->|Hne].
  - rewrite get_set_same. split; eauto.
  - rewrite get_set_other by assumption. split; [eauto|].
    intros [?|?]; [congruence | assumption].
Qed.

Lemma in_keys_del d k k' :
  In k' (PyDict.keys (PyDict.del k d)) <-> k' <> k /\ In k' (PyDict.keys d).
Proof.
  rewrite !in_keys_get. destruct (Z.eq_dec k k') as [->|Hne].
  - rewrite get_del_same. split; [intros [v Hv]; discriminate | tauto].
  - rewrite get_del_other by assumption. split; [intuition congruence | tauto].
Qed.

Lemma NoDup_keys_set d k v :
  NoDup (PyDict.keys d) -> NoDup (PyDict.keys (PyDict.set k v d)).
Proof.
  induction d as [|[k0 v0] r IH]; simpl; intros Hnd.
  - constructor; [tauto | constructor].
  - inversion Hnd as [|? ? Hnotin Hr]; subst.
    destruct (k =? k0) eqn:E; simpl.
    + apply Z.eqb_eq in E; subst. now constructor.
    + apply Z.eqb_neq in E. constructor; [|now apply IH].
      intros Hin. apply (in_keys_set r k k0 v) in Hin.
      destruct Hin; [congruence | contradiction].
Qed.

Lemma NoDup_keys_del d k :
  NoDup (PyDict.keys d) -> NoDup (PyDict.keys (PyDict.del k d)).
Proof.
  induction d as [|[k0 v0] r IH]; simpl; intros Hnd; [constructor|].
  inversion Hnd as [|? ? Hnotin Hr]; subst.
  destruct (k =? k0) eqn:E; simpl; [now apply IH|].
  constructor; [|now apply IH].
  intros Hin. apply (in_keys_del r k k0) in Hin. tauto.
Qed.
End Facts.
End PyDictFacts.

(** ** Order on binary64 *)

Lemma ltb_below_infinity (d b : float) :
  (d <? b)%float = true -> (d <? PrimFloat.infinity)%float = true.
Proof.
  rewrite !FloatAxioms.ltb_spec.
  change (Prim2SF PrimFloat.infinity) with (S754_infinity false).
  destruct (Prim2SF d) as [s|s| |s m e], (Prim2SF b) as [s'|s'| |s' m' e'];
    try destruct s; try destruct s'; cbn; try congruence.
  all: intros _; reflexivity.
Qed.

Lemma SFadd_comm (x y : spec_float) : SF64add x y = SF64add y x.
Proof.
  destruct x as [[]|[]| |sx mx ex], y as [[]|[]| |sy my ey]; try reflexivity.
  unfold SF64add, SFadd. rewrite (Z.min_comm ey ex). f_equal. apply Z.add_comm.
Qed.

(** Addition of binary64 numbers commutes. *)
Lemma float_add_comm (x y : float) : (x + y)%float = (y + x)%float.
Proof.
  apply Prim2SF_inj. rewrite !FloatAxioms.add_spec. apply SFadd_comm.
Qed.

(** ** Aging and the identity resolver *)

Lemma age_loop_vehicle_tracks (frame_count : Z) (track_keys : list Z)
  (st : VehicleSpeedDetector) :
  vehicle_tracks (age_loop frame_count track_keys st) = vehicle_tracks st.
Proof.
  revert st. induction track_keys as [|k r IH]; intros st; simpl; [reflexivity|].
  destruct (track_max_age st <? _); [|apply IH].
  destruct (PyDict.get k (vehicle_tracks st)) as [positions|]; [|apply IH].
  destruct (last_sample positions); [|apply IH].
  rewrite IH. simpl.
  destruct (PyDict.mem k (track_last_seen st)); reflexivity.
Qed.

(** The aging block never touches the histories: whatever it demotes
    stays in [vehicle_tracks], the dictionary that [assign_vehicle_id]
    scans first. *)
Lemma age_tracks_vehicle_tracks (frame_count : Z) (st : VehicleSpeedDetector) :
  vehicle_tracks (age_tracks frame_count st) = vehicle_tracks st.
Proof. apply age_loop_vehicle_tracks. Qed.

(** C1. A track last seen in frame 1 is demoted by the aging step of
    frame 32. One frame later its centroid is in [inactive_tracks] and
    its entry in [track_last_seen] is gone, but its history is still in
    [vehicle_tracks], untouched, and the scan of the active tracks still
    finds it, where the claim wants it removed and its history
    discarded. *)
Theorem aged_track_keeps_history :
  exists rs s,
    process_video (E := silent_engine) one_sighting = Ok rs
    /\ frame_count rs = 33
    /\ PyDict.get 1 (inactive_tracks (detector rs)) = Some (100, 100)
    /\ PyDict.get 1 (track_last_seen (detector rs)) = None
    /\ PyDict.get 1 (vehicle_tracks (detector rs)) = Some [s]
    /\ position s = (100, 100) /\ frame s = 1
    /\ snd (fst (scan_active (100, 100) 34 50
                   (vehicle_tracks (detector rs)) PrimFloat.infinity None
                   (detector rs)))
       = Some 1.
Proof.
  eexists. eexists. split; [vm_compute; reflexivity|].
  repeat split.
Qed.

(** C2. After the drift, the track of identity 1 is dormant at
    [(100, 100)] while its history has moved on to [(180, 100)]. A
    detection at [(100, 100)] in frame 34 matches no active track, is
    given identity 1 from the dormant set, and the revived track still
    carries its three earlier samples: the history is not fresh, and the
    run records the detection of frame 34 at once with a positive speed. *)
Theorem revived_track_keeps_history :
  exists rs st' h rs' r,
    process_video (E := silent_engine) sighting_then_drift = Ok rs
    /\ snd (fst (scan_active (100, 100) 34 50
                   (vehicle_tracks (age_tracks 34 (detector rs)))
                   PrimFloat.infinity None (age_tracks 34 (detector rs))))
       = None
    /\ PyDict.get 1 (inactive_tracks (age_tracks 34 (detector rs)))
       = Some (100, 100)
    /\ assign_vehicle_id 100 100 34 (age_tracks 34 (detector rs))
       = Ok (1, st')
    /\ PyDict.get 1 (inactive_tracks st') = None
    /\ PyDict.get 1 (vehicle_tracks st') = Some h
    /\ List.length h = 3%nat
    /\ process_video (E := silent_engine) drift_and_return = Ok rs'
    /\ last (map Some (detection_data rs')) None = Some r
    /\ r_frame_number r = 34 /\ r_vehicle_id r = 1
    /\ (0 <? r_speed r)%float = true.
Proof.
  do 5 eexists. split; [vm_compute; reflexivity|].
  split; [vm_compute; reflexivity|].
  split; [vm_compute; reflexivity|].
  split; [vm_compute; reflexivity|].
  split; [reflexivity|]. split; [reflexivity|]. split; [reflexivity|].
  split; [vm_compute; reflexivity|].
  split; [vm_compute; reflexivity|].
  repeat split.
Qed.

(** C3. With tracks 1 and 2 last seen in frame 1 at [(100, 100)] and
    [(160, 100)], a detection at [(145, 100)] in frame 2 is bound to
    track 2, and the same call also moves the last-seen index of track 1
    from 1 to 2; after the two frames both tracks count as seen in
    frame 2 although the history of track 1 stops at frame 1. *)
Theorem binding_refreshes_another_track :
  exists rs st' rs' s,
    process_video (E := silent_engine) two_vehicles = Ok rs
    /\ PyDict.get 1 (track_last_seen (age_tracks 2 (detector rs))) = Some 1
    /\ PyDict.get 2 (track_last_seen (age_tracks 2 (detector rs))) = Some 1
    /\ assign_vehicle_id 145 100 2 (age_tracks 2 (detector rs)) = Ok (2, st')
    /\ PyDict.get 2 (track_last_seen st') = Some 2
    /\ PyDict.get 1 (track_last_seen st') = Some 2
    /\ process_video (E := silent_engine) two_then_one = Ok rs'
    /\ track_last_seen (detector rs') = [(1, 2); (2, 2)]
    /\ map drawn_ids (written rs') = [[1; 2]; [2]]
    /\ PyDict.get 1 (vehicle_tracks (detector rs')) = Some [s]
    /\ frame s = 1.
Proof.
  do 4 eexists. split; [vm_compute; reflexivity|].
  split; [vm_compute; reflexivity|].
  split; [vm_compute; reflexivity|].
  split; [vm_compute; reflexivity|].
  split; [reflexivity|]. split; [reflexivity|].
  split; [vm_compute; reflexivity|].
  repeat split.
Qed.

(** ** Speed estimator *)

Lemma int_truediv_ok (a b : Z) :
  b <> 0 -> int_truediv a b = Ok (Z2float a / Z2float b)%float.
Proof.
  intros Hb. unfold int_truediv.
  destruct (b =? 0) eqn:E; [apply Z.eqb_eq in E; contradiction | reflexivity].
Qed.

Lemma int_truediv_zero (a : Z) : int_truediv a 0 = Raise ZeroDivisionError.
Proof. reflexivity. Qed.

Lemma interval_speed_spec (ppm : float) (s1 s2 : sample) (v : float) :
  interval_speed ppm s1 s2 = Some v <->
  (0 <? timestamp s2 - timestamp s1)%float = true
  /\ (1 <? calculate_distance (position s1) (position s2))%float = true
  /\ (0 <? v)%float = true /\ (v <? 200)%float = true
  /\ v = scaled_speed ppm s1 s2.
Proof.
  unfold interval_speed, scaled_speed. split.
  - destruct (_ && _) eqn:Hgate; [|discriminate].
    apply andb_prop in Hgate as [Ht Hd].
    destruct (_ && _) eqn:Hrange; [|discriminate].
    apply andb_prop in Hrange as [Hlo Hhi].
    intros [= <-]. auto.
  - intros (Ht & Hd & Hlo & Hhi & ->).
    rewrite Ht, Hd. simpl. now rewrite Hlo, Hhi.
Qed.

Lemma in_fold_speed_step (ppm : float) (track : list sample)
  (l : list nat) (acc : list float) (v : float) :
  In v (fold_left (speed_step ppm track) l acc) <->
  In v acc
  \/ exists i s1 s2,
       In i l /\ neg_index track (i + 1) = Some s1
       /\ neg_index track i = Some s2 /\ interval_speed ppm s1 s2 = Some v.
Proof.
  revert acc. induction l as [|i l IH]; intros acc; simpl.
  - split; [tauto | intros [?|(i & s1 & s2 & [] & _)]; assumption].
  - rewrite IH. unfold speed_step.
    destruct (neg_index track (i + 1)) as [s1|] eqn:E1.
    2:{ split; [intros [?|(j & a & b & ? & ?)]; [tauto | right; exists j, a, b; tauto]|].
        intros [?|(j & a & b & [<-|?] & H1 & ?)]; [tauto | congruence |].
        right. exists j, a, b. tauto. }
    destruct (neg_index track i) as [s2|] eqn:E2.
    2:{ split; [intros [?|(j & a & b & ? & ?)]; [tauto | right; exists j, a, b; tauto]|].
        intros [?|(j & a & b & [<-|?] & H1 & H2 & ?)]; [tauto | congruence |].
        right. exists j, a, b. tauto. }
    destruct (interval_speed ppm s1 s2) as [w|] eqn:E3.
    + rewrite in_app_iff. simpl. split.
      * intros [[?|[<-|[]]]|(j & a & b & ? & ?)]; [tauto | | right; exists j, a, b; tauto].
        right. exists i, s1, s2. tauto.
      * intros [?|(j & a & b & [<-|?] & H1 & H2 & H3)]; [tauto | |].
        -- left. right. left. congruence.
        -- right. exists j, a, b. tauto.
    + split; [intros [?|(j & a & b & ? & ?)]; [tauto | right; exists j, a, b; tauto]|].
      intros [?|(j & a & b & [<-|?] & H1 & H2 & H3)]; [tauto | congruence |].
      right. exists j, a, b. tauto.
Qed.

(** The speeds kept by the loop are those of the last five intervals that
    pass both filters. *)
Lemma in_interval_speeds (ppm : float) (track : list sample) (v : float) :
  In v (interval_speeds ppm track) <->
  exists i s1 s2,
    (1 <= i < Nat.min (List.length track) 6)%nat
    /\ neg_index track (i + 1) = Some s1 /\ neg_index track i = Some s2
    /\ interval_speed ppm s1 s2 = Some v.
Proof.
  unfold interval_speeds. rewrite in_fold_speed_step. split.
  - intros [[]|(i & s1 & s2 & Hi & Hrest)]. exists i, s1, s2.
    apply in_seq in Hi. split; [lia | assumption].
  - intros (i & s1 & s2 & Hi & Hrest). right. exists i, s1, s2.
    split; [apply in_seq; lia | assumption].
Qed.

Lemma calculate_speed_unfold (vehicle_id : Z) (current_pos : point)
  (frame_number fps : Z) (st : VehicleSpeedDetector) :
  fps <> 0 ->
  calculate_speed vehicle_id current_pos frame_number fps st =
  let ts := (Z2float frame_number / Z2float fps)%float in
  let track := appended_track vehicle_id current_pos frame_number ts st in
  let st1 :=
    with_vehicle_tracks (PyDict.set vehicle_id track (vehicle_tracks st)) st in
  if (List.length track <? 3)%nat then Ok (0%float, st1)
  else
    match interval_speeds (pixels_per_meter st) track with
    | _ :: _ =>
        let new_speed := np_mean (interval_speeds (pixels_per_meter st) track) in
        match PyDict.get vehicle_id (vehicle_speeds st) with
        | Some previous =>
            let smoothed_speed := (0.7 * previous + 0.3 * new_speed)%float in
            Ok (smoothed_speed,
                with_vehicle_speeds
                  (PyDict.set vehicle_id smoothed_speed (vehicle_speeds st)) st1)
        | None =>
            Ok (new_speed,
                with_vehicle_speeds
                  (PyDict.set vehicle_id new_speed (vehicle_speeds st)) st1)
        end
    | [] =>
        Ok (match PyDict.get vehicle_id (vehicle_speeds st) with
            | Some v => v
            | None => 0%float
            end, st1)
    end.
Proof.
  intros Hfps. unfold calculate_speed.
  rewrite int_truediv_ok by assumption. reflexivity.
Qed.

(** ** Sums, means and blends of positive binary64 numbers *)

(** *** Digits and shifts *)

Lemma digits2_pos_bounds (p : positive) :
  2 ^ (Zpos (digits2_pos p) - 1) <= Zpos p < 2 ^ Zpos (digits2_pos p).
Proof.
  induction p as [p IH|p IH|]; cbn [digits2_pos].
  - rewrite Pos2Z.inj_succ, Z.pow_succ_r by lia.
    replace (Z.succ (Zpos (digits2_pos p)) - 1)
      with (Z.succ (Zpos (digits2_pos p) - 1)) by lia.
    rewrite Z.pow_succ_r by lia. change (Zpos p~1) with (2 * Zpos p + 1).
    revert IH.
    generalize (2 ^ (Zpos (digits2_pos p) - 1)) (2 ^ Zpos (digits2_pos p)).
    intros a b IH. lia.
  - rewrite Pos2Z.inj_succ, Z.pow_succ_r by lia.
    replace (Z.succ (Zpos (digits2_pos p)) - 1)
      with (Z.succ (Zpos (digits2_pos p) - 1)) by lia.
    rewrite Z.pow_succ_r by lia. change (Zpos p~0) with (2 * Zpos p).
    revert IH.
    generalize (2 ^ (Zpos (digits2_pos p) - 1)) (2 ^ Zpos (digits2_pos p)).
    intros a b IH. lia.
  - simpl. lia.
Qed.

Lemma shr_1_m (mrs : shr_record) :
  0 <= shr_m mrs -> shr_m (shr_1 mrs) = shr_m mrs / 2.
Proof.
  destruct mrs as [m r s]. cbn [shr_m]. intros Hm.
  destruct m as [|[p|p|]|p]; [reflexivity| | |reflexivity|lia];
    cbn [shr_1 shr_m].
  - apply Z.div_unique with 1; [lia|].
    change (Zpos p~1) with (2 * Zpos p + 1). reflexivity.
  - apply Z.div_unique with 0; [lia|].
    change (Zpos p~0) with (2 * Zpos p). lia.
Qed.

Lemma iter_pos_shr_m (q : positive) (mrs : shr_record) :
  0 <= shr_m mrs ->
  shr_m (iter_pos shr_1 q mrs) = shr_m mrs / 2 ^ Zpos q.
Proof.
  revert mrs. induction q as [q IH|q IH|]; intros mrs Hm; cbn [iter_pos].
  - assert (H1 : 0 <= shr_m (shr_1 mrs))
      by (rewrite shr_1_m by assumption; apply Z.div_pos; lia).
    assert (H2 : 0 <= shr_m (iter_pos shr_1 q (shr_1 mrs)))
      by (rewrite IH by assumption; apply Z.div_pos; [assumption|lia]).
    rewrite IH, IH, shr_1_m by assumption.
    rewrite !Z.div_div by lia. f_equal.
    rewrite Pos2Z.inj_xI. rewrite <- !Z.pow_add_r by lia.
    change 2 with (2 ^ 1) at 1. rewrite <- Z.pow_add_r by lia. f_equal. lia.
  - assert (H2 : 0 <= shr_m (iter_pos shr_1 q mrs))
      by (rewrite IH by assumption; apply Z.div_pos; [assumption|lia]).
    rewrite IH, IH by assumption.
    rewrite Z.div_div by lia. f_equal.
    rewrite Pos2Z.inj_xO, <- Z.pow_add_r by lia. f_equal. lia.
  - rewrite shr_1_m by assumption. reflexivity.
Qed.

Lemma shr_record_of_loc_m (m : Z) (l : location) :
  shr_m (shr_record_of_loc m l) = m.
Proof. destruct l as [|[]]; reflexivity. Qed.

Lemma round_nearest_even_bounds (m : Z) (l : location) :
  m <= round_nearest_even m l <= m + 1.
Proof.
  destruct l as [|[]]; simpl; try lia. destruct (Z.even m); lia.
Qed.

(** One shift of [shr_fexp]: the mantissa is divided by a power of two,
    and it stays positive when the number is not below the smallest
    positive one. *)
Lemma shr_fexp_m (M : positive) (E : Z) (l : location) :
  emin <= E \/ 2 ^ (emin - E) <= Zpos M ->
  let '(mrs, e) := shr_fexp prec emax (Zpos M) E l in
  emin <= e
  /\ 1 <= shr_m mrs
  /\ ((shr_m mrs = Zpos M /\ e = E)
      \/ (emin <= E -> 2 ^ (prec - 1) <= shr_m mrs)).
Proof.
  intros Hbig. unfold shr_fexp, shr. cbn [Zdigits2].
  pose proof (digits2_pos_bounds M) as [Hlo Hhi].
  set (d := Zpos (digits2_pos M)) in *.
  assert (Hd : 1 <= d) by (unfold d; lia).
  unfold fexp.
  destruct (Z.max (d + E - prec) (emin) - E) as [|q|q] eqn:Hn.
  - rewrite shr_record_of_loc_m. split; [lia|]. split; [lia|]. now left.
  - assert (Hq : 0 <= shr_m (shr_record_of_loc (Zpos M) l))
      by (rewrite shr_record_of_loc_m; lia).
    rewrite iter_pos_shr_m, shr_record_of_loc_m by assumption.
    split; [lia|].
    destruct (Z.max_spec (d + E - prec) (emin)) as [[Hlt Hmax]|[Hle Hmax]].
    + (* the shift is [emin - E] *)
      assert (Hshift : Zpos q = emin - E) by lia.
      destruct Hbig as [Hbig|Hbig]; [lia|].
      split.
      * apply Z.div_le_lower_bound; [apply Z.pow_pos_nonneg; lia|].
        rewrite Hshift. lia.
      * right. intros HE. lia.
    + (* the shift is [d - prec] *)
      assert (Hshift : Zpos q = d - prec) by lia.
      assert (Hpow : 2 ^ (prec - 1) * 2 ^ Zpos q <= Zpos M).
      { rewrite <- Z.pow_add_r; [|unfold prec; lia|lia].
        replace (prec - 1 + Zpos q) with (d - 1) by lia. exact Hlo. }
      assert (Hge : 2 ^ (prec - 1) <= Zpos M / 2 ^ Zpos q).
      { apply Z.div_le_lower_bound; [apply Z.pow_pos_nonneg; lia|]. lia. }
      split; [|right; intros _; exact Hge].
      assert (0 < 2 ^ (prec - 1)) by (apply Z.pow_pos_nonneg; unfold prec; lia).
      lia.
  - rewrite shr_record_of_loc_m. split; [lia|]. split; [lia|]. now left.
Qed.

(** Rounding a positive mantissa that is not below the smallest positive
    number gives a number of the same sign that is not zero. When nothing
    was shifted the mantissa did not decrease; otherwise the result is
    normal. *)
Lemma binary_round_aux_positive (sx : bool) (M : positive) (E : Z) (l : location) :
  emin <= E \/ 2 ^ (emin - E) <= Zpos M ->
  binary_round_aux prec emax sx (Zpos M) E l = S754_infinity sx
  \/ exists m e,
       binary_round_aux prec emax sx (Zpos M) E l = S754_finite sx m e
       /\ emin <= e
       /\ (emin <= E ->
           (Zpos M <= Zpos m /\ e = E) \/ 2 ^ (prec - 1) <= Zpos m).
Proof.
  intros Hbig. unfold binary_round_aux.
  pose proof (shr_fexp_m M E l Hbig) as H1.
  destruct (shr_fexp prec emax (Zpos M) E l) as [mrs1 e1].
  destruct H1 as (He1 & Hm1 & Hcase1).
  pose proof (round_nearest_even_bounds (shr_m mrs1) (loc_of_shr_record mrs1))
    as Hr.
  destruct (round_nearest_even (shr_m mrs1) (loc_of_shr_record mrs1))
    as [|M2|M2]; try lia.
  pose proof (shr_fexp_m M2 e1 loc_Exact (or_introl He1)) as H2.
  destruct (shr_fexp prec emax (Zpos M2) e1 loc_Exact) as [mrs2 e2].
  destruct H2 as (He2 & Hm2 & Hcase2).
  destruct (shr_m mrs2) as [|m|m]; try lia.
  destruct (e2 <=? emax - prec); [right|now left].
  exists m, e2. split; [reflexivity|]. split; [assumption|].
  intros HE.
  destruct Hcase2 as [[Hm He]|Hnormal]; [|right; now apply Hnormal].
  destruct Hcase1 as [[Hm' He']|Hnormal]; [left; split; lia|].
  right. specialize (Hnormal HE). lia.
Qed.

(** Whatever is rounded, the sign is kept. *)
Lemma shr_fexp_nonneg (m e : Z) (l : location) :
  0 <= m -> 0 <= shr_m (fst (shr_fexp prec emax m e l)).
Proof.
  intros Hm. unfold shr_fexp, shr.
  destruct (fexp prec emax (Zdigits2 m + e) - e) as [|q|q]; cbn [fst];
    try (rewrite shr_record_of_loc_m; exact Hm).
  rewrite iter_pos_shr_m by (rewrite shr_record_of_loc_m; exact Hm).
  rewrite shr_record_of_loc_m. apply Z.div_pos; [exact Hm|].
  apply Z.pow_pos_nonneg; lia.
Qed.

Lemma binary_round_aux_sign (sx : bool) (M : positive) (E : Z) (l : location) :
  binary_round_aux prec emax sx (Zpos M) E l = S754_zero sx
  \/ binary_round_aux prec emax sx (Zpos M) E l = S754_infinity sx
  \/ exists m e, binary_round_aux prec emax sx (Zpos M) E l = S754_finite sx m e.
Proof.
  unfold binary_round_aux.
  pose proof (shr_fexp_nonneg (Zpos M) E l ltac:(lia)) as H1.
  destruct (shr_fexp prec emax (Zpos M) E l) as [mrs1 e1]. cbn [fst] in H1.
  pose proof (round_nearest_even_bounds (shr_m mrs1) (loc_of_shr_record mrs1))
    as Hr.
  pose proof (shr_fexp_nonneg
                (round_nearest_even (shr_m mrs1) (loc_of_shr_record mrs1))
                e1 loc_Exact ltac:(lia)) as H2.
  destruct (shr_fexp prec emax
              (round_nearest_even (shr_m mrs1) (loc_of_shr_record mrs1))
              e1 loc_Exact) as [mrs2 e2]. cbn [fst] in H2.
  destruct (shr_m mrs2) as [|m|m]; [now left| |lia].
  right. destruct (e2 <=? emax - prec); [right; now exists m, e2|now left].
Qed.

(** *** Aligning two mantissas *)

Lemma iter_xO (m d : positive) :
  Zpos (Pos.iter xO m d) = Zpos m * 2 ^ Zpos d.
Proof.
  induction d as [|d IH] using Pos.peano_ind.
  - cbn [Pos.iter]. change (Zpos m~0) with (2 * Zpos m).
    change (2 ^ 1) with 2. ring.
  - rewrite Pos.iter_succ, Pos2Z.inj_succ, Z.pow_succ_r by lia.
    change (Zpos (Pos.iter xO m d)~0) with (2 * Zpos (Pos.iter xO m d)).
    rewrite IH. ring.
Qed.

Lemma shl_align_units (m : positive) (e e' : Z) :
  emin <= e -> emin <= e' ->
  let '(m', e'') := shl_align m e e' in
  emin <= e'' /\ e'' <= e
  /\ Zpos m' * 2 ^ (e'' - emin) = Zpos m * 2 ^ (e - emin)
  /\ (e' <= e -> e'' = e').
Proof.
  intros He He'. unfold shl_align.
  destruct (e' - e) as [|d|d] eqn:Hd.
  - repeat split; lia.
  - repeat split; lia.
  - split; [lia|]. split; [lia|]. split; [|reflexivity].
    rewrite iter_xO. replace (e - emin) with (Zpos d + (e' - emin)) by lia.
    rewrite Z.pow_add_r by lia. ring.
Qed.

(** *** Positive binary64 numbers *)

Lemma finite_exponent (x : float) (s : bool) (m : positive) (e : Z) :
  Prim2SF x = S754_finite s m e -> emin <= e.
Proof.
  intros Hx. pose proof (Prim2SF_valid x) as Hv. rewrite Hx in Hv.
  unfold valid_binary, bounded, canonical_mantissa in Hv.
  apply andb_prop in Hv as [Hc _]. apply Z.eqb_eq in Hc.
  unfold fexp in Hc. lia.
Qed.

Lemma pow2_pos (n : Z) : 0 <= n -> 1 <= 2 ^ n.
Proof.
  intros Hn. change 1 with (2 ^ 0). apply Z.pow_le_mono_r; lia.
Qed.

Lemma units_lower (m : positive) (n k : Z) :
  0 <= n -> k <= Zpos m -> k <= Zpos m * 2 ^ n.
Proof.
  intros Hn Hk. pose proof (pow2_pos n Hn) as Hp. revert Hp.
  generalize (2 ^ n). intros p Hp. nia.
Qed.

Lemma units_mono (m m' : positive) (n k : Z) :
  0 <= n -> Zpos m <= Zpos m' -> k <= Zpos m * 2 ^ n -> k <= Zpos m' * 2 ^ n.
Proof.
  intros Hn Hm. pose proof (pow2_pos n Hn) as Hp. revert Hp.
  generalize (2 ^ n). intros p Hp Hk. nia.
Qed.

Lemma positive_at_least (x : float) :
  (0 <? x)%float = true <-> at_least 1 x.
Proof.
  rewrite FloatAxioms.ltb_spec. change (Prim2SF 0) with (S754_zero false).
  unfold at_least. split.
  - destruct (Prim2SF x) as [s|s| |s m e] eqn:Hx; cbn; try discriminate.
    + destruct s; [discriminate|]. now left.
    + destruct s; [discriminate|]. intros _. right. exists m, e.
      split; [reflexivity|].
      pose proof (finite_exponent x false m e Hx) as He.
      change emin with (-1074) in *. apply units_lower; lia.
  - intros [->|(m & e & -> & _)]; reflexivity.
Qed.

Lemma at_least_weaken (k k' : Z) (x : float) :
  k' <= k -> at_least k x -> at_least k' x.
Proof.
  intros Hk [Hinf|(m & e & Hx & Hm)]; [now left|].
  right. exists m, e. split; [assumption|lia].
Qed.

Lemma positive_not_zero (x : float) :
  (0 <? x)%float = true -> (x =? 0)%float = false.
Proof.
  intros Hx. apply positive_at_least in Hx.
  rewrite FloatAxioms.eqb_spec. change (Prim2SF 0) with (S754_zero false).
  destruct Hx as [->|(m & e & -> & _)]; reflexivity.
Qed.

(** Adding zero to a positive number changes nothing. *)
Lemma add_zero_positive (z x : float) :
  Prim2SF z = S754_zero false \/ Prim2SF z = S754_zero true ->
  (0 <? x)%float = true -> (z + x)%float = x.
Proof.
  intros Hz Hx. apply positive_at_least in Hx. apply Prim2SF_inj.
  rewrite FloatAxioms.add_spec. unfold SF64add.
  destruct Hz as [-> | ->]; destruct Hx as [->|(m & e & -> & _)]; reflexivity.
Qed.

(** The sum of two positive numbers is positive, and it is not below
    the exact sum unless it is a normal number. *)
Lemma add_at_least (a b : Z) (x y : float) :
  1 <= a -> 1 <= b -> a + b <= 2 ^ (prec - 1) ->
  at_least a x -> at_least b y -> at_least (a + b) (x + y).
Proof.
  intros Ha Hb Hab Hx Hy. unfold at_least.
  rewrite FloatAxioms.add_spec. unfold SF64add.
  destruct Hx as [Hx|(mx & ex & Hx & Hmx)].
  { rewrite Hx. left.
    destruct Hy as [->|(my & ey & -> & _)]; reflexivity. }
  destruct Hy as [Hy|(my & ey & Hy & Hmy)].
  { rewrite Hx, Hy. left. reflexivity. }
  pose proof (finite_exponent x false mx ex Hx) as Hex.
  pose proof (finite_exponent y false my ey Hy) as Hey.
  rewrite Hx, Hy. cbn [SFadd cond_Zopp].
  set (ez := Z.min ex ey).
  pose proof (shl_align_units mx ex ez Hex ltac:(unfold ez; lia)) as Hax.
  pose proof (shl_align_units my ey ez Hey ltac:(unfold ez; lia)) as Hay.
  destruct (shl_align mx ex ez) as [mx' ex'].
  destruct (shl_align my ey ez) as [my' ey'].
  destruct Hax as (_ & _ & Hux & Hex').
  destruct Hay as (_ & _ & Huy & Hey').
  specialize (Hex' ltac:(unfold ez; lia)).
  specialize (Hey' ltac:(unfold ez; lia)). subst ex' ey'.
  cbn [fst]. change (Zpos mx' + Zpos my') with (Zpos (mx' + my')).
  cbn [binary_normalize]. unfold binary_round.
  set (M := (mx' + my')%positive).
  assert (HM : a + b <= Zpos M * 2 ^ (ez - emin)).
  { unfold M. rewrite Pos2Z.inj_add, Z.mul_add_distr_r. lia. }
  assert (Hez : emin <= ez) by (unfold ez; lia).
  assert (Hf : emin <= fexp prec emax (Zpos (digits2_pos M) + ez))
    by (unfold fexp; lia).
  pose proof (shl_align_units M ez _ Hez Hf) as Haz.
  destruct (shl_align M ez (fexp prec emax (Zpos (digits2_pos M) + ez)))
    as [mz ez2].
  destruct Haz as (Hez2 & _ & Huz & _).
  destruct (binary_round_aux_positive false mz ez2 loc_Exact (or_introl Hez2))
    as [Hinf|(m & e & Hr & He & Hcase)]; [now left|].
  right. exists m, e. split; [assumption|].
  destruct (Hcase Hez2) as [[Hm ->]|Hnormal].
  - rewrite <- Huz in HM.
    apply units_mono with mz; [lia|assumption|assumption].
  - apply units_lower; lia.
Qed.

(** *** Quotients and products *)

(** The integer quotient computed by the division is at least one when
    the dividend, counted in units of [2 ^ emin], is not below the
    divisor. *)
Lemma SFdiv_core_binary_positive (mx mn : positive) (ex en k : Z) :
  emin <= ex -> en <= 0 ->
  Zpos mn <= k * 2 ^ (- en) -> k <= Zpos mx * 2 ^ (ex - emin) ->
  exists q e l,
    SFdiv_core_binary prec emax (Zpos mx) ex (Zpos mn) en = (Zpos q, e, l)
    /\ emin <= e.
Proof.
  intros Hex Hen Hmn Hk. unfold SFdiv_core_binary. cbn [Zdigits2].
  pose proof (digits2_pos_bounds mx) as [Hlo _].
  pose proof (digits2_pos_bounds mn) as [_ Hhi].
  remember (Zpos (digits2_pos mx)) as d1 eqn:Hd1.
  remember (Zpos (digits2_pos mn)) as d2 eqn:Hd2.
  assert (Hd1' : 1 <= d1) by lia. assert (Hd2' : 1 <= d2) by lia.
  clear Hd1 Hd2.
  remember (Z.min (fexp prec emax (d1 + ex - (d2 + en))) (ex - en)) as e'
    eqn:He'.
  remember (ex - en - e') as s eqn:Hs.
  unfold fexp in He'. change emin with (-1074) in *.
  change prec with 53 in *. change IntDef.Z.max with Z.max in He'.
  change IntDef.Z.sub with Z.sub in He'.
  change IntDef.Z.div_eucl with Z.div_eucl.
  change IntDef.Z.shiftl with Z.shiftl.
  assert (Hs0 : 0 <= s) by lia.
  assert (Hemin : emin <= e') by (change emin with (-1074); lia).
  assert (Hcases : s = (ex - emin) + (- en) \/ d2 <= d1 - 1 + s)
    by (change emin with (-1074); lia).
  change emin with (-1074) in *.
  assert (Hm' : match s with
                | 0 => Zpos mx
                | Zpos _ => Z.shiftl (Zpos mx) s
                | Zneg _ => 0
                end = Zpos mx * 2 ^ s).
  { destruct s as [|p|p]; [change (2 ^ 0) with 1; lia| |lia].
    apply Z.shiftl_mul_pow2. lia. }
  rewrite Hm'.
  assert (Hge : Zpos mn <= Zpos mx * 2 ^ s).
  { destruct Hcases as [Hunits|Hdigits].
    - rewrite Hunits, Z.pow_add_r, Z.mul_assoc by lia.
      apply Z.le_trans with (k * 2 ^ (- en)); [assumption|].
      apply Z.mul_le_mono_nonneg_r; [|assumption].
      apply Z.pow_nonneg. lia.
    - apply Z.le_trans with (2 ^ d2); [lia|].
      apply Z.le_trans with (2 ^ (d1 - 1 + s));
        [apply Z.pow_le_mono_r; lia|].
      rewrite Z.pow_add_r by lia.
      apply Z.mul_le_mono_nonneg_r; [apply Z.pow_nonneg; lia|assumption]. }
  destruct (Z.div_eucl (Zpos mx * 2 ^ s) (Zpos mn)) as [q r] eqn:Hdiv.
  assert (Hq : q = Zpos mx * 2 ^ s / Zpos mn)
    by (unfold Z.div; now rewrite Hdiv).
  assert (Hq1 : 1 <= q)
    by (rewrite Hq; apply Z.div_le_lower_bound; lia).
  destruct q as [|q|q]; try lia.
  exists q, e', (new_location (Zpos mn) r). split; [reflexivity|assumption].
Qed.

(** A positive number divided by a positive number that is not above its
    count of units is positive. *)
Lemma div_at_least (k : Z) (x n : float) (mn : positive) (en : Z) :
  Prim2SF n = S754_finite false mn en -> en <= 0 ->
  Zpos mn <= k * 2 ^ (- en) ->
  at_least k x -> (0 <? x / n)%float = true.
Proof.
  intros Hn Hen Hmn Hx. apply positive_at_least. unfold at_least.
  rewrite FloatAxioms.div_spec. unfold SF64div. rewrite Hn.
  destruct Hx as [->|(mx & ex & Hx & Hk)]; [now left|].
  pose proof (finite_exponent x false mx ex Hx) as Hex.
  rewrite Hx. cbn [SFdiv xorb].
  destruct (SFdiv_core_binary_positive mx mn ex en k Hex Hen Hmn Hk)
    as (q & e & l & -> & He).
  destruct (binary_round_aux_positive false q e l (or_introl He))
    as [Hinf|(m & e2 & Hr & He2 & _)]; [now left|].
  right. exists m, e2. split; [assumption|]. apply units_lower; lia.
Qed.

(** The share of the previous estimate in the blend is positive. *)
Lemma previous_share_positive (x : float) :
  (0 <? x)%float = true -> (0 <? 0.7 * x)%float = true.
Proof.
  intros Hx. apply positive_at_least in Hx. apply positive_at_least.
  unfold at_least. rewrite FloatAxioms.mul_spec. unfold SF64mul.
  destruct Hx as [->|(m & e & Hx & _)]; [now left|].
  pose proof (finite_exponent x false m e Hx) as He. rewrite Hx.
  change (Prim2SF 0.7) with (S754_finite false 6305039478318694 (-53)).
  cbn [SFmul xorb].
  assert (Hround :
    binary_round_aux prec emax false (Zpos (6305039478318694 * m))
      (-53 + e) loc_Exact = S754_infinity false
    \/ exists m' e',
         binary_round_aux prec emax false (Zpos (6305039478318694 * m))
           (-53 + e) loc_Exact = S754_finite false m' e'
         /\ emin <= e').
  { destruct (Z.eq_dec e emin) as [->|Hne].
    - destruct (Pos.eq_dec m 1) as [->|Hm].
      + right. exists 1%positive, emin. split; [vm_compute; reflexivity|lia].
      + destruct (binary_round_aux_positive false (6305039478318694 * m)
                    (-53 + emin) loc_Exact)
          as [Hinf|(m' & e' & Hr & He' & _)]; [|now left|right; eauto].
        right. change (emin - (-53 + emin)) with 53.
        rewrite Pos2Z.inj_mul. change (2 ^ 53) with (2 * 4503599627370496).
        assert (2 <= Zpos m) by lia. nia.
    - destruct (binary_round_aux_positive false (6305039478318694 * m)
                  (-53 + e) loc_Exact)
        as [Hinf|(m' & e' & Hr & He' & _)]; [|now left|right; eauto].
      right. apply Z.le_trans with (2 ^ 52);
        [apply Z.pow_le_mono_r; change emin with (-1074) in *; lia|].
      rewrite Pos2Z.inj_mul. change (2 ^ 52) with 4503599627370496. nia. }
  destruct Hround as [Hinf|(m' & e' & Hr & He')]; [now left|].
  right. exists m', e'. split; [assumption|]. apply units_lower; lia.
Qed.

(** The share of the new mean in the blend is not negative. *)
Lemma new_share_not_negative (x : float) :
  (0 <? x)%float = true ->
  Prim2SF (0.3 * x) = S754_zero false \/ (0 <? 0.3 * x)%float = true.
Proof.
  intros Hx. apply positive_at_least in Hx. rewrite positive_at_least.
  unfold at_least. rewrite FloatAxioms.mul_spec. unfold SF64mul.
  destruct Hx as [->|(m & e & Hx & _)]; [right; now left|].
  rewrite Hx.
  change (Prim2SF 0.3) with (S754_finite false 5404319552844595 (-54)).
  cbn [SFmul xorb].
  destruct (binary_round_aux_sign false (5404319552844595 * m) (-54 + e)
              loc_Exact) as [Hz|[Hinf|(m' & e' & Hr)]].
  - now left.
  - right. now left.
  - right. right. exists m', e'. split; [assumption|].
    assert (Hv : Prim2SF (0.3 * x) = S754_finite false m' e').
    { rewrite FloatAxioms.mul_spec. unfold SF64mul. rewrite Hx.
      change (Prim2SF 0.3) with (S754_finite false 5404319552844595 (-54)).
      exact Hr. }
    pose proof (finite_exponent _ _ _ _ Hv). apply units_lower; lia.
Qed.

(** The blend of a positive previous estimate and a positive new mean is
    positive. *)
Lemma blend_positive (previous new_speed : float) :
  (0 <? previous)%float = true -> (0 <? new_speed)%float = true ->
  (0 <? 0.7 * previous + 0.3 * new_speed)%float = true.
Proof.
  intros Hp Hn. apply previous_share_positive in Hp.
  destruct (new_share_not_negative new_speed Hn) as [Hz|Hpos].
  - replace (0.7 * previous + 0.3 * new_speed)%float
      with (0.7 * previous)%float; [assumption|].
    apply Prim2SF_inj. rewrite FloatAxioms.add_spec, Hz. unfold SF64add.
    apply positive_at_least in Hp.
    destruct Hp as [->|(m & e & -> & _)]; reflexivity.
  - apply positive_at_least. apply positive_at_least in Hp, Hpos.
    apply (at_least_weaken (1 + 1)); [lia|].
    apply add_at_least; try assumption; try lia.
    change (2 ^ (prec - 1)) with 4503599627370496. lia.
Qed.

(** *** The mean of the interval speeds *)

Lemma fold_add_at_least (l : list float) (a : Z) (acc : float) :
  1 <= a -> a + Z.of_nat (List.length l) <= 2 ^ (prec - 1) ->
  at_least a acc ->
  Forall (fun v => (0 <? v)%float = true) l ->
  at_least (a + Z.of_nat (List.length l)) (fold_left PrimFloat.add l acc).
Proof.
  revert a acc. induction l as [|v l IH]; intros a acc Ha Hbound Hacc Hl.
  - cbn [fold_left List.length]. now rewrite Z.add_0_r.
  - cbn [fold_left]. inversion Hl as [|? ? Hv Hrest]; subst.
    cbn [List.length] in *.
    replace (a + Z.of_nat (S (List.length l)))
      with (a + 1 + Z.of_nat (List.length l)) by lia.
    apply IH; [lia|lia| |assumption].
    apply add_at_least; [lia|lia|lia|assumption|].
    now apply positive_at_least.
Qed.

(** [np.mean] adds from left to right: the zero the sum starts from
    disappears in front of a positive first element. *)
Lemma np_mean_left_to_right (x : float) (rest : list float) :
  (0 <? x)%float = true ->
  np_mean (x :: rest)
  = (fold_left PrimFloat.add rest x
     / Z2float (Z.of_nat (List.length (x :: rest))))%float.
Proof.
  intros Hx. unfold np_mean. cbn [fold_left].
  rewrite (add_zero_positive 0 x); [reflexivity|now left|assumption].
Qed.

(** The mean of up to five positive numbers is positive. *)
Lemma np_mean_positive (speeds : list float) :
  speeds <> [] -> (List.length speeds <= 5)%nat ->
  Forall (fun v => (0 <? v)%float = true) speeds ->
  (0 <? np_mean speeds)%float = true.
Proof.
  intros Hne Hlen Hpos. destruct speeds as [|x rest]; [contradiction|].
  inversion Hpos as [|? ? Hx Hrest]; subst.
  rewrite np_mean_left_to_right by assumption.
  assert (Hsum : at_least (1 + Z.of_nat (List.length rest))
                   (fold_left PrimFloat.add rest x)).
  { apply fold_add_at_least; [lia| | |assumption].
    - cbn [List.length] in Hlen.
      change (2 ^ (prec - 1)) with 4503599627370496. lia.
    - now apply positive_at_least. }
  cbn [List.length] in *.
  destruct rest as [|x2 [|x3 [|x4 [|x5 [|x6 rest]]]]];
    cbn [List.length] in *; [| | | | |lia].
  - apply (div_at_least 1 _ _ 4503599627370496 (-52));
      [reflexivity|lia|vm_compute; discriminate|exact Hsum].
  - apply (div_at_least 2 _ _ 4503599627370496 (-51));
      [reflexivity|lia|vm_compute; discriminate|exact Hsum].
  - apply (div_at_least 3 _ _ 6755399441055744 (-51));
      [reflexivity|lia|vm_compute; discriminate|exact Hsum].
  - apply (div_at_least 4 _ _ 4503599627370496 (-50));
      [reflexivity|lia|vm_compute; discriminate|exact Hsum].
  - apply (div_at_least 5 _ _ 5629499534213120 (-50));
      [reflexivity|lia|vm_compute; discriminate|exact Hsum].
Qed.

Lemma fold_speed_step_length (ppm : float) (track : list sample)
  (l : list nat) (acc : list float) :
  (List.length (fold_left (speed_step ppm track) l acc)
   <= List.length acc + List.length l)%nat.
Proof.
  revert acc. induction l as [|i l IH]; intros acc; cbn [fold_left List.length].
  - lia.
  - specialize (IH (speed_step ppm track acc i)).
    assert (Hstep : (List.length (speed_step ppm track acc i)
                     <= S (List.length acc))%nat).
    { unfold speed_step.
      destruct (neg_index track (i + 1)); [|lia].
      destruct (neg_index track i); [|lia].
      destruct (interval_speed ppm _ _); [|lia].
      rewrite length_app. cbn [List.length]. lia. }
    lia.
Qed.

(** At most five intervals are measured. *)
Lemma interval_speeds_length (ppm : float) (track : list sample) :
  (List.length (interval_speeds ppm track) <= 5)%nat.
Proof.
  unfold interval_speeds.
  pose proof (fold_speed_step_length ppm track
                (seq 1 (Nat.min (List.length track) 6 - 1)) []) as H.
  rewrite length_seq in H. cbn [List.length] in H. lia.
Qed.

Lemma interval_speeds_positive (ppm : float) (track : list sample) :
  Forall (fun v => (0 <? v)%float = true) (interval_speeds ppm track).
Proof.
  apply Forall_forall. intros v Hv. apply in_interval_speeds in Hv.
  destruct Hv as (i & s1 & s2 & _ & _ & _ & Hv).
  apply interval_speed_spec in Hv. tauto.
Qed.

(** The new mean of [calculate_speed] is positive. *)
Lemma new_speed_positive (ppm : float) (track : list sample) :
  interval_speeds ppm track <> [] ->
  (0 <? np_mean (interval_speeds ppm track))%float = true.
Proof.
  intros Hne. apply np_mean_positive;
    [assumption|apply interval_speeds_length|apply interval_speeds_positive].
Qed.

(** C4, as stated, fails: a track moving one pixel per frame has, at its
    third sample, positive displacement and positive elapsed time between
    all consecutive samples, and [calculate_speed] still returns 0. *)
Lemma one_pixel_steps_report_zero :
  exists st' s1 s2 s3,
    calculate_speed 1 (102, 100) 3 30 crawling = Ok (0%float, st')
    /\ PyDict.get 1 (vehicle_tracks st') = Some [s1; s2; s3]
    /\ (0 <? calculate_distance (position s1) (position s2))%float = true
    /\ (0 <? calculate_distance (position s2) (position s3))%float = true
    /\ (0 <? timestamp s2 - timestamp s1)%float = true
    /\ (0 <? timestamp s3 - timestamp s2)%float = true.
Proof.
  do 4 eexists. split; [vm_compute; reflexivity|].
  split; [reflexivity|]. repeat split.
Qed.

(** C4, amended. With fewer than three samples after the append the
    result is 0 and the smoothed estimates are left as they were. From
    the third sample on, an interval among the last five contributes a
    speed only if its elapsed time is positive, its displacement exceeds
    one pixel and its scaled speed lies strictly between 0 and 200; with
    no contributing interval and no stored estimate the result is still
    0. With a contributing interval the result is the new smoothed
    estimate, which is stored: the mean of the contributing speeds, added
    from left to right, blended with the stored estimate if there is one;
    it is above zero, hence not zero, unless the stored estimate is not
    above zero. Stored estimates that are above zero stay so. *)
Theorem calculate_speed_needs_signal (vehicle_id : Z) (current_pos : point)
  (frame_number fps : Z) (st : VehicleSpeedDetector) :
  fps <> 0 ->
  let ts := (Z2float frame_number / Z2float fps)%float in
  let track := appended_track vehicle_id current_pos frame_number ts st in
  let st1 :=
    with_vehicle_tracks (PyDict.set vehicle_id track (vehicle_tracks st)) st in
  let speeds := interval_speeds (pixels_per_meter st) track in
  vehicle_speeds st1 = vehicle_speeds st
  /\ ((List.length track < 3)%nat ->
      calculate_speed vehicle_id current_pos frame_number fps st
      = Ok (0%float, st1))
  /\ (forall v,
        In v speeds <->
        exists i s1 s2,
          (1 <= i < Nat.min (List.length track) 6)%nat
          /\ neg_index track (i + 1) = Some s1 /\ neg_index track i = Some s2
          /\ (0 <? timestamp s2 - timestamp s1)%float = true
          /\ (1 <? calculate_distance (position s1) (position s2))%float = true
          /\ (0 <? v)%float = true /\ (v <? 200)%float = true
          /\ v = scaled_speed (pixels_per_meter st) s1 s2)
  /\ ((3 <= List.length track)%nat -> speeds = [] ->
      PyDict.get vehicle_id (vehicle_speeds st) = None ->
      calculate_speed vehicle_id current_pos frame_number fps st
      = Ok (0%float, st1))
  /\ ((3 <= List.length track)%nat ->
      (exists i s1 s2,
         (1 <= i < Nat.min (List.length track) 6)%nat
         /\ neg_index track (i + 1) = Some s1 /\ neg_index track i = Some s2
         /\ (0 <? timestamp s2 - timestamp s1)%float = true
         /\ (1 <? calculate_distance (position s1) (position s2))%float = true
         /\ (0 <? scaled_speed (pixels_per_meter st) s1 s2)%float = true
         /\ (scaled_speed (pixels_per_meter st) s1 s2 <? 200)%float = true) ->
      exists v st' x rest,
        calculate_speed vehicle_id current_pos frame_number fps st
        = Ok (v, st')
        /\ PyDict.get vehicle_id (vehicle_speeds st') = Some v
        /\ speeds = x :: rest
        /\ v = match PyDict.get vehicle_id (vehicle_speeds st) with
               | Some previous =>
                   (0.7 * previous
                    + 0.3 * (fold_left PrimFloat.add rest x
                             / Z2float (Z.of_nat (List.length speeds))))%float
               | None =>
                   (fold_left PrimFloat.add rest x
                    / Z2float (Z.of_nat (List.length speeds)))%float
               end
        /\ ((forall previous,
               PyDict.get vehicle_id (vehicle_speeds st) = Some previous ->
               (0 <? previous)%float = true) ->
            (0 <? v)%float = true /\ (v =? 0)%float = false))
  /\ ((forall id previous,
         PyDict.get id (vehicle_speeds st) = Some previous ->
         (0 <? previous)%float = true) ->
      forall v st',
        calculate_speed vehicle_id current_pos frame_number fps st
        = Ok (v, st') ->
        forall id stored,
          PyDict.get id (vehicle_speeds st') = Some stored ->
          (0 <? stored)%float = true).
Proof.
  intros Hfps ts track st1 speeds.
  split; [reflexivity|].
  split.
  { intros Hlen. rewrite calculate_speed_unfold by assumption. cbv zeta.
    fold ts. fold track.
    destruct (List.length track <? 3)%nat eqn:E; [reflexivity|].
    apply Nat.ltb_ge in E. lia. }
  split.
  { intros v. unfold speeds. rewrite in_interval_speeds.
    split; intros (i & s1 & s2 & Hi & H1 & H2 & H3); exists i, s1, s2.
    - apply interval_speed_spec in H3. tauto.
    - repeat split; try tauto. apply interval_speed_spec. tauto. }
  split.
  { intros Hlen Hnil Hnone. rewrite calculate_speed_unfold by assumption.
    cbv zeta. fold ts. fold track. fold speeds.
    destruct (List.length track <? 3)%nat eqn:E;
      [apply Nat.ltb_lt in E; lia|].
    rewrite Hnil, Hnone. reflexivity. }
  split.
  { intros Hlen (i & s1 & s2 & Hi & H1 & H2 & Ht & Hd & Hlo & Hhi).
    assert (Hin : In (scaled_speed (pixels_per_meter st) s1 s2) speeds).
    { unfold speeds. apply in_interval_speeds. exists i, s1, s2.
      repeat split; try tauto. apply interval_speed_spec. tauto. }
    assert (Hsome : speeds <> []) by (intros Hnil; now rewrite Hnil in Hin).
    pose proof (new_speed_positive (pixels_per_meter st) track Hsome) as Hmean.
    pose proof (interval_speeds_positive (pixels_per_meter st) track) as Hall.
    fold speeds in Hmean, Hall.
    rewrite calculate_speed_unfold by assumption.
    cbv zeta. fold ts. fold track. fold speeds.
    destruct (List.length track <? 3)%nat eqn:E;
      [apply Nat.ltb_lt in E; lia|].
    destruct speeds as [|x rest] eqn:Hs; [contradiction|].
    inversion Hall as [|? ? Hx _]; subst.
    rewrite np_mean_left_to_right in * by assumption.
    destruct (PyDict.get vehicle_id (vehicle_speeds st)) as [previous|].
    - eexists. eexists. exists x, rest. split; [reflexivity|].
      split; [simpl; apply PyDictFacts.get_set_same|].
      split; [reflexivity|]. split; [reflexivity|].
      intros Hprev. specialize (Hprev previous eq_refl).
      pose proof (blend_positive _ _ Hprev Hmean) as Hv.
      split; [exact Hv|now apply positive_not_zero].
    - eexists. eexists. exists x, rest. split; [reflexivity|].
      split; [simpl; apply PyDictFacts.get_set_same|].
      split; [reflexivity|]. split; [reflexivity|].
      intros _. split; [exact Hmean|now apply positive_not_zero]. }
  intros Hinv v st'. rewrite calculate_speed_unfold by assumption.
  cbv zeta. fold ts. fold track. fold speeds.
  destruct (List.length track <? 3)%nat;
    [intros [= <- <-]; exact Hinv|].
  destruct speeds as [|x rest] eqn:Hs; [intros [= <- <-]; exact Hinv|].
  assert (Hmean : (0 <? np_mean (x :: rest))%float = true).
  { rewrite <- Hs. apply new_speed_positive. fold speeds. now rewrite Hs. }
  destruct (PyDict.get vehicle_id (vehicle_speeds st)) as [previous|] eqn:Hget.
  - intros [= <- <-] id stored. cbn [vehicle_speeds with_vehicle_speeds].
    destruct (Z.eq_dec id vehicle_id) as [->|Hne].
    + rewrite PyDictFacts.get_set_same. intros [= <-].
      apply blend_positive; [now apply (Hinv vehicle_id)|exact Hmean].
    + rewrite PyDictFacts.get_set_other by congruence. apply Hinv.
  - intros [= <- <-] id stored. cbn [vehicle_speeds with_vehicle_speeds].
    destruct (Z.eq_dec id vehicle_id) as [->|Hne].
    + rewrite PyDictFacts.get_set_same. intros [= <-]. exact Hmean.
    + rewrite PyDictFacts.get_set_other by congruence. apply Hinv.
Qed.

Lemma calculate_speed_needs_signal_witness :
  (exists st', calculate_speed 1 (100, 100) 1 30 init = Ok (0%float, st'))
  /\ (exists st', calculate_speed 1 (100, 100) 3 30 (parked None)
                  = Ok (0%float, st'))
  /\ (exists st', calculate_speed 1 (100, 120) 3 30 (cruising None)
                  = Ok (162%float, st')
                  /\ PyDict.get 1 (vehicle_speeds st') = Some 162%float
                  /\ (162 =? 0)%float = false)
  /\ (exists v st',
        calculate_speed 1 (100, 170) 8 30
          (tracking (seven_samples (100, 100)) (Some 100%float))
        = Ok (v, st')
        /\ v = (0.7 * 100 + 0.3 * 162)%float
        /\ (0 <? v)%float = true /\ (v =? 0)%float = false
        /\ vehicle_speeds st' = [(1, v)]).
Proof.
  split; [|split; [|split]].
  - destruct (calculate_speed_needs_signal 1 (100, 100) 1 30 init)
      as (_ & Hshort & _); [discriminate|].
    eexists. apply Hshort. vm_compute. lia.
  - destruct (calculate_speed_needs_signal 1 (100, 100) 3 30 (parked None))
      as (_ & _ & _ & Hstill & _); [discriminate|].
    eexists. apply Hstill; [vm_compute; lia | reflexivity | reflexivity].
  - destruct (calculate_speed_needs_signal 1 (100, 120) 3 30 (cruising None))
      as (_ & _ & _ & _ & Hmoving & _); [discriminate|].
    destruct Hmoving as (v & st' & x & rest & Hrun & Hstored & Hs & Hv & Hpos).
    + vm_compute. lia.
    + exists 1%nat, (sample_at (100, 110) 2), (sample_at (100, 120) 3).
      split; [vm_compute; lia|]. repeat split; vm_compute; reflexivity.
    + vm_compute in Hs. injection Hs as <- <-. vm_compute in Hv. subst v.
      exists st'. split; [exact Hrun|]. split; [exact Hstored|].
      apply Hpos. discriminate.
  - destruct (calculate_speed_needs_signal 1 (100, 170) 8 30
                (tracking (seven_samples (100, 100)) (Some 100%float)))
      as (_ & _ & _ & _ & Hmoving & _); [discriminate|].
    destruct Hmoving as (v & st' & x & rest & Hrun & Hstored & Hs & Hv & Hpos).
    + vm_compute. lia.
    + exists 1%nat, (sample_at (100, 160) 7), (sample_at (100, 170) 8).
      split; [vm_compute; lia|]. repeat split; vm_compute; reflexivity.
    + vm_compute in Hs. injection Hs as <- <-. vm_compute in Hv.
      exists v, st'. split; [exact Hrun|].
      split; [rewrite Hv; vm_compute; reflexivity|].
      destruct Hpos as [Hgt Hnz];
        [intros previous [= <-]; reflexivity|].
      split; [exact Hgt|]. split; [exact Hnz|].
      vm_compute in Hrun. injection Hrun as <- <-. reflexivity.
Defined.

(** C5. Once the history has three samples: if an instantaneous speed
    survives and the track has no smoothed speed, the raw average [R],
    the sum of the surviving speeds added from left to right and divided
    by their count, is returned and stored; if it has a smoothed speed
    [S], the value [0.3 * R + 0.7 * S] is returned and stored; if none
    survives, the stored value (or 0) is returned and the smoothed speeds
    are left unchanged. *)
Theorem calculate_speed_smoothing (vehicle_id : Z) (current_pos : point)
  (frame_number fps : Z) (st : VehicleSpeedDetector) :
  fps <> 0 ->
  let ts := (Z2float frame_number / Z2float fps)%float in
  let track := appended_track vehicle_id current_pos frame_number ts st in
  let st1 :=
    with_vehicle_tracks (PyDict.set vehicle_id track (vehicle_tracks st)) st in
  let speeds := interval_speeds (pixels_per_meter st) track in
  (3 <= List.length track)%nat ->
  (forall x rest, speeds = x :: rest ->
   let R := (fold_left PrimFloat.add rest x
             / Z2float (Z.of_nat (List.length speeds)))%float in
   (PyDict.get vehicle_id (vehicle_speeds st) = None ->
    calculate_speed vehicle_id current_pos frame_number fps st
    = Ok (R, with_vehicle_speeds
               (PyDict.set vehicle_id R (vehicle_speeds st)) st1))
   /\ (forall prior,
       PyDict.get vehicle_id (vehicle_speeds st) = Some prior ->
       calculate_speed vehicle_id current_pos frame_number fps st
       = Ok ((0.3 * R + 0.7 * prior)%float,
             with_vehicle_speeds
               (PyDict.set vehicle_id (0.3 * R + 0.7 * prior)%float
                  (vehicle_speeds st)) st1)))
  /\ (speeds = [] ->
      calculate_speed vehicle_id current_pos frame_number fps st
      = Ok (match PyDict.get vehicle_id (vehicle_speeds st) with
            | Some prior => prior
            | None => 0%float
            end, st1)
      /\ vehicle_speeds st1 = vehicle_speeds st).
Proof.
  intros Hfps ts track st1 speeds Hlen.
  rewrite calculate_speed_unfold by assumption.
  cbv zeta. fold ts. fold track. fold st1. fold speeds.
  destruct (List.length track <? 3)%nat eqn:E;
    [apply Nat.ltb_lt in E; lia|].
  split.
  - intros x rest Hs.
    pose proof (interval_speeds_positive (pixels_per_meter st) track) as Hall.
    fold speeds in Hall. rewrite Hs in *.
    inversion Hall as [|? ? Hx _]; subst.
    rewrite np_mean_left_to_right by assumption.
    split.
    + intros Hnone. now rewrite Hnone.
    + intros prior Hsome. rewrite Hsome.
      rewrite (float_add_comm (0.3 * _) (0.7 * prior)). reflexivity.
  - intros Hnil. rewrite Hnil. split; reflexivity.
Qed.

Lemma calculate_speed_smoothing_witness :
  (exists st', calculate_speed 1 (100, 120) 3 30 (cruising None)
               = Ok (162%float, st')
               /\ PyDict.get 1 (vehicle_speeds st') = Some 162%float)
  /\ (exists st', calculate_speed 1 (100, 120) 3 30 (cruising (Some 100%float))
                  = Ok ((0.3 * 162 + 0.7 * 100)%float, st'))
  /\ (exists st', calculate_speed 1 (100, 100) 3 30 (parked (Some 100%float))
                  = Ok (100%float, st')
                  /\ vehicle_speeds st' = [(1, 100%float)])
  /\ (exists st',
        interval_speeds (pixels_per_meter init)
          (seven_samples (100, 100) ++ [sample_at (100, 170) 8])
        = [162.00000000000003; 162.00000000000003; 161.99999999999989;
           162.00000000000003; 162.00000000000003]%float
        /\ calculate_speed 1 (100, 170) 8 30
             (tracking (seven_samples (100, 100)) None)
           = Ok (162%float, st')
        /\ PyDict.get 1 (vehicle_speeds st') = Some 162%float).
Proof.
  split; [|split; [|split]].
  - destruct (calculate_speed_smoothing 1 (100, 120) 3 30 (cruising None))
      as (Hsome & _); [discriminate | vm_compute; lia |].
    edestruct Hsome as (Hfirst & _); [vm_compute; reflexivity|].
    eexists. split.
    + rewrite Hfirst by reflexivity. vm_compute. reflexivity.
    + reflexivity.
  - destruct (calculate_speed_smoothing 1 (100, 120) 3 30
                (cruising (Some 100%float)))
      as (Hsome & _); [discriminate | vm_compute; lia |].
    edestruct Hsome as (_ & Hnext); [vm_compute; reflexivity|].
    eexists. rewrite (Hnext 100%float) by reflexivity.
    vm_compute. reflexivity.
  - destruct (calculate_speed_smoothing 1 (100, 100) 3 30
                (parked (Some 100%float)))
      as (_ & Hkeep); [discriminate | vm_compute; lia |].
    destruct Hkeep as [Hrun Hsame]; [reflexivity|].
    eexists. split; [rewrite Hrun; vm_compute; reflexivity | reflexivity].
  - destruct (calculate_speed_smoothing 1 (100, 170) 8 30
                (tracking (seven_samples (100, 100)) None))
      as (Hsome & _); [discriminate | vm_compute; lia |].
    edestruct Hsome as (Hfirst & _); [vm_compute; reflexivity|].
    eexists. split; [vm_compute; reflexivity|]. split.
    + rewrite Hfirst by reflexivity. vm_compute. reflexivity.
    + reflexivity.
Defined.

(** ** The exception monad *)

Lemma bind_ok {A B : Type} (c : result A) (k : A -> result B) (b : B) :
  bind c k = Ok b -> exists a, c = Ok a /\ k a = Ok b.
Proof. destruct c as [a|e]; simpl; [eauto | discriminate]. Qed.

Ltac bind_inv H :=
  let a := fresh "a" in
  let Ha := fresh "Hstep" in
  apply bind_ok in H; destruct H as (a & Ha & H).

(** ** The zone plays no part in tracking *)

Section Rezone.
Variable z : option (Z * Z * Z * Z).

Lemma scan_active_rezone (current_pos : point) (frame_number : Z)
  (max_distance : float) (items : list (Z * list sample))
  (min_distance : float) (assigned_id : option Z)
  (st : VehicleSpeedDetector) :
  scan_active current_pos frame_number max_distance items min_distance
    assigned_id (with_speed_detection_zone z st)
  = let '(m, a, s) :=
      scan_active current_pos frame_number max_distance items min_distance
        assigned_id st in
    (m, a, with_speed_detection_zone z s).
Proof.
  revert min_distance assigned_id st.
  induction items as [|[vehicle_id positions] rest IH]; intros; simpl;
    [reflexivity|].
  destruct (last_sample positions) as [s|]; [|apply IH].
  destruct (_ && _); [|apply IH].
  rewrite <- IH. reflexivity.
Qed.

Lemma scan_inactive_rezone (current_pos : point) (frame_number : Z)
  (max_distance : float) (ids : list Z)
  (min_distance : float) (assigned_id : option Z)
  (st : VehicleSpeedDetector) :
  scan_inactive current_pos frame_number max_distance ids min_distance
    assigned_id (with_speed_detection_zone z st)
  = '(m, a, s) <-
      scan_inactive current_pos frame_number max_distance ids min_distance
        assigned_id st ;;
    Ok (m, a, with_speed_detection_zone z s).
Proof.
  revert min_distance assigned_id st.
  induction ids as [|vehicle_id rest IH]; intros; simpl; [reflexivity|].
  destruct (PyDict.lookup vehicle_id (inactive_tracks st)) as [last_pos|e];
    simpl; [|reflexivity].
  destruct (_ && _); [|apply IH].
  rewrite <- IH. reflexivity.
Qed.

Lemma assign_vehicle_id_rezone (center_x center_y frame_number : Z)
  (st : VehicleSpeedDetector) :
  assign_vehicle_id center_x center_y frame_number
    (with_speed_detection_zone z st)
  = '(vehicle_id, s) <-
      assign_vehicle_id center_x center_y frame_number st ;;
    Ok (vehicle_id, with_speed_detection_zone z s).
Proof.
  unfold assign_vehicle_id, assign_vehicle_id_gate.
  change (vehicle_tracks (with_speed_detection_zone z st))
    with (vehicle_tracks st).
  rewrite scan_active_rezone.
  destruct (scan_active _ _ _ _ _ _ st) as [[m a] s].
  destruct a as [vehicle_id|]; [reflexivity|].
  change (inactive_tracks (with_speed_detection_zone z s))
    with (inactive_tracks s).
  rewrite scan_inactive_rezone.
  destruct (scan_inactive _ _ _ _ _ _ s) as [[[m' a'] s']|e]; simpl;
    [|reflexivity].
  destruct a'; reflexivity.
Qed.

Lemma calculate_speed_rezone (vehicle_id : Z) (current_pos : point)
  (frame_number fps : Z) (st : VehicleSpeedDetector) :
  calculate_speed vehicle_id current_pos frame_number fps
    (with_speed_detection_zone z st)
  = '(speed, s) <-
      calculate_speed vehicle_id current_pos frame_number fps st ;;
    Ok (speed, with_speed_detection_zone z s).
Proof.
  unfold calculate_speed.
  destruct (int_truediv frame_number fps) as [ts|e]; simpl; [|reflexivity].
  change (appended_track vehicle_id current_pos frame_number ts
            (with_speed_detection_zone z st))
    with (appended_track vehicle_id current_pos frame_number ts st).
  destruct (List.length _ <? 3)%nat; [reflexivity|].
  destruct (interval_speeds _ _); [reflexivity|].
  destruct (PyDict.get vehicle_id (vehicle_speeds st)); reflexivity.
Qed.

Lemma plate_stage_rezone `{E : Externals} (frame_count : Z) (speed : float)
  (vehicle_id : Z) (vehicle_crop : ndarray) (st : VehicleSpeedDetector) :
  plate_stage frame_count speed vehicle_id vehicle_crop
    (with_speed_detection_zone z st)
  = '(plate, plate_bbox, s) <-
      plate_stage frame_count speed vehicle_id vehicle_crop st ;;
    Ok (plate, plate_bbox, with_speed_detection_zone z s).
Proof.
  unfold plate_stage.
  change (vehicle_tracks (with_speed_detection_zone z st))
    with (vehicle_tracks st).
  destruct (recognition_due frame_count speed vehicle_crop).
  - destruct (detect_license_plate (Some vehicle_crop)) as [r|e]; simpl;
      [|reflexivity].
    destruct (unpack_plate r) as [[plate plate_bbox]|e]; simpl; [|reflexivity].
    destruct plate as [text|]; [|reflexivity].
    destruct (_ && _); [|reflexivity].
    destruct (PyDict.get vehicle_id (vehicle_tracks st)) as [[|s track]|];
      reflexivity.
  - destruct (PyDict.get vehicle_id (vehicle_tracks st)) as [[|s track]|];
      try reflexivity.
    destruct (cached_plate (s :: track)) as [[p b]|]; reflexivity.
Qed.
End Rezone.

(** ** Record emission *)

Lemma in_overlay_speed_text `{E : Externals} (d : detection) (vehicle_id : Z)
  (speed : float) (is_overspeed : bool) (zone : Z * Z * Z * Z)
  (plate : option string) (plate_bbox : option quad) :
  (exists s o,
     In (SpeedText s o)
       (overlay d vehicle_id speed is_overspeed zone plate plate_bbox))
  <-> let '(_, zone_y1, _, zone_y2) := zone in
      zone_y1 <= snd (center d) <= zone_y2.
Proof.
  unfold overlay. destruct (bbox d) as [[[x1 y1] x2] y2].
  destruct (center d) as [cx cy]. destruct zone as [[[zx1 zy1] zx2] zy2].
  simpl snd.
  assert (Hplate : forall s o,
    ~ In (SpeedText s o)
        (if truthy plate then
           match plate with
           | Some p =>
               PlateText p ::
               match plate_bbox with
               | Some q =>
                   match nth_error q 0, nth_error q 2 with
                   | Some (lp_x1, lp_y1), Some (lp_x2, lp_y2) =>
                       [PlateRectangle (x1 + lp_x1) (y1 + lp_y1)
                          (x1 + lp_x2) (y1 + lp_y2)]
                   | _, _ => []
                   end
               | None => []
               end
           | None => []
           end
         else [])).
  { intros s o. destruct (truthy plate); [|tauto].
    destruct plate as [p|]; [|tauto].
    destruct plate_bbox as [q|]; [|simpl; intuition discriminate].
    destruct (nth_error q 0) as [[a b]|]; [|simpl; intuition discriminate].
    destruct (nth_error q 2) as [[a' b']|]; simpl; intuition discriminate. }
  destruct ((zy1 <=? cy) && (cy <=? zy2)) eqn:Hz.
  - apply andb_prop in Hz as [H1 H2]. apply Z.leb_le in H1, H2.
    split; [lia|]. intros _. exists speed, is_overspeed. simpl. tauto.
  - split.
    + intros (s & o & Hin). simpl in Hin.
      destruct Hin as [Hin|[Hin|Hin]]; try discriminate.
      now apply Hplate in Hin.
    + intros [H1 H2]. apply Z.leb_le in H1, H2. rewrite H1, H2 in Hz.
      discriminate.
Qed.

Lemma emit_record_spec `{E : Externals} (frame_count fps : Z) (d : detection)
  (vehicle_id : Z) (speed : float) (is_overspeed : bool)
  (plate : option string) (st : VehicleSpeedDetector)
  (records : list DetectionRecord) :
  emit_record frame_count fps d vehicle_id speed is_overspeed plate st
  = Ok records ->
  if (0 <? speed)%float
  then exists r, records = [r] /\ r_frame_number r = frame_count
                 /\ r_vehicle_id r = vehicle_id
  else records = [].
Proof.
  unfold emit_record. destruct (0 <? speed)%float; [|congruence].
  destruct (bbox d) as [[[x1 y1] x2] y2].
  intros Hrun. bind_inv Hrun. injection Hrun as <-.
  eexists. split; [reflexivity|]. split; reflexivity.
Qed.

(** C6. A detection processed in a frame appends exactly one record when
    its computed speed is strictly positive and none otherwise; the speed
    text is drawn exactly when the centroid lies in the zone; and with
    any other zone the same detection yields the same [detection_data]. *)
Theorem record_emitted_iff_positive_speed `{E : Externals}
  (frame : ndarray) (frame_count fps : Z) (st : VehicleSpeedDetector)
  (data : list DetectionRecord) (canvas : list draw_op) (d : detection)
  (zone : Z * Z * Z * Z)
  (st' : VehicleSpeedDetector) (data' : list DetectionRecord)
  (canvas' : list draw_op) :
  process_detection frame frame_count fps
    (with_speed_detection_zone (Some zone) st, data, canvas) d
  = Ok (st', data', canvas') ->
  exists vehicle_id st1 speed st2 drawn,
    assign_vehicle_id (fst (center d)) (snd (center d)) frame_count
      (with_speed_detection_zone (Some zone) st) = Ok (vehicle_id, st1)
    /\ calculate_speed vehicle_id (center d) frame_count fps st1
       = Ok (speed, st2)
    /\ ((0 <? speed)%float = true ->
        exists r, data' = data ++ [r] /\ r_frame_number r = frame_count
                  /\ r_vehicle_id r = vehicle_id)
    /\ ((0 <? speed)%float = false -> data' = data)
    /\ canvas' = canvas ++ drawn
    /\ ((exists s o, In (SpeedText s o) drawn)
        <-> let '(_, zone_y1, _, zone_y2) := zone in
            zone_y1 <= snd (center d) <= zone_y2)
    /\ (forall zone2, exists st2' canvas2',
          process_detection frame frame_count fps
            (with_speed_detection_zone (Some zone2) st, data, canvas) d
          = Ok (st2', data', canvas2')).
Proof.
  unfold process_detection.
  destruct (center d) as [center_x center_y] eqn:Hc.
  destruct (bbox d) as [[[x1 y1] x2] y2] eqn:Hb.
  intros Hrun.
  bind_inv Hrun. destruct a as [vehicle_id st1].
  bind_inv Hrun. destruct a as [speed st2].
  bind_inv Hrun. destruct a as [[plate plate_bbox] st3].
  bind_inv Hrun. rename a into zone'.
  bind_inv Hrun. rename a into records.
  injection Hrun as <- <- <-.
  exists vehicle_id, st1, speed, st2.
  eexists. split; [exact Hstep|]. split; [exact Hstep0|].
  pose proof (emit_record_spec _ _ _ _ _ _ _ _ _ Hstep3) as Hrec.
  split.
  { intros Hpos. rewrite Hpos in Hrec. destruct Hrec as (r & -> & ? & ?).
    exists r. auto. }
  split.
  { intros Hzero. rewrite Hzero in Hrec. subst records. apply app_nil_r. }
  split; [reflexivity|].
  assert (Hzone : speed_detection_zone st3 = Some zone).
  { rewrite assign_vehicle_id_rezone in Hstep. bind_inv Hstep.
    destruct a as [v s]. injection Hstep as <- <-.
    rewrite calculate_speed_rezone in Hstep0. bind_inv Hstep0.
    destruct a as [sp s']. injection Hstep0 as <- <-.
    rewrite plate_stage_rezone in Hstep1. bind_inv Hstep1.
    destruct a as [[p b] s'']. injection Hstep1 as <- <- <-. reflexivity. }
  rewrite Hzone in Hstep2. injection Hstep2 as <-.
  split; [rewrite <- Hc; apply in_overlay_speed_text|].
  intros zone2.
  change (with_speed_detection_zone (Some zone2) st)
    with (with_speed_detection_zone (Some zone2)
            (with_speed_detection_zone (Some zone) st)).
  rewrite assign_vehicle_id_rezone, Hstep. simpl.
  rewrite calculate_speed_rezone, Hstep0. simpl.
  rewrite plate_stage_rezone, Hstep1. simpl.
  change (emit_record frame_count fps d vehicle_id speed
            (Z2float (speed_limit st3) <? speed)%float plate
            (with_speed_detection_zone (Some zone2) st3))
    with (emit_record frame_count fps d vehicle_id speed
            (Z2float (speed_limit st3) <? speed)%float plate st3).
  rewrite Hstep3. simpl. eexists. eexists. reflexivity.
Qed.

Lemma record_emitted_iff_positive_speed_witness :
  exists st' r canvas',
    process_detection (E := silent_engine) blank_image 3 30
      (with_speed_detection_zone (Some zone_480) (cruising None), [], [])
      (seen_at 100 120)
    = Ok (st', [r], canvas')
    /\ r_vehicle_id r = 1
    /\ ~ (exists s o, In (SpeedText s o) canvas').
Proof.
  destruct (process_detection (E := silent_engine) blank_image 3 30
              (with_speed_detection_zone (Some zone_480) (cruising None),
               [], [])
              (seen_at 100 120))
    as [[[st' data'] canvas']|e] eqn:Hrun; [|vm_compute in Hrun; discriminate].
  destruct (record_emitted_iff_positive_speed (E := silent_engine)
              _ _ _ _ _ _ _ _ _ _ _ Hrun)
    as (vehicle_id & st1 & speed & st2 & drawn
        & Hassign & Hspeed & Hpos & _ & Hcanvas & Hzone & _).
  vm_compute in Hassign. injection Hassign as <- <-.
  vm_compute in Hspeed. injection Hspeed as <- <-.
  destruct Hpos as (r & -> & _ & Hid); [reflexivity|].
  exists st', r, canvas'. split; [reflexivity|]. split; [exact Hid|].
  subst canvas'. simpl. intros Hin. apply Hzone in Hin.
  vm_compute in Hin. destruct Hin as [Hlo _]. apply Hlo. reflexivity.
Defined.

(** ** Comparisons of binary64 numbers *)

Ltac order_cases :=
  repeat match goal with
  | H : context [PosDef.Pos.compare_cont Eq ?a ?b] |- _ =>
      change (PosDef.Pos.compare_cont Eq a b) with (Pos.compare a b) in H
  | |- context [PosDef.Pos.compare_cont Eq ?a ?b] =>
      change (PosDef.Pos.compare_cont Eq a b) with (Pos.compare a b)
  | H : context [Z.compare ?a ?b] |- _ =>
      destruct (Z.compare_spec a b); subst
  | |- context [Z.compare ?a ?b] =>
      destruct (Z.compare_spec a b); subst
  | H : context [Pos.compare ?a ?b] |- _ =>
      destruct (Pos.compare_spec a b); subst
  | |- context [Pos.compare ?a ?b] =>
      destruct (Pos.compare_spec a b); subst
  end.

Lemma SFleb_trans (x y z : spec_float) :
  SFleb x y = true -> SFleb y z = true -> SFleb x z = true.
Proof.
  unfold SFleb.
  destruct x as [[]|[]| |[] mx ex], y as [[]|[]| |[] my ey],
    z as [[]|[]| |[] mz ez];
    simpl; try congruence; intros H1 H2;
    order_cases; simpl in *; try congruence; try lia.
Qed.

Lemma SFltb_false_leb (x y : spec_float) :
  x <> S754_nan -> y <> S754_nan -> SFltb x y = false -> SFleb y x = true.
Proof.
  unfold SFltb, SFleb.
  destruct x as [[]|[]| |[] mx ex], y as [[]|[]| |[] my ey];
    simpl; try congruence; intros H1 H2 H3;
    order_cases; simpl in *; try congruence; try lia.
Qed.

Lemma SFltb_right_not_nan (x y : spec_float) :
  SFltb x y = true -> y <> S754_nan.
Proof.
  unfold SFltb.
  destruct x as [[]|[]| |[] mx ex], y as [[]|[]| |[] my ey]; simpl; congruence.
Qed.

Lemma ltb_comparable (a x : float) : (a <? x)%float = true -> comparable x.
Proof.
  rewrite FloatAxioms.ltb_spec. apply SFltb_right_not_nan.
Qed.

Lemma leb_trans (x y z : float) :
  (x <=? y)%float = true -> (y <=? z)%float = true -> (x <=? z)%float = true.
Proof. rewrite !FloatAxioms.leb_spec. apply SFleb_trans. Qed.

Lemma ltb_leb (x y : float) :
  (x <? y)%float = true -> (x <=? y)%float = true.
Proof.
  rewrite FloatAxioms.ltb_spec, FloatAxioms.leb_spec.
  unfold SFltb, SFleb. destruct (SFcompare _ _) as [[]|]; congruence.
Qed.

Lemma ltb_false_leb (x y : float) :
  comparable x -> comparable y ->
  (x <? y)%float = false -> (y <=? x)%float = true.
Proof.
  rewrite FloatAxioms.ltb_spec, FloatAxioms.leb_spec. apply SFltb_false_leb.
Qed.

Lemma leb_refl (x : float) : comparable x -> (x <=? x)%float = true.
Proof.
  intros Hx. destruct (x <? x)%float eqn:E.
  - now apply ltb_leb.
  - now apply ltb_false_leb.
Qed.

(** ** Plate selection *)

Lemma in_insert_desc (x y : candidate) (l : list candidate) :
  In y (insert_desc x l) <-> y = x \/ In y l.
Proof.
  induction l as [|h r IH]; simpl; [intuition congruence|].
  destruct (cand_conf x <? cand_conf h)%float; simpl; [rewrite IH|];
    intuition congruence.
Qed.

Lemma in_sort_by_confidence (y : candidate) (l : list candidate) :
  In y (sort_by_confidence l) <-> In y l.
Proof.
  induction l as [|x r IH]; simpl; [tauto|].
  rewrite in_insert_desc, IH. intuition congruence.
Qed.

Lemma head_is_best_insert (x : candidate) (l : list candidate) :
  comparable (cand_conf x) ->
  (forall c, In c l -> comparable (cand_conf c)) ->
  head_is_best l -> head_is_best (insert_desc x l).
Proof.
  intros Hx Hl Hbest. destruct l as [|h r]; simpl.
  - intros c [<-|[]]. now apply leb_refl.
  - destruct (cand_conf x <? cand_conf h)%float eqn:E; simpl.
    + intros c [<-|Hin].
      * apply Hbest. now left.
      * apply in_insert_desc in Hin as [->|Hin].
        -- now apply ltb_leb.
        -- apply Hbest. now right.
    + assert (Hhx : (cand_conf h <=? cand_conf x)%float = true).
      { apply ltb_false_leb; [assumption | apply Hl; now left | assumption]. }
      intros c [<-|Hin]; [now apply leb_refl|].
      apply leb_trans with (cand_conf h); [now apply Hbest | assumption].
Qed.

Lemma head_is_best_sort (l : list candidate) :
  (forall c, In c l -> comparable (cand_conf c)) ->
  head_is_best (sort_by_confidence l).
Proof.
  induction l as [|x r IH]; intros Hl; simpl; [exact I|].
  apply head_is_best_insert.
  - apply Hl. now left.
  - intros c Hin. apply (proj1 (in_sort_by_confidence c r)) in Hin.
    apply Hl. now right.
  - apply IH. intros c Hin. apply Hl. now right.
Qed.

Lemma in_collect_plates `{E : Externals} (all_results : list ocr_result)
  (text : string) (c : float) (b : quad) :
  In (text, c, b) (collect_plates all_results) <->
  exists raw,
    In (b, raw, c) all_results /\ (0.4 <? c)%float = true
    /\ text = clean_text raw /\ plate_like text = true.
Proof.
  induction all_results as [|[[b0 raw0] c0] rest IH]; simpl.
  - split; [tauto | intros (raw & [] & _)].
  - destruct (0.4 <? c0)%float eqn:Hc.
    + destruct (plate_like (clean_text raw0)) eqn:Hp; simpl; rewrite IH.
      * split.
        -- intros [[= <- <- <-]|(raw & Hin & ?)].
           ++ exists raw0. auto.
           ++ exists raw. tauto.
        -- intros (raw & [[= <- <- <-]|Hin] & H1 & -> & H3).
           ++ now left.
           ++ right. exists raw. auto.
      * split.
        -- intros (raw & Hin & ?). exists raw. tauto.
        -- intros (raw & [[= <- <- <-]|Hin] & H1 & -> & H3);
             [congruence | exists raw; auto].
    + rewrite IH. split.
      * intros (raw & Hin & ?). exists raw. tauto.
      * intros (raw & [[= <- <- <-]|Hin] & H1 & H2);
          [congruence | exists raw; auto].
Qed.

(** What [best_plate] hands back. *)
Lemma best_plate_spec `{E : Externals} (all_results : list ocr_result) :
  (collect_plates all_results = []
   /\ best_plate all_results = ReturnPair None None)
  \/ exists plate c b,
       best_plate all_results = ReturnPair (Some plate) (Some b)
       /\ In (plate, c, b) (collect_plates all_results)
       /\ forall c', In c' (collect_plates all_results) ->
                     (cand_conf c' <=? c)%float = true.
Proof.
  unfold best_plate.
  destruct (collect_plates all_results) as [|first others] eqn:Hcs;
    [left; split; reflexivity|].
  right.
  assert (Hcmp : forall c, In c (first :: others) -> comparable (cand_conf c)).
  { intros [[t c] b] Hin. rewrite <- Hcs in Hin.
    apply in_collect_plates in Hin as (raw & _ & Hc & _).
    simpl. now apply ltb_comparable in Hc. }
  pose proof (head_is_best_sort (first :: others) Hcmp) as Hbest.
  assert (Hin : forall y, In y (sort_by_confidence (first :: others))
                          -> In y (first :: others))
    by (intros y; apply (proj1 (in_sort_by_confidence y (first :: others)))).
  destruct (sort_by_confidence (first :: others)) as [|[[t c] b] r] eqn:Hs.
  - exfalso. assert (Hf : In first []); [|destruct Hf].
    rewrite <- Hs. apply (proj2 (in_sort_by_confidence first _)). now left.
  - simpl. exists t, c, b. split; [reflexivity|]. split.
    + apply Hin. now left.
    + intros c' Hc'. apply (Hbest c').
      rewrite <- Hs. now apply (proj2 (in_sort_by_confidence c' _)).
Qed.

Lemma detect_license_plate_body_ok `{E : Externals} (vehicle_crop : option ndarray)
  (r : plate_result) :
  detect_license_plate_body vehicle_crop = Ok r ->
  r = ReturnNone
  \/ exists enhanced thresh results1 results2,
       readtext enhanced = Ok results1 /\ readtext thresh = Ok results2
       /\ r = best_plate (results1 ++ results2).
Proof.
  unfold detect_license_plate_body.
  destruct vehicle_crop as [crop0|]; [|intros [= <-]; now left].
  destruct (_ || _)%N; [intros [= <-]; now left|].
  intros Hrun.
  bind_inv Hrun. rename a into crop1.
  bind_inv Hrun. rename a into gray.
  bind_inv Hrun. rename a into bilateral.
  bind_inv Hrun. rename a into enhanced.
  bind_inv Hrun. rename a into thresh.
  bind_inv Hrun. rename a into results1.
  bind_inv Hrun. rename a into results2.
  injection Hrun as <-. right.
  exists enhanced, thresh, results1, results2. auto.
Qed.

(** C8. A plate returned by [detect_license_plate] is the clean text of
    one of the engine's readings with confidence above 0.4; it has at
    least four characters, a digit and a letter; and no reading that
    passes the same tests has a higher confidence. *)
Theorem selected_plate_is_best_plausible `{E : Externals}
  (vehicle_crop : option ndarray) (plate : string) (box : option quad) :
  detect_license_plate vehicle_crop = Ok (ReturnPair (Some plate) box) ->
  exists enhanced thresh results1 results2 bbox raw c,
    readtext enhanced = Ok results1 /\ readtext thresh = Ok results2
    /\ In (bbox, raw, c) (results1 ++ results2)
    /\ plate = clean_text raw /\ box = Some bbox
    /\ (0.4 <? c)%float = true
    /\ (4 <= String.length plate)%nat
    /\ string_any isdigit plate = true
    /\ string_any isalpha plate = true
    /\ forall bbox' raw' c',
         In (bbox', raw', c') (results1 ++ results2) ->
         (0.4 <? c')%float = true ->
         plate_like (clean_text raw') = true ->
         (c' <=? c)%float = true.
Proof.
  unfold detect_license_plate, try_except.
  destruct (detect_license_plate_body vehicle_crop) as [r|e] eqn:Hbody;
    [|discriminate].
  intros [= ->].
  apply detect_license_plate_body_ok in Hbody
    as [Hnone|(enhanced & thresh & results1 & results2 & H1 & H2 & Hbest)];
    [discriminate|].
  destruct (best_plate_spec (results1 ++ results2))
    as [[_ Hnone]|(p & c & b & Hret & Hin & Hmax)]; [congruence|].
  rewrite Hret in Hbest. injection Hbest as -> ->.
  apply in_collect_plates in Hin as (raw & Hin & Hc & Hclean & Hlike).
  unfold plate_like in Hlike.
  apply andb_prop in Hlike as [Hlike Halpha].
  apply andb_prop in Hlike as [Hlen Hdigit].
  apply Nat.leb_le in Hlen.
  exists enhanced, thresh, results1, results2, b, raw, c.
  repeat (split; [assumption || reflexivity|]).
  intros bbox' raw' c' Hin' Hc' Hlike'.
  apply (Hmax (clean_text raw', c', bbox')).
  apply in_collect_plates. exists raw'. auto.
Qed.

Lemma selected_plate_is_best_plausible_witness :
  detect_license_plate (E := reading_engine) (Some crop_120_200)
  = Ok (ReturnPair (Some "KA01AB1234"%string) (Some corner_quad))
  /\ exists raw c,
       In (corner_quad, raw, c) (sample_readings ++ sample_readings)
       /\ "KA01AB1234"%string = clean_text (E := reading_engine) raw
       /\ (0.4 <? c)%float = true
       /\ (0.95 <=? c)%float = false.
Proof.
  assert (Hrun : detect_license_plate (E := reading_engine) (Some crop_120_200)
                 = Ok (ReturnPair (Some "KA01AB1234"%string) (Some corner_quad)))
    by (vm_compute; reflexivity).
  split; [exact Hrun|].
  destruct (selected_plate_is_best_plausible (E := reading_engine) _ _ _ Hrun)
    as (enhanced & thresh & results1 & results2 & bbox & raw & c
        & H1 & H2 & Hin & Hclean & Hbox & Hc & _ & _ & _ & Hmax).
  injection H1 as <-. injection H2 as <-. injection Hbox as <-.
  exists raw, c. repeat (split; [assumption|]).
  destruct Hin as [Hin|Hin]; [injection Hin as <- <-; discriminate|].
  destruct Hin as [Hin|Hin]; [injection Hin as <- <-; discriminate|].
  destruct Hin as [Hin|Hin]; [injection Hin as <- <-; reflexivity|].
  destruct Hin as [Hin|Hin]; [injection Hin as <- <-|].
  { specialize (Hmax corner_quad "KA-01 AB 1234"%string 0.8%float).
    discriminate Hmax; [simpl; tauto | reflexivity | reflexivity]. }
  destruct Hin as [Hin|Hin]; [injection Hin as <- <-; discriminate|].
  destruct Hin as [Hin|Hin]; [injection Hin as <- <-; discriminate|].
  destruct Hin as [Hin|Hin]; [injection Hin as <- <-; reflexivity|].
  destruct Hin as [Hin|Hin]; [injection Hin as <- <-|destruct Hin].
  specialize (Hmax corner_quad "KA-01 AB 1234"%string 0.8%float).
  discriminate Hmax; [simpl; tauto | reflexivity | reflexivity].
Defined.

(** ** The run never stops on a recognition failure *)

Lemma with_zone_eta (st : VehicleSpeedDetector) :
  with_speed_detection_zone (speed_detection_zone st) st = st.
Proof. destruct st; reflexivity. Qed.

Lemma scan_active_keeps (current_pos : point) (frame_number : Z)
  (max_distance : float) (items : list (Z * list sample))
  (min_distance : float) (assigned_id : option Z)
  (st : VehicleSpeedDetector) :
  let '(_, _, st') :=
    scan_active current_pos frame_number max_distance items min_distance
      assigned_id st in
  inactive_tracks st' = inactive_tracks st
  /\ vehicle_tracks st' = vehicle_tracks st
  /\ next_vehicle_id st' = next_vehicle_id st
  /\ speed_detection_zone st' = speed_detection_zone st.
Proof.
  revert min_distance assigned_id st.
  induction items as [|[vehicle_id positions] rest IH]; intros; simpl;
    [auto|].
  destruct (last_sample positions) as [s|]; [|apply IH].
  destruct (_ && _); [|apply IH].
  specialize (IH (calculate_distance current_pos (position s))
                (Some vehicle_id)
                (with_track_last_seen
                   (PyDict.set vehicle_id frame_number (track_last_seen st))
                   st)).
  destruct (scan_active _ _ _ rest _ _ _) as [[m a] st']. exact IH.
Qed.

Lemma scan_inactive_total (current_pos : point) (frame_number : Z)
  (max_distance : float) (ids : list Z)
  (min_distance : float) (assigned_id : option Z)
  (st : VehicleSpeedDetector) :
  NoDup ids ->
  (forall k, In k ids -> In k (PyDict.keys (inactive_tracks st))) ->
  NoDup (PyDict.keys (inactive_tracks st)) ->
  exists m a st',
    scan_inactive current_pos frame_number max_distance ids min_distance
      assigned_id st = Ok (m, a, st')
    /\ NoDup (PyDict.keys (inactive_tracks st'))
    /\ vehicle_tracks st' = vehicle_tracks st
    /\ speed_detection_zone st' = speed_detection_zone st.
Proof.
  revert min_distance assigned_id st.
  induction ids as [|vehicle_id rest IH]; intros m a st Hids Hsub Hnd; simpl.
  - exists m, a, st. auto.
  - inversion Hids as [|? ? Hnotin Hrest]; subst.
    destruct (proj1 (PyDictFacts.in_keys_get (inactive_tracks st) vehicle_id))
      as [last_pos Hget]; [apply Hsub; now left|].
    unfold PyDict.lookup. rewrite Hget. simpl.
    destruct (_ && _).
    + edestruct IH as (m' & a' & st' & Hrun & Hnd' & Htracks & Hzone);
        [exact Hrest | | | exists m', a', st'; split; [exact Hrun|]; auto].
      * intros k Hk. simpl. apply PyDictFacts.in_keys_del. split.
        -- intros ->. contradiction.
        -- apply Hsub. now right.
      * simpl. now apply PyDictFacts.NoDup_keys_del.
    + apply IH; [assumption | | assumption].
      intros k Hk. apply Hsub. now right.
Qed.

Lemma assign_vehicle_id_total (center_x center_y frame_number : Z)
  (st : VehicleSpeedDetector) :
  ready st ->
  exists vehicle_id st',
    assign_vehicle_id center_x center_y frame_number st = Ok (vehicle_id, st')
    /\ ready st'.
Proof.
  intros [Hnd [zone Hzone]].
  unfold assign_vehicle_id, assign_vehicle_id_gate.
  pose proof (scan_active_keeps (center_x, center_y) frame_number 50
                (vehicle_tracks st) PrimFloat.infinity None st) as Hact.
  destruct (scan_active _ _ _ _ _ _ st) as [[m a] st1].
  destruct Hact as (Hin1 & _ & _ & Hz1).
  destruct a as [vehicle_id|].
  - simpl. exists vehicle_id, st1. split; [reflexivity|].
    split; [now rewrite Hin1 | exists zone; congruence].
  - destruct (scan_inactive_total (center_x, center_y) frame_number 50
                (PyDict.keys (inactive_tracks st1)) m None st1)
      as (m' & a' & st2 & Hrun & Hnd2 & _ & Hz2).
    + now rewrite Hin1.
    + auto.
    + now rewrite Hin1.
    + rewrite Hrun. simpl. destruct a' as [vehicle_id|].
      * exists vehicle_id, st2. split; [reflexivity|].
        split; [assumption | exists zone; congruence].
      * eexists. eexists. split; [reflexivity|].
        split; [exact Hnd2 | exists zone; simpl; congruence].
Qed.

Lemma age_loop_ready (frame_count : Z) (track_keys : list Z)
  (st : VehicleSpeedDetector) :
  ready st -> ready (age_loop frame_count track_keys st).
Proof.
  revert st. induction track_keys as [|k r IH]; intros st Hst; simpl;
    [assumption|].
  destruct (track_max_age st <? _); [|now apply IH].
  destruct (PyDict.get k (vehicle_tracks st)) as [positions|]; [|now apply IH].
  destruct (last_sample positions) as [s|]; [|now apply IH].
  apply IH. destruct Hst as [Hnd Hzone].
  destruct (PyDict.mem k _); (split; [|exact Hzone]); simpl;
    now apply PyDictFacts.NoDup_keys_set.
Qed.

Lemma age_tracks_ready (frame_count : Z) (st : VehicleSpeedDetector) :
  ready st -> ready (age_tracks frame_count st).
Proof. apply age_loop_ready. Qed.

Lemma calculate_speed_total (vehicle_id : Z) (current_pos : point)
  (frame_number fps : Z) (st : VehicleSpeedDetector) :
  fps <> 0 -> ready st ->
  exists speed st',
    calculate_speed vehicle_id current_pos frame_number fps st
    = Ok (speed, st')
    /\ ready st'.
Proof.
  intros Hfps Hst. rewrite calculate_speed_unfold by assumption. cbv zeta.
  destruct (List.length _ <? 3)%nat; [eexists; eexists; split; [reflexivity|exact Hst]|].
  destruct (interval_speeds _ _);
    [eexists; eexists; split; [reflexivity|exact Hst]|].
  destruct (PyDict.get vehicle_id (vehicle_speeds st));
    eexists; eexists; (split; [reflexivity|exact Hst]).
Qed.

(** On a crop that has pixels, [detect_license_plate] returns a pair,
    whatever the filters and the engine do. *)
Lemma detect_license_plate_total `{E : Externals} (crop : ndarray) :
  (0 < size crop)%N ->
  exists text box,
    detect_license_plate (Some crop) = Ok (ReturnPair text box).
Proof.
  intros Hsize. unfold detect_license_plate, try_except.
  destruct (detect_license_plate_body (Some crop)) as [r|e] eqn:Hbody;
    [|eauto].
  apply detect_license_plate_body_ok in Hbody as Hcases.
  destruct Hcases as [->|(enhanced & thresh & r1 & r2 & _ & _ & ->)].
  - exfalso. unfold detect_license_plate_body in Hbody.
    destruct ((size crop =? 0) || (shape0 crop =? 0) || (shape1 crop =? 0))%N
      eqn:Hz.
    + unfold size in *. apply orb_prop in Hz as [Hz|Hz];
        [apply orb_prop in Hz as [Hz|Hz]|]; apply N.eqb_eq in Hz; nia.
    + bind_inv Hbody. bind_inv Hbody. bind_inv Hbody. bind_inv Hbody.
      bind_inv Hbody. bind_inv Hbody. bind_inv Hbody.
      injection Hbody as Hbest. unfold best_plate in Hbest.
      destruct (collect_plates _) as [|first others]; [discriminate|].
      destruct (hd first _) as [[t c] b]. discriminate.
  - destruct (best_plate_spec (r1 ++ r2))
      as [[_ ->]|(p & c & b & -> & _)]; eauto.
Qed.

Lemma plate_stage_total `{E : Externals} (frame_count : Z) (speed : float)
  (vehicle_id : Z) (vehicle_crop : ndarray) (st : VehicleSpeedDetector) :
  ready st ->
  exists plate plate_bbox st',
    plate_stage frame_count speed vehicle_id vehicle_crop st
    = Ok (plate, plate_bbox, st')
    /\ ready st'.
Proof.
  intros Hst. unfold plate_stage.
  destruct (recognition_due frame_count speed vehicle_crop) eqn:Hrun.
  - apply andb_prop in Hrun as [_ Hsize]. apply N.ltb_lt in Hsize.
    destruct (detect_license_plate_total vehicle_crop Hsize)
      as (text & box & ->). simpl.
    destruct text as [p|]; [|eauto 6].
    destruct (_ && _); [|eauto 6].
    destruct (PyDict.get vehicle_id (vehicle_tracks st)) as [[|s track]|];
      eauto 6.
  - destruct (PyDict.get vehicle_id (vehicle_tracks st)) as [[|s track]|];
      eauto 6.
    destruct (cached_plate (s :: track)) as [[p b]|]; eauto 6.
Qed.

(** The body of the detection loop returns whenever the frame rate is
    not zero, for every behaviour of the engine. *)
Lemma process_detection_total `{E : Externals} (frame : ndarray)
  (frame_count fps : Z) (st : VehicleSpeedDetector)
  (data : list DetectionRecord) (canvas : list draw_op) (d : detection) :
  fps <> 0 -> ready st ->
  exists st' data' canvas',
    process_detection frame frame_count fps (st, data, canvas) d
    = Ok (st', data', canvas')
    /\ ready st'.
Proof.
  intros Hfps Hst. unfold process_detection.
  destruct (center d) as [center_x center_y].
  destruct (assign_vehicle_id_total center_x center_y frame_count st Hst)
    as (vehicle_id & st1 & -> & Hst1). simpl.
  destruct (calculate_speed_total vehicle_id (center_x, center_y) frame_count
              fps st1 Hfps Hst1) as (speed & st2 & -> & Hst2). simpl.
  destruct (bbox d) as [[[x1 y1] x2] y2] eqn:Hbox.
  destruct (plate_stage_total frame_count speed vehicle_id
              (slice_frame frame canvas (x1, y1, x2, y2)) st2 Hst2)
    as (plate & plate_bbox & st3 & -> & Hst3). simpl.
  destruct Hst3 as [Hnd [zone Hzone]]. rewrite Hzone. simpl.
  unfold emit_record. rewrite Hbox. destruct (0 <? speed)%float.
  - rewrite int_truediv_ok by assumption. simpl.
    eexists. eexists. eexists. split; [reflexivity|].
    split; [assumption | eauto].
  - simpl. eexists. eexists. eexists. split; [reflexivity|].
    split; [assumption | eauto].
Qed.

Lemma process_detections_total `{E : Externals} (frame : ndarray)
  (frame_count fps : Z) (ds : list detection) (st : VehicleSpeedDetector)
  (data : list DetectionRecord) (canvas : list draw_op) :
  fps <> 0 -> ready st ->
  exists st' data' canvas',
    process_detections frame frame_count fps (st, data, canvas) ds
    = Ok (st', data', canvas')
    /\ ready st'.
Proof.
  intros Hfps. revert st data canvas.
  induction ds as [|d rest IH]; intros st data canvas Hst;
    [simpl; eauto 6|].
  change (process_detections frame frame_count fps (st, data, canvas)
            (d :: rest))
    with (acc1 <- process_detection frame frame_count fps
                    (st, data, canvas) d ;;
          process_detections frame frame_count fps acc1 rest).
  destruct (process_detection_total frame frame_count fps st data canvas d
              Hfps Hst) as (st1 & data1 & canvas1 & -> & Hst1).
  now apply IH.
Qed.

Lemma process_frame_total `{E : Externals} (fps total_frames : Z)
  (rs : run_state) (fr : frame_in) :
  fps <> 0 -> total_frames <> 0 -> ready (detector rs) ->
  exists rs',
    process_frame fps total_frames rs fr = Ok rs'
    /\ ready (detector rs')
    /\ frame_count rs' = frame_count rs + 1.
Proof.
  intros Hfps Htotal Hst. unfold process_frame.
  rewrite int_truediv_ok by assumption. simpl.
  destruct (process_detections_total (image fr) (frame_count rs + 1) fps
              (collect_detections (results fr))
              (age_tracks (frame_count rs + 1) (detector rs))
              (detection_data rs) [] Hfps
              (age_tracks_ready _ _ Hst))
    as (st1 & data1 & canvas & -> & Hst1). simpl.
  destruct Hst1 as [Hnd [[[[zx1 zy1] zx2] zy2] Hzone]] eqn:Hready.
  rewrite Hzone. simpl. eexists. split; [reflexivity|].
  split; [exact (conj Hnd (ex_intro _ _ Hzone)) | reflexivity].
Qed.

Lemma process_frames_total `{E : Externals} (fps total_frames : Z)
  (frames : list frame_in) (rs : run_state) :
  fps <> 0 -> total_frames <> 0 -> ready (detector rs) ->
  exists rs',
    process_frames fps total_frames rs frames = Ok rs'
    /\ frame_count rs' = frame_count rs + Z.of_nat (List.length frames).
Proof.
  intros Hfps Htotal. revert rs.
  induction frames as [|fr rest IH]; intros rs Hst; simpl.
  - exists rs. split; [reflexivity | lia].
  - destruct (process_frame_total fps total_frames rs fr Hfps Htotal Hst)
      as (rs1 & -> & Hst1 & Hcount). simpl.
    destruct (IH rs1 Hst1) as (rs' & Hrun & Hcount').
    exists rs'. split; [exact Hrun | lia].
Qed.

(** C9. On a video whose frame rate and frame count are not zero and
    whose zone could be set, the run reads every frame and returns, for
    every behaviour of the filters and the engine; recognition is due
    only on a crop that has pixels; and on such a crop
    [detect_license_plate] returns a pair, which is [(None, None)]
    whenever anything raised inside it. *)
Theorem recognition_failure_is_absorbed `{E : Externals} (v : video)
  (st0 : VehicleSpeedDetector) :
  fps v <> 0 -> total_frames v <> 0 -> calibrate v init = Ok st0 ->
  (exists rs,
     process_video v = Ok rs
     /\ frame_count rs = Z.of_nat (List.length (frames v)))
  /\ (forall frame_count speed crop,
        recognition_due frame_count speed crop = true -> (0 < size crop)%N)
  /\ forall crop,
       (0 < size crop)%N ->
       (exists text box,
          detect_license_plate (Some crop) = Ok (ReturnPair text box))
       /\ forall e,
            detect_license_plate_body (Some crop) = Raise e ->
            detect_license_plate (Some crop) = Ok (ReturnPair None None).
Proof.
  intros Hfps Htotal Hcal. split; [|split].
  2:{ intros frame_count speed crop Hdue.
      apply andb_prop in Hdue as [_ Hsize]. now apply N.ltb_lt. }
  - unfold process_video, process_video_from. rewrite Hcal. simpl.
    assert (Hready : ready st0).
    { unfold calibrate in Hcal. bind_inv Hcal. bind_inv Hcal.
      injection Hcal as <-. split; [constructor | eexists; reflexivity]. }
    destruct (process_frames_total (fps v) (total_frames v) (frames v)
                {| detector := st0; frame_count := 0; detection_data := [];
                   written := []; progress := [] |} Hfps Htotal Hready)
      as (rs & Hrun & Hcount).
    exists rs. split; [exact Hrun | exact Hcount].
  - intros crop Hsize. split; [now apply detect_license_plate_total|].
    intros e Hraise. unfold detect_license_plate, try_except.
    now rewrite Hraise.
Qed.

Lemma recognition_failure_is_absorbed_witness :
  (exists rs,
     process_video (E := failing_engine) five_frames = Ok rs
     /\ frame_count rs = 5)
  /\ detect_license_plate_body (E := failing_engine) (Some crop_120_200)
     = Raise (EngineError 1)
  /\ detect_license_plate (E := failing_engine) (Some crop_120_200)
     = Ok (ReturnPair None None).
Proof.
  destruct (calibrate five_frames init) as [st0|e] eqn:Hcal;
    [|vm_compute in Hcal; discriminate].
  destruct (recognition_failure_is_absorbed (E := failing_engine)
              five_frames st0) as (Hrun & _ & Hdetect);
    [discriminate | discriminate | exact Hcal |].
  split; [exact Hrun|].
  assert (Hraise : detect_license_plate_body (E := failing_engine)
                     (Some crop_120_200) = Raise (EngineError 1))
    by (vm_compute; reflexivity).
  split; [exact Hraise|].
  destruct (Hdetect crop_120_200) as [_ Hcaught]; [reflexivity|].
  exact (Hcaught _ Hraise).
Defined.

(** ** The plate cache lives in the last fifteen samples *)

(** [plate_stage] leaves the histories alone or rewrites the plate
    fields of the last entry of one of them. *)
Lemma plate_stage_tracks `{E : Externals} (frame_count : Z) (speed : float)
  (vehicle_id : Z) (vehicle_crop : ndarray) (st st' : VehicleSpeedDetector)
  (plate : option string) (plate_bbox : option quad) :
  plate_stage frame_count speed vehicle_id vehicle_crop st
  = Ok (plate, plate_bbox, st') ->
  vehicle_tracks st' = vehicle_tracks st
  \/ exists track c,
       PyDict.get vehicle_id (vehicle_tracks st) = Some track
       /\ vehicle_tracks st'
          = PyDict.set vehicle_id
              (update_last (store_plate plate plate_bbox c) track)
              (vehicle_tracks st).
Proof.
  unfold plate_stage.
  destruct (recognition_due frame_count speed vehicle_crop).
  - intros Hrun. bind_inv Hrun. bind_inv Hrun. destruct a0 as [pl pb].
    destruct pl as [text|]; [|injection Hrun as <- <- <-; now left].
    destruct (truthy (Some text) && PyDict.mem vehicle_id (vehicle_tracks st));
      [|injection Hrun as <- <- <-; now left].
    destruct (PyDict.get vehicle_id (vehicle_tracks st)) as [[|s track]|];
      try (injection Hrun as <- <- <-; now left).
    injection Hrun as <- <- <-. right. eexists. eexists.
    split; reflexivity.
  - destruct (PyDict.get vehicle_id (vehicle_tracks st)) as [[|s track]|];
      try (intros [= <- <- <-]; now left).
    destruct (cached_plate (s :: track)) as [[p b]|];
      intros [= <- <- <-]; now left.
Qed.

Lemma Forall_skipn_keep {A : Type} (P : A -> Prop) (n : nat) (l : list A) :
  Forall P l -> Forall P (skipn n l).
Proof.
  revert l. induction n as [|n IH]; intros l Hl; [exact Hl|].
  destruct l as [|x r]; [constructor|]. simpl. apply IH.
  now inversion Hl.
Qed.

Lemma last_n_app_one {A : Type} (k : nat) (l : list A) (x : A) :
  last_n (S k) (l ++ [x]) = last_n k l ++ [x].
Proof.
  unfold last_n. rewrite length_app. simpl.
  replace (List.length l + 1 - S k)%nat with (List.length l - k)%nat by lia.
  rewrite skipn_app.
  replace (List.length l - k - List.length l)%nat with 0%nat by lia.
  reflexivity.
Qed.

Lemma last_n_of_suffix {A : Type} (P : A -> Prop) (m d : nat) (l : list A) :
  Forall P (last_n m l) -> Forall P (last_n m (skipn d l)).
Proof.
  unfold last_n. intros Hl. rewrite length_skipn, skipn_skipn.
  replace (List.length l - d - m + d)%nat
    with ((List.length l - d - m + d - (List.length l - m))
          + (List.length l - m))%nat by lia.
  rewrite <- skipn_skipn. now apply Forall_skipn_keep.
Qed.

Lemma last_n_all {A : Type} (n : nat) (l : list A) :
  (List.length l <= n)%nat -> last_n n l = l.
Proof.
  intros Hlen. unfold last_n.
  now replace (List.length l - n)%nat with 0%nat by lia.
Qed.

Lemma appended_track_length (vehicle_id : Z) (current_pos : point)
  (frame_number : Z) (ts : float) (st : VehicleSpeedDetector) :
  (List.length (appended_track vehicle_id current_pos frame_number ts st)
   <= 15)%nat.
Proof.
  unfold appended_track.
  destruct (15 <? List.length _)%nat eqn:Hlong.
  - apply Nat.ltb_lt in Hlong. unfold last_n. rewrite length_skipn. lia.
  - apply Nat.ltb_ge in Hlong. exact Hlong.
Qed.

Lemma appended_track_recent (vehicle_id : Z) (current_pos : point)
  (frame_number : Z) (ts : float) (st : VehicleSpeedDetector) (k : nat) :
  recent_plateless k (track_of vehicle_id st) ->
  recent_plateless (S k)
    (appended_track vehicle_id current_pos frame_number ts st).
Proof.
  intros [Hrecent _]. split; [|intros _; apply appended_track_length].
  unfold appended_track. fold (track_of vehicle_id st).
  assert (Hall : Forall plateless
                   (last_n (S k)
                      (track_of vehicle_id st
                       ++ [new_sample current_pos frame_number ts]))).
  { rewrite last_n_app_one. apply Forall_app. split; [exact Hrecent|].
    constructor; [reflexivity | constructor]. }
  destruct (15 <? List.length _)%nat; [|exact Hall].
  unfold last_n at 2. now apply last_n_of_suffix.
Qed.

Lemma calculate_speed_tracks (vehicle_id : Z) (current_pos : point)
  (frame_number fps : Z) (st st' : VehicleSpeedDetector) (speed : float) :
  fps <> 0 ->
  calculate_speed vehicle_id current_pos frame_number fps st
  = Ok (speed, st') ->
  vehicle_tracks st'
  = PyDict.set vehicle_id
      (appended_track vehicle_id current_pos frame_number
         (Z2float frame_number / Z2float fps)%float st)
      (vehicle_tracks st).
Proof.
  intros Hfps. rewrite calculate_speed_unfold by assumption. cbv zeta.
  destruct (List.length _ <? 3)%nat; [intros [= _ <-]; reflexivity|].
  destruct (interval_speeds _ _); [intros [= _ <-]; reflexivity|].
  destruct (PyDict.get vehicle_id (vehicle_speeds st));
    intros [= _ <-]; reflexivity.
Qed.

Lemma feed_recent (vehicle_id fps : Z) (sightings : list (point * Z))
  (st st' : VehicleSpeedDetector) (k : nat) :
  fps <> 0 ->
  recent_plateless k (track_of vehicle_id st) ->
  feed vehicle_id fps sightings st = Ok st' ->
  recent_plateless (k + List.length sightings) (track_of vehicle_id st').
Proof.
  intros Hfps. revert st k.
  induction sightings as [|[current_pos frame_number] rest IH];
    intros st k Hk Hrun; simpl in *.
  - injection Hrun as <-. now rewrite Nat.add_0_r.
  - bind_inv Hrun. destruct a as [speed st1].
    replace (k + S (List.length rest))%nat
      with (S k + List.length rest)%nat by lia.
    apply (IH st1); [|exact Hrun].
    unfold track_of.
    rewrite (calculate_speed_tracks _ _ _ _ _ _ _ Hfps Hstep).
    rewrite PyDictFacts.get_set_same. now apply appended_track_recent.
Qed.

Lemma feed_tracked (vehicle_id fps : Z) (sightings : list (point * Z))
  (st st' : VehicleSpeedDetector) :
  fps <> 0 -> sightings <> [] ->
  feed vehicle_id fps sightings st = Ok st' ->
  PyDict.get vehicle_id (vehicle_tracks st')
  = Some (track_of vehicle_id st').
Proof.
  intros Hfps. revert st.
  induction sightings as [|[current_pos frame_number] rest IH];
    intros st Hne Hrun; [contradiction|]. simpl in Hrun.
  bind_inv Hrun. destruct a as [speed st1].
  destruct rest as [|next rest'].
  - simpl in Hrun. injection Hrun as <-. unfold track_of.
    rewrite (calculate_speed_tracks _ _ _ _ _ _ _ Hfps Hstep).
    now rewrite PyDictFacts.get_set_same.
  - apply (IH st1); [discriminate | exact Hrun].
Qed.

Lemma first_cached_none (l : list sample) :
  Forall plateless l -> first_cached l = None.
Proof.
  induction 1 as [|s r Hs Hr IH]; simpl; [reflexivity|].
  unfold plateless in Hs. now rewrite Hs.
Qed.

Lemma first_cached_some (l : list sample) (p : string) (b : option quad) :
  first_cached l = Some (p, b) ->
  exists s, In s l /\ license_plate s = Some p /\ license_plate_bbox s = b.
Proof.
  induction l as [|s r IH]; simpl; [discriminate|].
  destruct (truthy (license_plate s)) eqn:Ht.
  - destruct (license_plate s) as [q|] eqn:Hq; [|discriminate].
    intros [= <- <-]. exists s. auto.
  - intros Hrest. destruct (IH Hrest) as (s' & Hin & Hs'). exists s'. auto.
Qed.

(** C10. A plate that is stored is stored on the last sample of the
    vehicle's history, and every append leaves at most 15 samples in a
    history. When recognition is skipped, [plate_stage] changes nothing and hands back
    a plate only if a sample of the stored history carries it. After
    fifteen or more consecutive appends with nothing stored, no sample of
    the history carries a plate: a skipped frame then gets no plate and
    an emitted record reads ['N/A']. *)
Theorem cached_plate_expires `{E : Externals} (vehicle_id fps : Z)
  (sightings : list (point * Z)) (st st' : VehicleSpeedDetector) :
  fps <> 0 ->
  (15 <= List.length sightings)%nat ->
  feed vehicle_id fps sightings st = Ok st' ->
  (forall frame_count speed crop st0 plate plate_bbox st1,
     plate_stage frame_count speed vehicle_id crop st0
     = Ok (plate, plate_bbox, st1) ->
     vehicle_tracks st1 = vehicle_tracks st0
     \/ exists track c,
          PyDict.get vehicle_id (vehicle_tracks st0) = Some track
          /\ vehicle_tracks st1
             = PyDict.set vehicle_id
                 (update_last (store_plate plate plate_bbox c) track)
                 (vehicle_tracks st0))
  /\ (forall current_pos frame_number ts st0,
        (List.length
           (appended_track vehicle_id current_pos frame_number ts st0)
         <= 15)%nat)
  /\ (forall frame_count speed crop st0 plate plate_bbox st1,
        recognition_due frame_count speed crop = false ->
        plate_stage frame_count speed vehicle_id crop st0
        = Ok (plate, plate_bbox, st1) ->
        st1 = st0
        /\ forall p,
             plate = Some p ->
             exists track s,
               PyDict.get vehicle_id (vehicle_tracks st0) = Some track
               /\ In s track /\ license_plate s = Some p)
  /\ (exists track,
        PyDict.get vehicle_id (vehicle_tracks st') = Some track
        /\ (List.length track <= 15)%nat /\ Forall plateless track)
  /\ (forall frame_count speed crop,
        recognition_due frame_count speed crop = false ->
        plate_stage frame_count speed vehicle_id crop st'
        = Ok (None, None, st'))
  /\ (forall frame_count d speed is_overspeed,
        (0 <? speed)%float = true ->
        exists r,
          emit_record frame_count fps d vehicle_id speed is_overspeed None st'
          = Ok [r]
          /\ r_license_plate r = "N/A"%string).
Proof.
  intros Hfps Hlen Hrun.
  assert (Hrecent : recent_plateless (0 + List.length sightings)
                      (track_of vehicle_id st')).
  { apply (feed_recent vehicle_id fps sightings st st' 0 Hfps); [|exact Hrun].
    split; [|lia]. unfold last_n. rewrite Nat.sub_0_r, skipn_all.
    constructor. }
  destruct Hrecent as [Hall Hshort]. simpl in Hall, Hshort.
  specialize (Hshort ltac:(lia)).
  rewrite last_n_all in Hall by lia.
  assert (Hget : PyDict.get vehicle_id (vehicle_tracks st')
                 = Some (track_of vehicle_id st')).
  { apply (feed_tracked vehicle_id fps sightings st st' Hfps); [|exact Hrun].
    intros ->. simpl in Hlen. lia. }
  split; [intros until st1; apply plate_stage_tracks|].
  split; [intros; apply appended_track_length|].
  split.
  { intros frame_count speed crop st0 plate plate_bbox st1 Hskip.
    unfold plate_stage. rewrite Hskip.
    destruct (PyDict.get vehicle_id (vehicle_tracks st0))
      as [[|s track]|] eqn:Htrack; try (intros [= <- <- <-]; split;
                                         [reflexivity | discriminate]).
    destruct (cached_plate (s :: track)) as [[p b]|] eqn:Hcache;
      intros [= <- <- <-]; (split; [reflexivity|]); [|discriminate].
    intros p' [= <-]. unfold cached_plate in Hcache.
    apply first_cached_some in Hcache as (s' & Hin & Hplate & _).
    exists (s :: track), s'. split; [reflexivity|].
    split; [now apply in_rev | exact Hplate]. }
  split; [exists (track_of vehicle_id st'); auto|].
  split.
  { intros frame_count speed crop Hskip. unfold plate_stage.
    rewrite Hskip, Hget.
    destruct (track_of vehicle_id st') as [|s track] eqn:Htrack;
      [reflexivity|].
    unfold cached_plate. rewrite first_cached_none; [reflexivity|].
    now apply Forall_rev. }
  intros frame_count d speed is_overspeed Hpos. unfold emit_record.
  rewrite Hpos. destruct (bbox d) as [[[x1 y1] x2] y2].
  rewrite int_truediv_ok by assumption. simpl.
  eexists. split; reflexivity.
Qed.

Lemma cached_plate_expires_witness :
  exists st14 st15,
    feed 1 30 (firstn 14 fifteen_sightings) plate_read_once = Ok st14
    /\ plate_stage (E := silent_engine) 16 0 1 crop_120_200 st14
       = Ok (Some "KA01AB1234"%string, Some corner_quad, st14)
    /\ feed 1 30 fifteen_sightings plate_read_once = Ok st15
    /\ plate_stage (E := silent_engine) 17 0 1 crop_120_200 st15
       = Ok (None, None, st15).
Proof.
  destruct (feed 1 30 (firstn 14 fifteen_sightings) plate_read_once)
    as [st14|e] eqn:Hrun14; [|vm_compute in Hrun14; discriminate].
  destruct (feed 1 30 fifteen_sightings plate_read_once) as [st15|e] eqn:Hrun;
    [|vm_compute in Hrun; discriminate].
  exists st14, st15. split; [reflexivity|].
  split; [vm_compute in Hrun14; injection Hrun14 as <-; vm_compute;
          reflexivity|].
  split; [reflexivity|].
  destruct (cached_plate_expires (E := silent_engine) 1 30 fifteen_sightings
              plate_read_once st15)
    as (_ & _ & _ & _ & Hgone & _);
    [discriminate | vm_compute; lia | exact Hrun |].
  apply Hgone. reflexivity.
Defined.

(** ** A slowly moving vehicle keeps its identity *)

Lemma last_sample_app (l : list sample) (s : sample) :
  last_sample (l ++ [s]) = Some s.
Proof.
  unfold last_sample, neg_index. rewrite length_app. cbn [List.length].
  destruct ((1 <=? 1)%nat && (1 <=? List.length l + 1)%nat) eqn:Hin.
  - replace (List.length l + 1 - 1)%nat with (List.length l) by lia.
    rewrite nth_error_app2 by lia. now rewrite Nat.sub_diag.
  - apply andb_false_iff in Hin as [Hin|Hin]; apply Nat.leb_gt in Hin; lia.
Qed.

Lemma last_sample_last_n (n : nat) (l : list sample) (s : sample) :
  last_sample (last_n (S n) (l ++ [s])) = Some s.
Proof.
  rewrite last_n_app_one. apply last_sample_app.
Qed.

Lemma last_sample_appended (vehicle_id : Z) (current_pos : point)
  (frame_number : Z) (ts : float) (st : VehicleSpeedDetector) :
  last_sample (appended_track vehicle_id current_pos frame_number ts st)
  = Some (new_sample current_pos frame_number ts).
Proof.
  unfold appended_track. destruct (15 <? _)%nat.
  - apply (last_sample_last_n 14).
  - apply last_sample_app.
Qed.

Lemma update_last_app {A : Type} (f : A -> A) (l : list A) (x : A) :
  update_last f (l ++ [x]) = l ++ [f x].
Proof.
  induction l as [|y r IH]; [reflexivity|].
  change ((y :: r) ++ [x]) with (y :: (r ++ [x])).
  destruct (r ++ [x]) as [|z r'] eqn:Hr; [now destruct r|].
  change (update_last f (y :: z :: r')) with (y :: update_last f (z :: r')).
  now rewrite IH.
Qed.

Lemma last_sample_inv (l : list sample) (s : sample) :
  last_sample l = Some s -> exists r, l = r ++ [s].
Proof.
  destruct l as [|x l'] using rev_ind; [discriminate|].
  rewrite last_sample_app. intros [= ->]. eauto.
Qed.

Lemma last_sample_update (f : sample -> sample) (l : list sample) (s : sample) :
  last_sample l = Some s -> last_sample (update_last f l) = Some (f s).
Proof.
  intros Hl. apply last_sample_inv in Hl as [r ->].
  rewrite update_last_app. apply last_sample_app.
Qed.

Lemma assign_tracked (center_x center_y frame_number : Z)
  (st : VehicleSpeedDetector) (p : point) :
  ready st -> tracks_one st p ->
  (calculate_distance (center_x, center_y) p <? 50)%float = true ->
  exists st1,
    assign_vehicle_id center_x center_y frame_number st = Ok (1, st1)
    /\ ready st1 /\ vehicle_tracks st1 = vehicle_tracks st.
Proof.
  intros Hready (h & s & Htracks & Hlast & Hpos) Hnear.
  unfold assign_vehicle_id, assign_vehicle_id_gate.
  rewrite Htracks. simpl. rewrite Hlast, Hpos, Hnear.
  rewrite (ltb_below_infinity _ _ Hnear). simpl.
  eexists. split; [reflexivity|]. split; [exact Hready | exact Htracks].
Qed.

Lemma assign_first (center_x center_y frame_number : Z)
  (st : VehicleSpeedDetector) :
  ready st -> vehicle_tracks st = [] -> inactive_tracks st = [] ->
  next_vehicle_id st = 1 ->
  exists st1,
    assign_vehicle_id center_x center_y frame_number st = Ok (1, st1)
    /\ ready st1 /\ vehicle_tracks st1 = [].
Proof.
  intros Hready Htracks Hinactive Hnext.
  unfold assign_vehicle_id, assign_vehicle_id_gate.
  rewrite Htracks. simpl. rewrite Hinactive. simpl. rewrite Hnext.
  eexists. split; [reflexivity|]. split; [|exact Htracks].
  destruct Hready as [Hnd Hzone]. split; assumption.
Qed.

Lemma drawn_ids_overlay `{E : Externals} (d : detection) (vehicle_id : Z)
  (speed : float) (is_overspeed : bool) (zone : Z * Z * Z * Z)
  (plate : option string) (plate_bbox : option quad) :
  drawn_ids (overlay d vehicle_id speed is_overspeed zone plate plate_bbox)
  = [vehicle_id].
Proof.
  unfold overlay. destruct (bbox d) as [[[x1 y1] x2] y2].
  destruct (center d) as [cx cy]. destruct zone as [[[zx1 zy1] zx2] zy2].
  destruct (_ && _); destruct (truthy plate); destruct plate as [p|];
    try reflexivity;
    destruct plate_bbox as [q|]; try reflexivity;
    destruct (nth_error q 0) as [[a b]|]; try reflexivity;
    destruct (nth_error q 2) as [[a' b']|]; reflexivity.
Qed.

Lemma drawn_ids_app (a b : list draw_op) :
  drawn_ids (a ++ b) = drawn_ids a ++ drawn_ids b.
Proof. apply flat_map_app. Qed.

(** Once the detection is bound to identity 1 in a store that holds no
    other track, the rest of the loop body leaves the store holding the
    history of identity 1 alone, ending at the detection's centroid. *)
Lemma process_detection_bound `{E : Externals} (frame : ndarray)
  (frame_count fps : Z) (st st1 : VehicleSpeedDetector)
  (data : list DetectionRecord) (canvas : list draw_op) (d : detection) :
  fps <> 0 ->
  assign_vehicle_id (fst (center d)) (snd (center d)) frame_count st
  = Ok (1, st1) ->
  ready st1 ->
  (vehicle_tracks st1 = [] \/ exists h, vehicle_tracks st1 = [(1, h)]) ->
  exists st' data' drawn,
    process_detection frame frame_count fps (st, data, canvas) d
    = Ok (st', data', canvas ++ drawn)
    /\ drawn_ids drawn = [1]
    /\ ready st' /\ tracks_one st' (center d).
Proof.
  intros Hfps Hassign Hready1 Hshape. unfold process_detection.
  destruct (center d) as [center_x center_y] eqn:Hcenter. simpl in Hassign.
  rewrite Hassign. simpl.
  destruct (calculate_speed_total 1 (center_x, center_y) frame_count fps st1
              Hfps Hready1) as (speed & st2 & Hspeed & Hready2).
  rewrite Hspeed. simpl.
  pose proof (calculate_speed_tracks _ _ _ _ _ _ _ Hfps Hspeed) as Htracks2.
  set (track := appended_track 1 (center_x, center_y) frame_count
                  (Z2float frame_count / Z2float fps)%float st1) in *.
  assert (Hone2 : vehicle_tracks st2 = [(1, track)]).
  { rewrite Htracks2. destruct Hshape as [->|[h ->]]; reflexivity. }
  assert (Hlast2 : last_sample track
                   = Some (new_sample (center_x, center_y) frame_count
                             (Z2float frame_count / Z2float fps)%float))
    by apply last_sample_appended.
  destruct (bbox d) as [[[x1 y1] x2] y2] eqn:Hbox.
  set (crop := slice_frame frame canvas (x1, y1, x2, y2)).
  destruct (plate_stage_total frame_count speed 1 crop st2 Hready2)
    as (plate & plate_bbox & st3 & Hrun & Hready3).
  assert (Hone3 : tracks_one st3 (center_x, center_y)).
  { apply plate_stage_tracks in Hrun as [Hsame|(tr & c & Hget & Hset)].
    - exists track. eexists. rewrite Hsame.
      split; [exact Hone2|]. split; [exact Hlast2 | reflexivity].
    - rewrite Hone2 in Hget, Hset. injection Hget as <-.
      eexists. eexists. split; [exact Hset|].
      split; [apply last_sample_update; exact Hlast2 | reflexivity]. }
  rewrite Hrun. simpl.
  destruct Hready3 as [Hnd [zone Hzone]]. rewrite Hzone. simpl.
  assert (Hemit : exists records,
             emit_record frame_count fps d 1 speed
               (Z2float (speed_limit st3) <? speed)%float plate st3
             = Ok records).
  { unfold emit_record. rewrite Hbox. destruct (0 <? speed)%float; [|eauto].
    rewrite int_truediv_ok by assumption. simpl. eauto. }
  destruct Hemit as [records ->]. simpl.
  eexists. eexists. eexists. split; [reflexivity|].
  split; [apply drawn_ids_overlay|].
  split; [split; [exact Hnd | eauto] | exact Hone3].
Qed.

Lemma age_loop_no_tracks (frame_count : Z) (track_keys : list Z)
  (st : VehicleSpeedDetector) :
  vehicle_tracks st = [] -> age_loop frame_count track_keys st = st.
Proof.
  intros Hempty. induction track_keys as [|k r IH]; simpl; [reflexivity|].
  rewrite Hempty. simpl. destruct (track_max_age st <? _); exact IH.
Qed.

Lemma tracks_one_aged (frame_count : Z) (st : VehicleSpeedDetector)
  (p : point) :
  tracks_one st p -> tracks_one (age_tracks frame_count st) p.
Proof.
  intros (h & s & Htracks & Hrest). exists h, s.
  now rewrite age_tracks_vehicle_tracks.
Qed.

(** One turn of the loop on a frame with a single detection that is
    bound to identity 1. *)
Lemma process_frame_bound `{E : Externals} (fps total_frames : Z)
  (rs : run_state) (fr : frame_in) (d : detection)
  (st1 : VehicleSpeedDetector) :
  fps <> 0 -> total_frames <> 0 ->
  single_detection fr d ->
  assign_vehicle_id (fst (center d)) (snd (center d)) (frame_count rs + 1)
    (age_tracks (frame_count rs + 1) (detector rs)) = Ok (1, st1) ->
  ready st1 ->
  (vehicle_tracks st1 = [] \/ exists h, vehicle_tracks st1 = [(1, h)]) ->
  exists rs',
    process_frame fps total_frames rs fr = Ok rs'
    /\ ready (detector rs') /\ tracks_one (detector rs') (center d)
    /\ map drawn_ids (written rs') = map drawn_ids (written rs) ++ [[1]].
Proof.
  intros Hfps Htotal Hsingle Hassign Hready1 Hshape. unfold process_frame.
  rewrite int_truediv_ok by assumption. simpl.
  rewrite Hsingle.
  destruct (process_detection_bound (image fr) (frame_count rs + 1) fps
              (age_tracks (frame_count rs + 1) (detector rs)) st1
              (detection_data rs) [] d Hfps Hassign Hready1 Hshape)
    as (st' & data' & drawn & Hrun & Hids & Hready' & Hone').
  change (process_detections (image fr) (frame_count rs + 1) fps
            (age_tracks (frame_count rs + 1) (detector rs),
             detection_data rs, []) [d])
    with (acc1 <- process_detection (image fr) (frame_count rs + 1) fps
                    (age_tracks (frame_count rs + 1) (detector rs),
                     detection_data rs, []) d ;;
          Ok acc1).
  rewrite Hrun. simpl.
  destruct Hready' as [Hnd [[[[zx1 zy1] zx2] zy2] Hzone]].
  rewrite Hzone. simpl. eexists. split; [reflexivity|]. simpl.
  split; [split; [exact Hnd | eauto]|].
  split; [exact Hone'|].
  rewrite map_app. simpl. rewrite drawn_ids_app, Hids. reflexivity.
Qed.

Lemma process_frames_tracked `{E : Externals} (fps total_frames : Z)
  (frames : list frame_in) (ds : list detection) (rs : run_state)
  (p : point) :
  fps <> 0 -> total_frames <> 0 ->
  Forall2 single_detection frames ds ->
  ready (detector rs) -> tracks_one (detector rs) p -> chain p ds ->
  exists rs',
    process_frames fps total_frames rs frames = Ok rs'
    /\ map drawn_ids (written rs')
       = map drawn_ids (written rs) ++ map (fun _ => [1]) ds.
Proof.
  intros Hfps Htotal Hsingle. revert rs p.
  induction Hsingle as [|fr d frames ds Hfr Hrest IH];
    intros rs p Hready Hone Hchain; simpl.
  - exists rs. split; [reflexivity | now rewrite app_nil_r].
  - destruct Hchain as [Hnear Hchain]. destruct (center d) as [cx cy] eqn:Hc.
    destruct (assign_tracked cx cy (frame_count rs + 1)
                (age_tracks (frame_count rs + 1) (detector rs)) p
                (age_tracks_ready _ _ Hready) (tracks_one_aged _ _ _ Hone)
                Hnear) as (st1 & Hassign & Hready1 & Htracks1).
    destruct (process_frame_bound fps total_frames rs fr d st1 Hfps Htotal Hfr)
      as (rs1 & Hrun & Hready' & Hone' & Hids).
    + rewrite Hc. exact Hassign.
    + exact Hready1.
    + right. destruct (tracks_one_aged (frame_count rs + 1) _ _ Hone)
        as (h & s & Ht & _). exists h. congruence.
    + rewrite Hrun. simpl. rewrite Hc in Hone'.
      destruct (IH rs1 (cx, cy) Hready' Hone' Hchain) as (rs' & Hrun' & Hids').
      exists rs'. split; [exact Hrun'|].
      rewrite Hids', Hids, <- app_assoc. reflexivity.
Qed.

(** C7. On a video each of whose frames holds a single detection, every
    detection lying within the distance gate of the previous one, the
    run gives the first detection identity 1 and writes that identity,
    and no other, on every frame. *)
Theorem slow_vehicle_keeps_identity `{E : Externals} (v : video)
  (ds : list detection) (st0 : VehicleSpeedDetector) :
  fps v <> 0 -> total_frames v <> 0 -> calibrate v init = Ok st0 ->
  Forall2 single_detection (frames v) ds ->
  within_gate ds ->
  exists rs,
    process_video v = Ok rs
    /\ map drawn_ids (written rs) = map (fun _ => [1]) ds.
Proof.
  intros Hfps Htotal Hcal Hsingle Hgate.
  unfold process_video, process_video_from. rewrite Hcal. simpl.
  assert (Hst0 : ready st0 /\ vehicle_tracks st0 = []
                 /\ inactive_tracks st0 = [] /\ next_vehicle_id st0 = 1
                 /\ track_last_seen st0 = []).
  { unfold calibrate in Hcal. bind_inv Hcal. bind_inv Hcal.
    injection Hcal as <-. repeat split; try reflexivity.
    - constructor.
    - eexists. reflexivity. }
  destruct Hst0 as (Hready & Htracks & Hinactive & Hnext & Hseen).
  destruct Hsingle as [|fr d frames ds Hfr Hrest].
  - simpl. eexists. split; reflexivity.
  - simpl in Hgate. simpl.
    set (rs0 := {| detector := st0; frame_count := 0; detection_data := [];
                   written := []; progress := [] |}).
    assert (Haged : age_tracks (frame_count rs0 + 1) (detector rs0) = st0).
    { unfold age_tracks. simpl. now apply age_loop_no_tracks. }
    destruct (assign_first (fst (center d)) (snd (center d)) 1 st0
                Hready Htracks Hinactive Hnext)
      as (st1 & Hassign & Hready1 & Htracks1).
    destruct (process_frame_bound (fps v) (total_frames v) rs0 fr d st1
                Hfps Htotal Hfr)
      as (rs1 & Hrun & Hready' & Hone' & Hids).
    + rewrite Haged. exact Hassign.
    + exact Hready1.
    + now left.
    + rewrite Hrun. simpl.
      destruct (process_frames_tracked (fps v) (total_frames v) frames ds rs1
                  (center d) Hfps Htotal Hrest Hready' Hone' Hgate)
        as (rs' & Hrun' & Hids').
      exists rs'. split; [exact Hrun'|]. rewrite Hids', Hids. reflexivity.
Qed.

Lemma slow_vehicle_keeps_identity_witness :
  exists rs,
    process_video (E := silent_engine) five_frames = Ok rs
    /\ map drawn_ids (written rs) = [[1]; [1]; [1]; [1]; [1]].
Proof.
  destruct (calibrate five_frames init) as [st0|e] eqn:Hcal;
    [|vm_compute in Hcal; discriminate].
  apply (slow_vehicle_keeps_identity (E := silent_engine) five_frames
           five_detections st0).
  - discriminate.
  - discriminate.
  - exact Hcal.
  - repeat constructor.
  - vm_compute. repeat split.
Defined.

(** * Further properties of the tracker *)

(** ** More on the order of binary64 numbers *)

Lemma SFltb_trans (x y z : spec_float) :
  SFltb x y = true -> SFltb y z = true -> SFltb x z = true.
Proof.
  unfold SFltb.
  destruct x as [[]|[]| |[] mx ex], y as [[]|[]| |[] my ey],
    z as [[]|[]| |[] mz ez];
    simpl; try congruence; intros H1 H2;
    order_cases; simpl in *; try congruence; try lia.
Qed.

Lemma SFltb_leb_trans (x y z : spec_float) :
  SFltb x y = true -> SFleb y z = true -> SFltb x z = true.
Proof.
  unfold SFltb, SFleb.
  destruct x as [[]|[]| |[] mx ex], y as [[]|[]| |[] my ey],
    z as [[]|[]| |[] mz ez];
    simpl; try congruence; intros H1 H2;
    order_cases; simpl in *; try congruence; try lia.
Qed.

Lemma SFltb_left_not_nan (x y : spec_float) :
  SFltb x y = true -> x <> S754_nan.
Proof.
  unfold SFltb.
  destruct x as [[]|[]| |[] mx ex], y as [[]|[]| |[] my ey]; simpl; congruence.
Qed.

Lemma ltb_trans (x y z : float) :
  (x <? y)%float = true -> (y <? z)%float = true -> (x <? z)%float = true.
Proof. rewrite !FloatAxioms.ltb_spec. apply SFltb_trans. Qed.

Lemma ltb_leb_trans (x y z : float) :
  (x <? y)%float = true -> (y <=? z)%float = true -> (x <? z)%float = true.
Proof.
  rewrite !FloatAxioms.ltb_spec, FloatAxioms.leb_spec. apply SFltb_leb_trans.
Qed.

Lemma ltb_left_comparable (x y : float) :
  (x <? y)%float = true -> comparable x.
Proof. rewrite FloatAxioms.ltb_spec. apply SFltb_left_not_nan. Qed.

(** Below a bound and not below another one: the second one is
    strictly passed by anything below it. *)
Lemma ltb_below_other (d d' m b : float) :
  (d <? m)%float = true -> (d' <? b)%float = true ->
  (d' <? m)%float = false -> (d <? d')%float = true.
Proof.
  intros Hdm Hd'b Hd'm.
  apply ltb_leb_trans with m; [assumption|].
  apply ltb_false_leb; [| |assumption].
  - now apply ltb_left_comparable with b.
  - now apply ltb_comparable with d.
Qed.

(** ** The identity resolver binds the nearest active track *)

Lemma track_distance_last (current_pos : point) (positions : list sample)
  (s : sample) :
  last_sample positions = Some s ->
  track_distance current_pos positions
  = Some (calculate_distance current_pos (position s)).
Proof. intros H. unfold track_distance. now rewrite H. Qed.

Lemma track_distance_none (current_pos : point) (positions : list sample) :
  last_sample positions = None -> track_distance current_pos positions = None.
Proof. intros H. unfold track_distance. now rewrite H. Qed.

(** What the loop over the active tracks leaves in [min_distance] and
    [assigned_id]: nothing new when no track improves on the running
    minimum, and otherwise the first of the nearest tracks inside the
    gate. *)
Lemma scan_active_nearest (current_pos : point) (frame_number : Z)
  (max_distance : float) (items : list (Z * list sample))
  (min_distance : float) (assigned_id : option Z)
  (st : VehicleSpeedDetector) :
  let '(m', a', _) :=
    scan_active current_pos frame_number max_distance items min_distance
      assigned_id st in
  (m' = min_distance /\ a' = assigned_id
   /\ forall v p d,
        In (v, p) items -> in_gate current_pos max_distance p d ->
        (d <? min_distance)%float = false)
  \/ exists pre v p post,
       items = pre ++ (v, p) :: post
       /\ a' = Some v /\ in_gate current_pos max_distance p m'
       /\ (m' <? min_distance)%float = true
       /\ (forall v' p' d',
             In (v', p') pre -> in_gate current_pos max_distance p' d' ->
             (m' <? d')%float = true)
       /\ (forall v' p' d',
             In (v', p') post -> in_gate current_pos max_distance p' d' ->
             (d' <? m')%float = false).
Proof.
  revert min_distance assigned_id st.
  induction items as [|[v0 p0] rest IH]; intros m a st.
  - simpl. left. split; [reflexivity|]. split; [reflexivity|].
    intros v p d [].
  - simpl. destruct (last_sample p0) as [s|] eqn:Hlast.
    + set (d0 := calculate_distance current_pos (position s)).
      destruct ((d0 <? max_distance)%float && (d0 <? m)%float) eqn:Hcond.
      * apply andb_prop in Hcond as [Hgate Hmin].
        specialize (IH d0 (Some v0)
                      (with_track_last_seen
                         (PyDict.set v0 frame_number (track_last_seen st)) st)).
        destruct (scan_active _ _ _ rest _ _ _) as [[m' a'] st'].
        right.
        destruct IH as [(-> & -> & Hrest)
                       |(pre & v & p & post & -> & -> & Hin & Hlt & Hpre
                         & Hpost)].
        -- exists [], v0, p0, rest. split; [reflexivity|].
           split; [reflexivity|].
           split; [split; [now apply track_distance_last | exact Hgate]|].
           split; [exact Hmin|]. split; [intros ? ? ? []|].
           intros v' p' d' Hin' Hgate'. exact (Hrest v' p' d' Hin' Hgate').
        -- exists ((v0, p0) :: pre), v, p, post. split; [reflexivity|].
           split; [reflexivity|]. split; [exact Hin|].
           split; [now apply ltb_trans with d0|].
           split; [|exact Hpost].
           intros v' p' d' [Heq|Hin'] Hgate'.
           ++ injection Heq as <- <-. destruct Hgate' as [Htd _].
              rewrite (track_distance_last _ _ _ Hlast) in Htd.
              injection Htd as <-. exact Hlt.
           ++ exact (Hpre v' p' d' Hin' Hgate').
      * specialize (IH m a st).
        destruct (scan_active _ _ _ rest _ _ _) as [[m' a'] st'].
        destruct IH as [(-> & -> & Hrest)
                       |(pre & v & p & post & -> & -> & Hin & Hlt & Hpre
                         & Hpost)].
        -- left. split; [reflexivity|]. split; [reflexivity|].
           intros v' p' d' [Heq|Hin'] Hgate'.
           ++ injection Heq as <- <-. destruct Hgate' as [Htd Hg].
              rewrite (track_distance_last _ _ _ Hlast) in Htd.
              injection Htd as <-. fold d0 in Hg. rewrite Hg in Hcond.
              exact Hcond.
           ++ exact (Hrest v' p' d' Hin' Hgate').
        -- right. exists ((v0, p0) :: pre), v, p, post.
           split; [reflexivity|]. split; [reflexivity|]. split; [exact Hin|].
           split; [exact Hlt|]. split; [|exact Hpost].
           intros v' p' d' [Heq|Hin'] Hgate'.
           ++ injection Heq as <- <-. destruct Hgate' as [Htd Hg].
              rewrite (track_distance_last _ _ _ Hlast) in Htd.
              injection Htd as <-. fold d0 in Hg. rewrite Hg in Hcond.
              simpl in Hcond.
              exact (ltb_below_other _ _ _ _ Hlt Hg Hcond).
           ++ exact (Hpre v' p' d' Hin' Hgate').
    + specialize (IH m a st).
      destruct (scan_active _ _ _ rest _ _ _) as [[m' a'] st'].
      destruct IH as [(-> & -> & Hrest)
                     |(pre & v & p & post & -> & -> & Hin & Hlt & Hpre
                       & Hpost)].
      * left. split; [reflexivity|]. split; [reflexivity|].
        intros v' p' d' [Heq|Hin'] Hgate'.
        -- injection Heq as <- <-. destruct Hgate' as [Htd _].
           rewrite (track_distance_none _ _ Hlast) in Htd. discriminate.
        -- exact (Hrest v' p' d' Hin' Hgate').
      * right. exists ((v0, p0) :: pre), v, p, post.
        split; [reflexivity|]. split; [reflexivity|]. split; [exact Hin|].
        split; [exact Hlt|]. split; [|exact Hpost].
        intros v' p' d' [Heq|Hin'] Hgate'.
        -- injection Heq as <- <-. destruct Hgate' as [Htd _].
           rewrite (track_distance_none _ _ Hlast) in Htd. discriminate.
        -- exact (Hpre v' p' d' Hin' Hgate').
Qed.

(** ** What the identity resolver changes *)

(** The three ways [assign_vehicle_id] returns. *)
Lemma assign_vehicle_id_cases (center_x center_y frame_number : Z)
  (max_distance : float) (st st' : VehicleSpeedDetector) (vehicle_id : Z) :
  assign_vehicle_id_gate center_x center_y frame_number max_distance st
  = Ok (vehicle_id, st') ->
  exists m1 a1 st1,
    scan_active (center_x, center_y) frame_number max_distance
      (vehicle_tracks st) PrimFloat.infinity None st = (m1, a1, st1)
    /\ ((a1 = Some vehicle_id /\ st' = st1)
        \/ (a1 = None
            /\ exists m2 st2,
                 scan_inactive (center_x, center_y) frame_number max_distance
                   (PyDict.keys (inactive_tracks st1)) m1 None st1
                 = Ok (m2, Some vehicle_id, st2)
                 /\ st' = st2)
        \/ (a1 = None
            /\ exists m2 st2,
                 scan_inactive (center_x, center_y) frame_number max_distance
                   (PyDict.keys (inactive_tracks st1)) m1 None st1
                 = Ok (m2, None, st2)
                 /\ vehicle_id = next_vehicle_id st2
                 /\ st' = with_track_last_seen
                            (PyDict.set vehicle_id frame_number
                               (track_last_seen st2))
                            (with_next_vehicle_id (vehicle_id + 1) st2))).
Proof.
  unfold assign_vehicle_id_gate. intros H.
  destruct (scan_active _ _ _ _ _ _ st) as [[m1 a1] st1].
  exists m1, a1, st1. split; [reflexivity|].
  destruct a1 as [v|].
  - simpl in H. injection H as <- <-. now left.
  - right. apply bind_ok in H. destruct H as ([[m2 a2] st2] & Hscan & H).
    destruct a2 as [v|]; injection H as <- <-.
    + left. split; [reflexivity|]. now exists m2, st2.
    + right. split; [reflexivity|]. now exists m2, st2.
Qed.

(** The loops of the resolver write [track_last_seen] and, for the
    dormant tracks, [inactive_tracks]; nothing else. *)
Lemma scan_active_state (current_pos : point) (frame_number : Z)
  (max_distance : float) (items : list (Z * list sample))
  (min_distance : float) (assigned_id : option Z)
  (st : VehicleSpeedDetector) :
  let '(_, _, st') :=
    scan_active current_pos frame_number max_distance items min_distance
      assigned_id st in
  st' = with_track_last_seen (track_last_seen st') st.
Proof.
  revert min_distance assigned_id st.
  induction items as [|[v0 p0] rest IH]; intros m a st; simpl.
  - now destruct st.
  - destruct (last_sample p0) as [s|]; [|apply IH].
    destruct (_ && _); [|apply IH].
    specialize (IH (calculate_distance current_pos (position s)) (Some v0)
                  (with_track_last_seen
                     (PyDict.set v0 frame_number (track_last_seen st)) st)).
    destruct (scan_active _ _ _ rest _ _ _) as [[m' a'] st'].
    rewrite IH at 1. reflexivity.
Qed.

Lemma scan_inactive_state (current_pos : point) (frame_number : Z)
  (max_distance : float) (ids : list Z)
  (min_distance : float) (assigned_id : option Z)
  (st st' : VehicleSpeedDetector) (m' : float) (a' : option Z) :
  scan_inactive current_pos frame_number max_distance ids min_distance
    assigned_id st = Ok (m', a', st') ->
  st' = with_track_last_seen (track_last_seen st')
          (with_inactive_tracks (inactive_tracks st') st).
Proof.
  revert min_distance assigned_id st.
  induction ids as [|v0 rest IH]; intros m a st H; simpl in H.
  - injection H as <- <- <-. now destruct st.
  - bind_inv H. destruct (_ && _); [|now apply IH in H].
    apply IH in H. rewrite H at 1. reflexivity.
Qed.

(** The identity held in [assigned_id] has been seen in this frame, and
    every other last-seen index is the old one or this frame. *)
Lemma scan_active_seen (current_pos : point) (frame_number : Z)
  (max_distance : float) (items : list (Z * list sample))
  (min_distance : float) (assigned_id : option Z)
  (st : VehicleSpeedDetector) :
  let '(_, a', st') :=
    scan_active current_pos frame_number max_distance items min_distance
      assigned_id st in
  ((forall v, assigned_id = Some v ->
              PyDict.get v (track_last_seen st) = Some frame_number) ->
   forall v, a' = Some v ->
             PyDict.get v (track_last_seen st') = Some frame_number)
  /\ (forall k, In k (PyDict.keys (track_last_seen st')) ->
                In k (PyDict.keys (track_last_seen st))
                \/ In k (map fst items)).
Proof.
  revert min_distance assigned_id st.
  induction items as [|[v0 p0] rest IH]; intros m a st; simpl.
  - split; auto.
  - destruct (last_sample p0) as [s|].
    2:{ specialize (IH m a st).
        destruct (scan_active _ _ _ rest _ _ _) as [[m' a'] st'].
        destruct IH as [IH1 IH2]. split; [exact IH1|].
        intros k Hk. destruct (IH2 k Hk); auto. }
    destruct (_ && _).
    2:{ specialize (IH m a st).
        destruct (scan_active _ _ _ rest _ _ _) as [[m' a'] st'].
        destruct IH as [IH1 IH2]. split; [exact IH1|].
        intros k Hk. destruct (IH2 k Hk); auto. }
    specialize (IH (calculate_distance current_pos (position s)) (Some v0)
                  (with_track_last_seen
                     (PyDict.set v0 frame_number (track_last_seen st)) st)).
    destruct (scan_active _ _ _ rest _ _ _) as [[m' a'] st'].
    destruct IH as [IH1 IH2]. split.
    + intros _. apply IH1. intros v [= <-]. simpl.
      apply PyDictFacts.get_set_same.
    + intros k Hk. destruct (IH2 k Hk) as [Hin|Hin]; [|auto].
      simpl in Hin. apply PyDictFacts.in_keys_set in Hin as [->|Hin]; auto.
Qed.

Lemma scan_inactive_seen (current_pos : point) (frame_number : Z)
  (max_distance : float) (ids : list Z)
  (min_distance : float) (assigned_id : option Z)
  (st st' : VehicleSpeedDetector) (m' : float) (a' : option Z) :
  scan_inactive current_pos frame_number max_distance ids min_distance
    assigned_id st = Ok (m', a', st') ->
  ((forall v, assigned_id = Some v ->
              PyDict.get v (track_last_seen st) = Some frame_number) ->
   forall v, a' = Some v ->
             PyDict.get v (track_last_seen st') = Some frame_number)
  /\ (forall k, In k (PyDict.keys (track_last_seen st')) ->
                In k (PyDict.keys (track_last_seen st)) \/ In k ids)
  /\ (forall k, In k (PyDict.keys (inactive_tracks st')) ->
                In k (PyDict.keys (inactive_tracks st)))
  /\ (forall v, a' = Some v -> assigned_id = Some v \/ In v ids).
Proof.
  revert min_distance assigned_id st.
  induction ids as [|v0 rest IH]; intros m a st H; simpl in H.
  - injection H as <- <- <-. repeat split; auto.
  - bind_inv H. destruct (_ && _).
    + apply IH in H as (IH1 & IH2 & IH3 & IH4). split; [|split; [|split]].
      * intros _. apply IH1. intros v [= <-]. simpl.
        apply PyDictFacts.get_set_same.
      * intros k Hk. destruct (IH2 k Hk) as [Hin|Hin]; [|simpl; auto].
        simpl in Hin. apply PyDictFacts.in_keys_set in Hin as [->|Hin];
          simpl; auto.
      * intros k Hk. apply IH3 in Hk. simpl in Hk.
        now apply PyDictFacts.in_keys_del in Hk as [_ Hk].
      * intros v Hv. right. destruct (IH4 v Hv) as [[= <-]|Hin];
          simpl; auto.
    + apply IH in H as (IH1 & IH2 & IH3 & IH4). split; [|split; [|split]].
      * exact IH1.
      * intros k Hk. destruct (IH2 k Hk); simpl; auto.
      * exact IH3.
      * intros v Hv. destruct (IH4 v Hv); simpl; auto.
Qed.

(** X1. When some active track ends inside the gate,
    [assign_vehicle_id] returns the identity of the nearest one, and of
    the first of them in the order of [vehicle_tracks] when several are
    equally near: every track before it that ends inside the gate is
    strictly farther, no track after it is strictly nearer. The counter
    and the dormant tracks are left alone. *)
Theorem nearest_active_track_wins (center_x center_y frame_number : Z)
  (st st' : VehicleSpeedDetector) (vehicle_id : Z) :
  assign_vehicle_id center_x center_y frame_number st = Ok (vehicle_id, st') ->
  (exists v p d,
     In (v, p) (vehicle_tracks st) /\ in_gate (center_x, center_y) 50 p d) ->
  exists pre positions post d,
    vehicle_tracks st = pre ++ (vehicle_id, positions) :: post
    /\ in_gate (center_x, center_y) 50 positions d
    /\ (forall v' p' d',
          In (v', p') pre -> in_gate (center_x, center_y) 50 p' d' ->
          (d <? d')%float = true)
    /\ (forall v' p' d',
          In (v', p') post -> in_gate (center_x, center_y) 50 p' d' ->
          (d' <? d)%float = false)
    /\ next_vehicle_id st' = next_vehicle_id st
    /\ inactive_tracks st' = inactive_tracks st.
Proof.
  intros Hrun (v & p & d & Hin & Hgate).
  apply assign_vehicle_id_cases in Hrun
    as (m1 & a1 & st1 & Hscan & Hcases).
  pose proof (scan_active_nearest (center_x, center_y) frame_number 50
                (vehicle_tracks st) PrimFloat.infinity None st) as Hnear.
  pose proof (scan_active_state (center_x, center_y) frame_number 50
                (vehicle_tracks st) PrimFloat.infinity None st) as Hstate.
  rewrite Hscan in Hnear, Hstate.
  destruct Hnear as [(_ & _ & Hnone)
                    |(pre & w & q & post & Hitems & Ha1 & Hq & _ & Hpre
                      & Hpost)].
  - exfalso. specialize (Hnone v p d Hin Hgate).
    destruct Hgate as [_ Hd]. apply ltb_below_infinity in Hd. congruence.
  - destruct Hcases as [[Hsome ->]|[[Hnone _]|[Hnone _]]]; try congruence.
    assert (w = vehicle_id) as -> by congruence.
    exists pre, q, post, m1. rewrite Hstate.
    repeat (split; [assumption|]). split; reflexivity.
Qed.

Lemma nearest_active_track_wins_witness :
  exists st' d,
    assign_vehicle_id 145 100 2 two_tracks = Ok (2, st')
    /\ in_gate (145, 100) 50 [sample_at (160, 100) 1] d
    /\ (forall d', in_gate (145, 100) 50 [sample_at (100, 100) 1] d' ->
                   (d <? d')%float = true).
Proof.
  destruct (assign_vehicle_id 145 100 2 two_tracks) as [[vid st']|e] eqn:Hrun;
    [|vm_compute in Hrun; discriminate].
  assert (Hvid : vid = 2) by (vm_compute in Hrun; congruence). subst vid.
  destruct (nearest_active_track_wins 145 100 2 two_tracks st' 2 Hrun)
    as (pre & positions & post & d & Hitems & Hgate & Hpre & _).
  { exists 1, [sample_at (100, 100) 1], 45%float. split; [now left|].
    split; reflexivity. }
  destruct pre as [|x [|y pre]]; simpl in Hitems.
  - unfold two_tracks in Hitems. simpl in Hitems. discriminate.
  - unfold two_tracks in Hitems. simpl in Hitems.
    injection Hitems as <- <- <-.
    exists st', d. split; [reflexivity|]. split; [exact Hgate|].
    intros d' Hd'. apply (Hpre 1 [sample_at (100, 100) 1] d');
      [now left | exact Hd'].
  - exfalso. apply (f_equal (@List.length _)) in Hitems.
    simpl in Hitems. rewrite length_app in Hitems. simpl in Hitems. lia.
Defined.

Lemma assign_vehicle_id_seen (center_x center_y frame_number : Z)
  (st st' : VehicleSpeedDetector) (vehicle_id : Z) :
  assign_vehicle_id center_x center_y frame_number st = Ok (vehicle_id, st') ->
  PyDict.get vehicle_id (track_last_seen st') = Some frame_number.
Proof.
  intros Hrun.
  apply assign_vehicle_id_cases in Hrun
    as (m1 & a1 & st1 & Hscan & Hcases).
  pose proof (scan_active_seen (center_x, center_y) frame_number 50
                (vehicle_tracks st) PrimFloat.infinity None st) as Hseen.
  rewrite Hscan in Hseen. destruct Hseen as [Hseen _].
  destruct Hcases as [[Ha1 ->]
                     |[[Ha1 (m2 & st2 & Hin & ->)]
                      |[Ha1 (m2 & st2 & Hin & Hid & ->)]]].
  - apply Hseen; [discriminate | exact Ha1].
  - apply scan_inactive_seen in Hin as (Hseen2 & _).
    apply Hseen2; [discriminate | reflexivity].
  - simpl. apply PyDictFacts.get_set_same.
Qed.

(** X2. The identity that [assign_vehicle_id] returns has the current
    frame as its last-seen index. The call never touches the histories,
    the smoothed speeds, the scale, the zone, the limit or the maximum
    age; it never adds a dormant track; and it moves the counter by at
    most one. *)
Theorem assigned_identity_is_seen_now (center_x center_y frame_number : Z)
  (st st' : VehicleSpeedDetector) (vehicle_id : Z) :
  assign_vehicle_id center_x center_y frame_number st = Ok (vehicle_id, st') ->
  PyDict.get vehicle_id (track_last_seen st') = Some frame_number
  /\ vehicle_tracks st' = vehicle_tracks st
  /\ vehicle_speeds st' = vehicle_speeds st
  /\ pixels_per_meter st' = pixels_per_meter st
  /\ speed_detection_zone st' = speed_detection_zone st
  /\ speed_limit st' = speed_limit st
  /\ track_max_age st' = track_max_age st
  /\ (forall k, In k (PyDict.keys (inactive_tracks st')) ->
                In k (PyDict.keys (inactive_tracks st)))
  /\ next_vehicle_id st <= next_vehicle_id st' <= next_vehicle_id st + 1.
Proof.
  intros Hrun.
  split; [exact (assign_vehicle_id_seen _ _ _ _ _ _ Hrun)|].
  apply assign_vehicle_id_cases in Hrun
    as (m1 & a1 & st1 & Hscan & Hcases).
  pose proof (scan_active_state (center_x, center_y) frame_number 50
                (vehicle_tracks st) PrimFloat.infinity None st) as Hstate.
  rewrite Hscan in Hstate.
  destruct Hcases as [[Ha1 ->]
                     |[[Ha1 (m2 & st2 & Hin & ->)]
                      |[Ha1 (m2 & st2 & Hin & Hid & ->)]]].
  - rewrite Hstate. simpl. repeat (split; [reflexivity|]).
    split; [auto | lia].
  - pose proof (scan_inactive_state _ _ _ _ _ _ _ _ _ _ Hin) as Hstate2.
    apply scan_inactive_seen in Hin as (_ & _ & Hkeys & _).
    rewrite Hstate in Hstate2, Hkeys. simpl in Hkeys.
    rewrite Hstate2. simpl.
    repeat (split; [reflexivity|]). split; [exact Hkeys | lia].
  - pose proof (scan_inactive_state _ _ _ _ _ _ _ _ _ _ Hin) as Hstate2.
    apply scan_inactive_seen in Hin as (_ & _ & Hkeys & _).
    rewrite Hstate in Hstate2, Hkeys. simpl in Hkeys.
    subst vehicle_id. rewrite Hstate2. simpl.
    repeat (split; [reflexivity|]). split; [exact Hkeys | lia].
Qed.

Lemma assigned_identity_is_seen_now_witness :
  exists st',
    assign_vehicle_id 145 100 2 two_tracks = Ok (2, st')
    /\ PyDict.get 2 (track_last_seen st') = Some 2
    /\ vehicle_tracks st' = vehicle_tracks two_tracks.
Proof.
  destruct (assign_vehicle_id 145 100 2 two_tracks) as [[vid st']|e] eqn:Hrun;
    [|vm_compute in Hrun; discriminate].
  assert (Hvid : vid = 2) by (vm_compute in Hrun; congruence). subst vid.
  destruct (assigned_identity_is_seen_now 145 100 2 two_tracks st' 2 Hrun)
    as (Hseen & Htracks & _).
  exists st'. split; [reflexivity|]. split; assumption.
Defined.

(** ** Identities are never reused *)

Lemma known_scan_active (current_pos : point) (frame_number : Z)
  (max_distance : float) (st st1 : VehicleSpeedDetector) (m1 : float)
  (a1 : option Z) :
  scan_active current_pos frame_number max_distance (vehicle_tracks st)
    PrimFloat.infinity None st = (m1, a1, st1) ->
  (forall k, known k st1 -> known k st)
  /\ (forall v, a1 = Some v -> In v (PyDict.keys (vehicle_tracks st))).
Proof.
  intros Hscan.
  pose proof (scan_active_seen current_pos frame_number max_distance
                (vehicle_tracks st) PrimFloat.infinity None st) as Hseen.
  pose proof (scan_active_state current_pos frame_number max_distance
                (vehicle_tracks st) PrimFloat.infinity None st) as Hstate.
  pose proof (scan_active_nearest current_pos frame_number max_distance
                (vehicle_tracks st) PrimFloat.infinity None st) as Hnear.
  rewrite Hscan in Hseen, Hstate, Hnear. destruct Hseen as [_ Hkeys]. split.
  - intros k. unfold known. rewrite Hstate. simpl.
    intros [H|[H|[H|H]]]; auto. destruct (Hkeys k H); auto.
  - intros v ->.
    destruct Hnear as [(_ & [=] & _)
                      |(pre & w & q & post & Hitems & [= <-] & _)].
    unfold PyDict.keys. rewrite Hitems, map_app. apply in_or_app. right.
    now left.
Qed.

Lemma known_scan_inactive (current_pos : point) (frame_number : Z)
  (max_distance : float) (st st' : VehicleSpeedDetector) (m m' : float)
  (a' : option Z) :
  scan_inactive current_pos frame_number max_distance
    (PyDict.keys (inactive_tracks st)) m None st = Ok (m', a', st') ->
  (forall k, known k st' -> known k st)
  /\ (forall v, a' = Some v -> In v (PyDict.keys (inactive_tracks st)))
  /\ next_vehicle_id st' = next_vehicle_id st.
Proof.
  intros Hscan.
  pose proof (scan_inactive_state _ _ _ _ _ _ _ _ _ _ Hscan) as Hstate.
  apply scan_inactive_seen in Hscan as (_ & Hseen & Hkeys & Hfrom).
  split; [|split].
  - intros k. unfold known. rewrite Hstate. simpl.
    intros [H|[H|[H|H]]]; auto. destruct (Hseen k H); auto.
  - intros v Hv. destruct (Hfrom v Hv) as [[=]|H]. exact H.
  - rewrite Hstate. reflexivity.
Qed.

(** The identities in use after [assign_vehicle_id] are those in use
    before and the one returned, which is an old one or the value of the
    counter. *)
Lemma assign_vehicle_id_known (center_x center_y frame_number : Z)
  (st st' : VehicleSpeedDetector) (vehicle_id : Z) :
  assign_vehicle_id center_x center_y frame_number st = Ok (vehicle_id, st') ->
  (forall k, known k st' -> known k st \/ k = vehicle_id)
  /\ known vehicle_id st'
  /\ ((known vehicle_id st /\ next_vehicle_id st' = next_vehicle_id st)
      \/ (vehicle_id = next_vehicle_id st
          /\ next_vehicle_id st' = next_vehicle_id st + 1)).
Proof.
  intros Hrun.
  assert (Hknown' : known vehicle_id st').
  { right. right. right. apply PyDictFacts.in_keys_get.
    exists frame_number. exact (assign_vehicle_id_seen _ _ _ _ _ _ Hrun). }
  apply assign_vehicle_id_cases in Hrun
    as (m1 & a1 & st1 & Hscan & Hcases).
  pose proof (scan_active_state (center_x, center_y) frame_number 50
                (vehicle_tracks st) PrimFloat.infinity None st) as Hstate.
  rewrite Hscan in Hstate.
  apply known_scan_active in Hscan as [Hk1 Hv1].
  assert (Hnext1 : next_vehicle_id st1 = next_vehicle_id st)
    by (rewrite Hstate; reflexivity).
  assert (Hin1 : inactive_tracks st1 = inactive_tracks st)
    by (rewrite Hstate; reflexivity).
  destruct Hcases as [[Ha1 ->]
                     |[[Ha1 (m2 & st2 & Hin & ->)]
                      |[Ha1 (m2 & st2 & Hin & Hid & ->)]]].
  - split; [auto|]. split; [exact Hknown'|].
    left. split; [left; auto | exact Hnext1].
  - apply known_scan_inactive in Hin as (Hk2 & Hv2 & Hnext2).
    split; [auto|]. split; [exact Hknown'|].
    left. split; [|lia]. right. right. left. rewrite <- Hin1. auto.
  - apply known_scan_inactive in Hin as (Hk2 & Hv2 & Hnext2).
    split; [|split; [exact Hknown'|]].
    + intros k. unfold known at 1. simpl. intros Hk.
      assert (Hcase : k = vehicle_id \/ known k st2).
      { unfold known.
        destruct Hk as [H|[H|[H|H]]]; auto.
        apply PyDictFacts.in_keys_set in H as [H|H]; auto. }
      destruct Hcase as [->|Hk2']; auto.
    + right. split; [lia | simpl; lia].
Qed.

(** X3. Identities are never reused. When every identity in use is
    below the counter, [assign_vehicle_id] returns either an identity
    already in use, leaving the counter alone, or the value of the
    counter, which no dictionary holds yet, and then moves the counter
    past it; every identity in use is still below the counter
    afterwards. *)
Theorem fresh_identity_is_new (center_x center_y frame_number : Z)
  (st st' : VehicleSpeedDetector) (vehicle_id : Z) :
  ids_below st ->
  assign_vehicle_id center_x center_y frame_number st = Ok (vehicle_id, st') ->
  ids_below st'
  /\ known vehicle_id st'
  /\ ((known vehicle_id st /\ next_vehicle_id st' = next_vehicle_id st)
      \/ (~ known vehicle_id st /\ vehicle_id = next_vehicle_id st
          /\ next_vehicle_id st' = next_vehicle_id st + 1)).
Proof.
  intros [Hone Hbelow] Hrun.
  apply assign_vehicle_id_known in Hrun as (Hsub & Hknown' & Hcases).
  split; [|split; [exact Hknown'|]].
  - split; [destruct Hcases as [[_ ->]|[_ ->]]; lia|].
    intros k Hk. destruct (Hsub k Hk) as [Hold| ->].
    + specialize (Hbelow k Hold). destruct Hcases as [[_ ->]|[_ ->]]; lia.
    + destruct Hcases as [[Hold ->]|[-> ->]]; [auto | lia].
  - destruct Hcases as [Hold|[Hid Hnext]]; [now left|].
    right. split; [|auto]. intros Hk. specialize (Hbelow _ Hk). lia.
Qed.

Lemma fresh_identity_is_new_witness :
  exists st',
    assign_vehicle_id 300 300 2 two_tracks = Ok (3, st')
    /\ ~ known 3 two_tracks
    /\ next_vehicle_id st' = 4
    /\ ids_below st'.
Proof.
  assert (Hbelow : ids_below two_tracks).
  { split; [simpl; lia|]. unfold known. simpl. intros k. lia. }
  destruct (assign_vehicle_id 300 300 2 two_tracks) as [[vid st']|e] eqn:Hrun;
    [|vm_compute in Hrun; discriminate].
  assert (Hvid : vid = 3) by (vm_compute in Hrun; congruence). subst vid.
  destruct (fresh_identity_is_new 300 300 2 two_tracks st' 3 Hbelow Hrun)
    as (Hbelow' & _ & [[Hk _]|(Hnew & _ & Hnext)]).
  - exfalso. unfold known in Hk. simpl in Hk. lia.
  - exists st'. split; [reflexivity|]. split; [exact Hnew|].
    split; [exact Hnext | exact Hbelow'].
Defined.

(** ** What the other steps of the loop change *)

Lemma calculate_speed_fps (vehicle_id : Z) (current_pos : point)
  (frame_number fps : Z) (st st' : VehicleSpeedDetector) (speed : float) :
  calculate_speed vehicle_id current_pos frame_number fps st
  = Ok (speed, st') -> fps <> 0.
Proof.
  intros H ->. unfold calculate_speed in H.
  rewrite int_truediv_zero in H. discriminate.
Qed.

(** [calculate_speed] replaces the history of its vehicle and, at most,
    the smoothed speed of its vehicle. *)
Lemma calculate_speed_state (vehicle_id : Z) (current_pos : point)
  (frame_number fps : Z) (st st' : VehicleSpeedDetector) (speed : float) :
  calculate_speed vehicle_id current_pos frame_number fps st
  = Ok (speed, st') ->
  st' = with_vehicle_speeds (vehicle_speeds st')
          (with_vehicle_tracks
             (PyDict.set vehicle_id
                (appended_track vehicle_id current_pos frame_number
                   (Z2float frame_number / Z2float fps)%float st)
                (vehicle_tracks st)) st)
  /\ (vehicle_speeds st' = vehicle_speeds st
      \/ vehicle_speeds st'
         = PyDict.set vehicle_id speed (vehicle_speeds st)).
Proof.
  intros H. pose proof (calculate_speed_fps _ _ _ _ _ _ _ H) as Hfps.
  rewrite calculate_speed_unfold in H by assumption. cbv zeta in H.
  destruct (List.length _ <? 3)%nat.
  { injection H as <- <-. split; [now destruct st | now left]. }
  destruct (interval_speeds _ _).
  { injection H as <- <-. split; [now destruct st | now left]. }
  destruct (PyDict.get vehicle_id (vehicle_speeds st));
    injection H as <- <-; (split; [now destruct st | now right]).
Qed.

(** [plate_stage] writes nothing but the histories. *)
Lemma plate_stage_state `{E : Externals} (frame_count : Z) (speed : float)
  (vehicle_id : Z) (vehicle_crop : ndarray) (st st' : VehicleSpeedDetector)
  (plate : option string) (plate_bbox : option quad) :
  plate_stage frame_count speed vehicle_id vehicle_crop st
  = Ok (plate, plate_bbox, st') ->
  st' = with_vehicle_tracks (vehicle_tracks st') st.
Proof.
  unfold plate_stage. intros H.
  destruct (recognition_due _ _ _).
  - apply bind_ok in H. destruct H as (r & _ & H).
    apply bind_ok in H. destruct H as ([text box] & _ & H).
    destruct text as [p|]; [|injection H as <- <- <-; now destruct st].
    destruct (_ && _); [|injection H as <- <- <-; now destruct st].
    destruct (PyDict.get vehicle_id (vehicle_tracks st)) as [[|s track]|];
      injection H as <- <- <-; now destruct st.
  - destruct (PyDict.get vehicle_id (vehicle_tracks st)) as [[|s track]|];
      [injection H as <- <- <-; now destruct st| |
       injection H as <- <- <-; now destruct st].
    destruct (cached_plate _) as [[p b]|];
      injection H as <- <- <-; now destruct st.
Qed.

(** Aging writes [inactive_tracks] and [track_last_seen] only; it adds
    no last-seen index, and every dormant track it adds had one. *)
Lemma age_loop_state (frame_count : Z) (track_keys : list Z)
  (st : VehicleSpeedDetector) :
  let st' := age_loop frame_count track_keys st in
  st' = with_track_last_seen (track_last_seen st')
          (with_inactive_tracks (inactive_tracks st') st)
  /\ (forall k, In k (PyDict.keys (track_last_seen st')) ->
                In k (PyDict.keys (track_last_seen st)))
  /\ (forall k, In k (PyDict.keys (inactive_tracks st')) ->
                In k (PyDict.keys (inactive_tracks st))
                \/ In k (PyDict.keys (vehicle_tracks st))).
Proof.
  revert st. induction track_keys as [|v0 rest IH]; intros st; simpl.
  - split; [now destruct st | auto].
  - destruct (track_max_age st <? _); [|apply IH].
    destruct (PyDict.get v0 (vehicle_tracks st)) as [positions|] eqn:Hget;
      [|apply IH].
    destruct (last_sample positions) as [s|]; [|apply IH].
    match goal with
    | |- context [age_loop frame_count rest ?x] =>
        specialize (IH x); set (st2 := x) in *
    end.
    destruct IH as (IH1 & IH2 & IH3).
    assert (Hst2 : st2 = with_track_last_seen (track_last_seen st2)
                           (with_inactive_tracks (inactive_tracks st2) st)).
    { subst st2. destruct (PyDict.mem v0 _); now destruct st. }
    assert (Hls : forall k, In k (PyDict.keys (track_last_seen st2)) ->
                            In k (PyDict.keys (track_last_seen st))).
    { subst st2. intros k. destruct (PyDict.mem v0 _); simpl; [|auto].
      intros Hk. now apply PyDictFacts.in_keys_del in Hk. }
    assert (Hin : forall k, In k (PyDict.keys (inactive_tracks st2)) ->
                            In k (PyDict.keys (inactive_tracks st))
                            \/ In k (PyDict.keys (vehicle_tracks st))).
    { subst st2. intros k.
      destruct (PyDict.mem v0 _); simpl; intros Hk;
        apply PyDictFacts.in_keys_set in Hk as [->|Hk]; auto;
        right; apply PyDictFacts.in_keys_get; eauto. }
    assert (Htr : vehicle_tracks st2 = vehicle_tracks st)
      by (rewrite Hst2; reflexivity).
    split; [|split].
    + rewrite IH1 at 1. generalize (age_loop frame_count rest st2).
      intros x. rewrite Hst2. reflexivity.
    + auto.
    + intros k Hk. destruct (IH3 k Hk) as [H|H]; [auto|].
      rewrite Htr in H. auto.
Qed.

Lemma age_tracks_known (frame_count : Z) (st : VehicleSpeedDetector) :
  (forall k, known k (age_tracks frame_count st) -> known k st)
  /\ next_vehicle_id (age_tracks frame_count st) = next_vehicle_id st.
Proof.
  unfold age_tracks.
  destruct (age_loop_state frame_count (PyDict.keys (track_last_seen st)) st)
    as (Hstate & Hls & Hin).
  split.
  - intros k. unfold known. rewrite Hstate. simpl.
    intros [H|[H|[H|H]]]; auto. destruct (Hin k H); auto.
  - rewrite Hstate. reflexivity.
Qed.

Lemma calculate_speed_known (vehicle_id : Z) (current_pos : point)
  (frame_number fps : Z) (st st' : VehicleSpeedDetector) (speed : float) :
  calculate_speed vehicle_id current_pos frame_number fps st
  = Ok (speed, st') ->
  (forall k, known k st' -> known k st \/ k = vehicle_id)
  /\ next_vehicle_id st' = next_vehicle_id st.
Proof.
  intros H. apply calculate_speed_state in H as [Hstate Hspeeds]. split.
  - intros k. unfold known at 1. rewrite Hstate. simpl.
    intros [H|[H|[H|H]]].
    + apply PyDictFacts.in_keys_set in H as [->|H]; [auto|].
      left. now left.
    + destruct Hspeeds as [Heq|Heq]; rewrite Heq in H.
      * left. right. now left.
      * apply PyDictFacts.in_keys_set in H as [->|H]; [auto|].
        left. right. now left.
    + left. right. right. now left.
    + left. right. right. now right.
  - rewrite Hstate. reflexivity.
Qed.

Lemma plate_stage_known `{E : Externals} (frame_count : Z) (speed : float)
  (vehicle_id : Z) (vehicle_crop : ndarray) (st st' : VehicleSpeedDetector)
  (plate : option string) (plate_bbox : option quad) :
  plate_stage frame_count speed vehicle_id vehicle_crop st
  = Ok (plate, plate_bbox, st') ->
  (forall k, known k st' -> known k st)
  /\ next_vehicle_id st' = next_vehicle_id st.
Proof.
  intros H. pose proof (plate_stage_state _ _ _ _ _ _ _ _ H) as Hstate.
  apply plate_stage_tracks in H. split.
  - intros k. unfold known. rewrite Hstate. simpl.
    intros [Hk|[Hk|[Hk|Hk]]]; auto. left.
    destruct H as [Heq|(track & c & Hget & Heq)]; rewrite Heq in Hk;
      [exact Hk|].
    apply PyDictFacts.in_keys_set in Hk as [->|Hk]; [|exact Hk].
    apply PyDictFacts.in_keys_get. eauto.
  - rewrite Hstate. reflexivity.
Qed.

(** ** The steps of one detection and of one frame *)

Lemma process_detection_steps `{E : Externals} (frame : ndarray)
  (frame_count fps : Z) (st st' : VehicleSpeedDetector)
  (data data' : list DetectionRecord) (canvas canvas' : list draw_op)
  (d : detection) :
  process_detection frame frame_count fps (st, data, canvas) d
  = Ok (st', data', canvas') ->
  exists vehicle_id st1 speed st2 plate plate_bbox zone records,
    assign_vehicle_id (fst (center d)) (snd (center d)) frame_count st
    = Ok (vehicle_id, st1)
    /\ calculate_speed vehicle_id (center d) frame_count fps st1
       = Ok (speed, st2)
    /\ plate_stage frame_count speed vehicle_id
         (slice_frame frame canvas (bbox d)) st2
       = Ok (plate, plate_bbox, st')
    /\ speed_detection_zone st' = Some zone
    /\ emit_record frame_count fps d vehicle_id speed
         (Z2float (speed_limit st') <? speed)%float plate st' = Ok records
    /\ data' = data ++ records
    /\ canvas' = canvas
                 ++ overlay d vehicle_id speed
                      (Z2float (speed_limit st') <? speed)%float zone plate
                      plate_bbox.
Proof.
  unfold process_detection. intros H.
  destruct (center d) as [center_x center_y] eqn:Hcenter.
  apply bind_ok in H. destruct H as ([vehicle_id st1] & Hassign & H).
  apply bind_ok in H. destruct H as ([speed st2] & Hspeed & H).
  destruct (bbox d) as [[[x1 y1] x2] y2] eqn:Hbox.
  apply bind_ok in H. destruct H as ([[plate plate_bbox] st3] & Hplate & H).
  apply bind_ok in H. destruct H as (zone & Hzone & H).
  apply bind_ok in H. destruct H as (records & Hrec & H).
  injection H as <- <- <-.
  exists vehicle_id, st1, speed, st2, plate, plate_bbox, zone, records.
  simpl. repeat split; try assumption; try reflexivity.
  destruct (speed_detection_zone st3); [now injection Hzone as ->|discriminate].
Qed.

Lemma process_frame_steps `{E : Externals} (fps total_frames : Z)
  (rs rs' : run_state) (fr : frame_in) :
  process_frame fps total_frames rs fr = Ok rs' ->
  total_frames <> 0
  /\ exists st1 data1 canvas zone,
       process_detections (image fr) (frame_count rs + 1) fps
         (age_tracks (frame_count rs + 1) (detector rs),
          detection_data rs, [])
         (collect_detections (results fr))
       = Ok (st1, data1, canvas)
       /\ speed_detection_zone st1 = Some zone
       /\ rs' = {| detector := st1;
                   frame_count := frame_count rs + 1;
                   detection_data := data1;
                   written :=
                     written rs
                     ++ [canvas
                         ++ [ZoneLines (snd (fst (fst zone))) (snd zone);
                             InfoText (frame_count rs + 1) total_frames
                               (List.length
                                  (collect_detections (results fr)))]];
                   progress :=
                     progress rs
                     ++ [(Z2float (frame_count rs + 1)
                          / Z2float total_frames * 100)%float] |}.
Proof.
  unfold process_frame. intros H.
  assert (Htotal : total_frames <> 0).
  { intros ->. rewrite int_truediv_zero in H. discriminate. }
  split; [exact Htotal|].
  rewrite int_truediv_ok in H by assumption. simpl in H.
  apply bind_ok in H. destruct H as ([[st1 data1] canvas] & Hds & H).
  apply bind_ok in H. destruct H as ([[[zx1 zy1] zx2] zy2] & Hzone & H).
  injection H as <-.
  exists st1, data1, canvas, (zx1, zy1, zx2, zy2).
  split; [exact Hds|]. split; [|reflexivity].
  destruct (speed_detection_zone st1); [now injection Hzone as ->|discriminate].
Qed.

(** Induction over the detections of a frame and over the frames of a
    run. *)
Lemma process_detections_ind `{E : Externals} (frame : ndarray)
  (frame_count fps : Z) (Q : frame_acc -> Prop) (ds : list detection) :
  (forall acc d acc',
     In d ds -> Q acc ->
     process_detection frame frame_count fps acc d = Ok acc' -> Q acc') ->
  forall acc acc',
    Q acc -> process_detections frame frame_count fps acc ds = Ok acc' ->
    Q acc'.
Proof.
  induction ds as [|d rest IH]; intros Hstep acc acc' Hacc Hrun.
  - simpl in Hrun. now injection Hrun as <-.
  - change (process_detections frame frame_count fps acc (d :: rest))
      with (acc1 <- process_detection frame frame_count fps acc d ;;
            process_detections frame frame_count fps acc1 rest) in Hrun.
    apply bind_ok in Hrun. destruct Hrun as (acc1 & Hd & Hrun).
    apply (IH (fun acc d' acc' Hin => Hstep acc d' acc' (or_intror Hin))
              acc1 acc'); [|exact Hrun].
    apply (Hstep acc d acc1); [now left | exact Hacc | exact Hd].
Qed.

Lemma process_frames_ind `{E : Externals} (fps total_frames : Z)
  (R : list frame_in -> run_state -> Prop) :
  (forall done fr rs rs',
     R done rs -> process_frame fps total_frames rs fr = Ok rs' ->
     R (done ++ [fr]) rs') ->
  forall rest done rs rs',
    R done rs -> process_frames fps total_frames rs rest = Ok rs' ->
    R (done ++ rest) rs'.
Proof.
  intros Hstep. induction rest as [|fr rest IH]; intros done rs rs' Hrs Hrun.
  - simpl in Hrun. injection Hrun as <-. now rewrite app_nil_r.
  - simpl in Hrun. apply bind_ok in Hrun. destruct Hrun as (rs1 & Hfr & Hrun).
    replace (done ++ fr :: rest) with ((done ++ [fr]) ++ rest)
      by (rewrite <- app_assoc; reflexivity).
    apply (IH (done ++ [fr]) rs1 rs'); [|exact Hrun].
    apply (Hstep done fr rs rs1); assumption.
Qed.

(** ** Identities over a whole run *)

Lemma calibrate_state (v : video) (st st' : VehicleSpeedDetector) :
  calibrate v st = Ok st' ->
  exists zone_top zone_bottom,
    py_int (Z2float (height v) * 0.4)%float = Ok zone_top
    /\ py_int (Z2float (height v) * 0.7)%float = Ok zone_bottom
    /\ st' = with_pixels_per_meter
               (py_min 8
                  (py_max 5
                     (Z2float (width v) * 0.6 / (Z2float 2 * 3.5))%float))
               (with_speed_detection_zone
                  (Some (0, zone_top, width v, zone_bottom)) st).
Proof.
  unfold calibrate. intros H.
  apply bind_ok in H. destruct H as (zone_top & Htop & H).
  apply bind_ok in H. destruct H as (zone_bottom & Hbottom & H).
  injection H as <-. now exists zone_top, zone_bottom.
Qed.

Lemma process_video_start `{E : Externals} (v : video) (rs : run_state) :
  process_video v = Ok rs ->
  exists st0,
    calibrate v init = Ok st0
    /\ process_frames (fps v) (total_frames v) (start_state st0) (frames v)
       = Ok rs.
Proof.
  unfold process_video, process_video_from. intros H.
  apply bind_ok in H. destruct H as (st0 & Hcal & H). now exists st0.
Qed.

Lemma emit_record_identity `{E : Externals} (frame_count fps : Z)
  (d : detection) (vehicle_id : Z) (speed : float) (is_overspeed : bool)
  (plate : option string) (st : VehicleSpeedDetector)
  (records : list DetectionRecord) :
  emit_record frame_count fps d vehicle_id speed is_overspeed plate st
  = Ok records ->
  Forall (fun r => r_vehicle_id r = vehicle_id) records.
Proof.
  intros H. apply emit_record_spec in H.
  destruct (0 <? speed)%float.
  - destruct H as (r & -> & _ & Hid). now constructor.
  - subst records. constructor.
Qed.

(** One detection: the identities in use stay below the counter, which
    moves by at most one; the identity written on the frame and in the
    record is in use. *)
Lemma process_detection_ids `{E : Externals} (frame : ndarray)
  (frame_count fps : Z) (st st' : VehicleSpeedDetector)
  (data data' : list DetectionRecord) (canvas canvas' : list draw_op)
  (d : detection) :
  process_detection frame frame_count fps (st, data, canvas) d
  = Ok (st', data', canvas') ->
  next_vehicle_id st <= next_vehicle_id st' <= next_vehicle_id st + 1
  /\ (ids_below st ->
      ids_below st'
      /\ exists vehicle_id records,
           1 <= vehicle_id < next_vehicle_id st'
           /\ data' = data ++ records
           /\ Forall (fun r => r_vehicle_id r = vehicle_id) records
           /\ drawn_ids canvas' = drawn_ids canvas ++ [vehicle_id]).
Proof.
  intros H. apply process_detection_steps in H
    as (vehicle_id & st1 & speed & st2 & plate & plate_bbox & zone & records
        & Hassign & Hspeed & Hplate & Hzone & Hrec & -> & ->).
  apply assign_vehicle_id_known in Hassign as (Hsub1 & _ & Hcases).
  apply calculate_speed_known in Hspeed as (Hsub2 & Hnext2).
  apply plate_stage_known in Hplate as (Hsub3 & Hnext3).
  assert (Hnext : next_vehicle_id st' = next_vehicle_id st1) by lia.
  split; [destruct Hcases as [[_ Hn]|[_ Hn]]; lia|].
  intros [Hone Hbelow].
  assert (Hvid : 1 <= vehicle_id < next_vehicle_id st').
  { destruct Hcases as [[Hold Hn]|[Hid Hn]].
    - specialize (Hbelow _ Hold). lia.
    - lia. }
  split; [split; [lia|]|].
  - intros k Hk. apply Hsub3, Hsub2 in Hk. destruct Hk as [Hk| ->]; [|lia].
    apply Hsub1 in Hk. destruct Hk as [Hk| ->]; [|lia].
    specialize (Hbelow k Hk). destruct Hcases as [[_ Hn]|[_ Hn]]; lia.
  - exists vehicle_id, records. split; [exact Hvid|].
    split; [reflexivity|].
    split; [exact (emit_record_identity _ _ _ _ _ _ _ _ _ Hrec)|].
    rewrite drawn_ids_app, drawn_ids_overlay. reflexivity.
Qed.

Lemma Forall_below_mono {A : Type} (f : A -> Z) (n n' : Z) (l : list A) :
  n <= n' -> Forall (fun x => 1 <= f x < n) l ->
  Forall (fun x => 1 <= f x < n') l.
Proof.
  intros Hn H. induction H; constructor; [lia | assumption].
Qed.

Lemma process_detections_ids `{E : Externals} (frame : ndarray)
  (frame_count fps : Z) (ds : list detection)
  (st st' : VehicleSpeedDetector)
  (data data' : list DetectionRecord) (canvas canvas' : list draw_op) :
  process_detections frame frame_count fps (st, data, canvas) ds
  = Ok (st', data', canvas') ->
  next_vehicle_id st <= next_vehicle_id st'
                     <= next_vehicle_id st + Z.of_nat (List.length ds)
  /\ (ids_below st ->
      Forall (fun r => 1 <= r_vehicle_id r < next_vehicle_id st) data ->
      Forall (fun k => 1 <= k < next_vehicle_id st) (drawn_ids canvas) ->
      ids_below st'
      /\ Forall (fun r => 1 <= r_vehicle_id r < next_vehicle_id st') data'
      /\ Forall (fun k => 1 <= k < next_vehicle_id st') (drawn_ids canvas')).
Proof.
  revert st data canvas.
  induction ds as [|d rest IH]; intros st data canvas Hrun.
  - simpl in Hrun. injection Hrun as <- <- <-. simpl. split; [lia|auto].
  - change (process_detections frame frame_count fps (st, data, canvas)
              (d :: rest))
      with (acc1 <- process_detection frame frame_count fps
                      (st, data, canvas) d ;;
            process_detections frame frame_count fps acc1 rest) in Hrun.
    apply bind_ok in Hrun.
    destruct Hrun as ([[st1 data1] canvas1] & Hd & Hrun).
    apply process_detection_ids in Hd as (Hn1 & Hd).
    apply IH in Hrun as (Hn & Hrest).
    split; [simpl List.length; lia|].
    intros Hbelow Hdata Hcanvas.
    destruct (Hd Hbelow)
      as (Hbelow1 & vehicle_id & records & Hvid & -> & Hrecs & Hdrawn).
    apply Hrest; [exact Hbelow1| |].
    + apply Forall_app. split.
      * apply (Forall_below_mono r_vehicle_id _ _ _ (proj1 Hn1) Hdata).
      * eapply Forall_impl; [|exact Hrecs]. simpl. intros r ->. exact Hvid.
    + rewrite Hdrawn. apply Forall_app. split.
      * apply (Forall_below_mono (fun k => k) _ _ _ (proj1 Hn1) Hcanvas).
      * constructor; [exact Hvid | constructor].
Qed.

Lemma all_detections_app (a b : list frame_in) :
  all_detections (a ++ b) = all_detections a ++ all_detections b.
Proof. unfold all_detections. apply flat_map_app. Qed.

Lemma all_detections_one (fr : frame_in) :
  all_detections [fr] = collect_detections (results fr).
Proof. unfold all_detections. simpl. apply app_nil_r. Qed.

(** X4. Over a whole run every identity in use, every identity of a
    record and every identity written on a frame lies between 1 and the
    counter, and the run hands out at most one identity per
    detection. *)
Theorem identities_stay_below_counter `{E : Externals} (v : video)
  (rs : run_state) :
  process_video v = Ok rs ->
  ids_below (detector rs)
  /\ Forall (fun r => 1 <= r_vehicle_id r < next_vehicle_id (detector rs))
       (detection_data rs)
  /\ Forall (fun canvas =>
               Forall (fun k => 1 <= k < next_vehicle_id (detector rs))
                 (drawn_ids canvas))
       (written rs)
  /\ next_vehicle_id (detector rs) - 1
     <= Z.of_nat (List.length (all_detections (frames v))).
Proof.
  intros Hrun. apply process_video_start in Hrun as (st0 & Hcal & Hrun).
  apply calibrate_state in Hcal as (zone_top & zone_bottom & _ & _ & Hst0).
  pose (R := fun (done : list frame_in) (rs : run_state) =>
    ids_below (detector rs)
    /\ Forall (fun r => 1 <= r_vehicle_id r < next_vehicle_id (detector rs))
         (detection_data rs)
    /\ Forall (fun canvas =>
                 Forall (fun k => 1 <= k < next_vehicle_id (detector rs))
                   (drawn_ids canvas))
         (written rs)
    /\ next_vehicle_id (detector rs) - 1
       <= Z.of_nat (List.length (all_detections done))).
  apply (process_frames_ind (fps v) (total_frames v) R) with (done := [])
    in Hrun; [exact Hrun| |].
  - clear. intros done fr rs rs' (Hbelow & Hdata & Hwritten & Hcount) Hfr.
    apply process_frame_steps in Hfr
      as (_ & st1 & data1 & canvas & zone & Hds & _ & ->).
    destruct (age_tracks_known (frame_count rs + 1) (detector rs))
      as [Hsub Hnext].
    apply process_detections_ids in Hds as (Hn & Hds).
    rewrite Hnext in Hn.
    destruct Hds as (Hbelow1 & Hdata1 & Hcanvas1).
    + destruct Hbelow as [Hone Hbelow]. split; [lia|].
      intros k Hk. rewrite Hnext. auto.
    + now rewrite Hnext.
    + constructor.
    + unfold R. simpl. split; [exact Hbelow1|]. split; [exact Hdata1|].
      split.
      * apply Forall_app. split.
        -- eapply Forall_impl; [|exact Hwritten]. simpl. intros c Hc.
           apply (Forall_below_mono (fun k => k) _ _ _ (proj1 Hn) Hc).
        -- constructor; [|constructor].
           rewrite drawn_ids_app. simpl. now rewrite app_nil_r.
      * rewrite all_detections_app, all_detections_one, length_app. lia.
  - subst st0. unfold R, start_state, init. simpl. split; [|split; [|split]].
    + split; [simpl; lia|]. unfold known. simpl. intros k [[]|[[]|[[]|[]]]].
    + constructor.
    + constructor.
    + lia.
Qed.

Lemma identities_stay_below_counter_witness :
  exists rs,
    process_video (E := silent_engine) five_frames = Ok rs
    /\ next_vehicle_id (detector rs) = 2
    /\ Forall (fun r => 1 <= r_vehicle_id r < 2) (detection_data rs).
Proof.
  destruct (process_video (E := silent_engine) five_frames) as [rs|e] eqn:Hrun;
    [|vm_compute in Hrun; discriminate].
  destruct (identities_stay_below_counter (E := silent_engine) five_frames rs
              Hrun) as (_ & Hdata & _ & _).
  assert (Hnext : next_vehicle_id (detector rs) = 2).
  { vm_compute in Hrun. injection Hrun as <-. reflexivity. }
  exists rs. split; [reflexivity|]. split; [exact Hnext|].
  rewrite Hnext in Hdata. exact Hdata.
Defined.

(** ** What aging does to one identity *)

(** The loop leaves alone an identity it does not visit. *)
Lemma age_loop_other (frame_count : Z) (track_keys : list Z)
  (st : VehicleSpeedDetector) (vehicle_id : Z) :
  ~ In vehicle_id track_keys ->
  PyDict.get vehicle_id (track_last_seen (age_loop frame_count track_keys st))
  = PyDict.get vehicle_id (track_last_seen st)
  /\ PyDict.get vehicle_id
       (inactive_tracks (age_loop frame_count track_keys st))
     = PyDict.get vehicle_id (inactive_tracks st).
Proof.
  revert st. induction track_keys as [|v0 rest IH]; intros st Hnotin; simpl.
  - auto.
  - assert (Hne : v0 <> vehicle_id) by (intros ->; apply Hnotin; now left).
    assert (Hrest : ~ In vehicle_id rest)
      by (intros H; apply Hnotin; now right).
    destruct (track_max_age st <? _); [|now apply IH].
    destruct (PyDict.get v0 (vehicle_tracks st)) as [positions|];
      [|now apply IH].
    destruct (last_sample positions) as [s|]; [|now apply IH].
    match goal with
    | |- context [age_loop frame_count rest ?x] =>
        destruct (IH x Hrest) as [IH1 IH2]
    end.
    rewrite IH1, IH2.
    destruct (PyDict.mem v0 _); simpl;
      rewrite ?PyDictFacts.get_del_other, ?PyDictFacts.get_set_other
        by assumption; auto.
Qed.

(** Once an identity is dormant at the end of its history and has no
    last-seen index, the loop keeps it so. *)
Lemma age_loop_settled (frame_count : Z) (track_keys : list Z)
  (st : VehicleSpeedDetector) (vehicle_id : Z) (positions : list sample)
  (s : sample) :
  PyDict.get vehicle_id (vehicle_tracks st) = Some positions ->
  last_sample positions = Some s ->
  PyDict.get vehicle_id (inactive_tracks st) = Some (position s) ->
  PyDict.get vehicle_id (track_last_seen st) = None ->
  PyDict.get vehicle_id
    (inactive_tracks (age_loop frame_count track_keys st))
  = Some (position s)
  /\ PyDict.get vehicle_id
       (track_last_seen (age_loop frame_count track_keys st))
     = None.
Proof.
  revert st. induction track_keys as [|v0 rest IH];
    intros st Htrack Hlast Hin Hseen; simpl.
  - auto.
  - destruct (track_max_age st <? _); [|now apply IH].
    destruct (PyDict.get v0 (vehicle_tracks st)) as [positions0|] eqn:Hget0;
      [|now apply IH].
    destruct (last_sample positions0) as [s0|] eqn:Hlast0; [|now apply IH].
    destruct (Z.eq_dec v0 vehicle_id) as [->|Hne].
    + assert (positions0 = positions) as -> by congruence.
      assert (s0 = s) as -> by congruence.
      unfold PyDict.mem. simpl. rewrite Hseen.
      apply IH; simpl; auto. apply PyDictFacts.get_set_same.
    + apply IH.
      * destruct (PyDict.mem v0 _); exact Htrack.
      * exact Hlast.
      * destruct (PyDict.mem v0 _); simpl;
          now rewrite PyDictFacts.get_set_other.
      * destruct (PyDict.mem v0 _); simpl;
          rewrite ?PyDictFacts.get_del_other by assumption; exact Hseen.
Qed.

(** A stale identity that the loop visits becomes dormant at the end of
    its history and loses its last-seen index. *)
Lemma age_loop_demotes (frame_count : Z) (track_keys : list Z)
  (st : VehicleSpeedDetector) (vehicle_id seen : Z)
  (positions : list sample) (s : sample) :
  In vehicle_id track_keys ->
  PyDict.get vehicle_id (track_last_seen st) = Some seen ->
  track_max_age st < frame_count - seen ->
  PyDict.get vehicle_id (vehicle_tracks st) = Some positions ->
  last_sample positions = Some s ->
  PyDict.get vehicle_id
    (inactive_tracks (age_loop frame_count track_keys st))
  = Some (position s)
  /\ PyDict.get vehicle_id
       (track_last_seen (age_loop frame_count track_keys st))
     = None.
Proof.
  revert st. induction track_keys as [|v0 rest IH];
    intros st Hin Hseen Hstale Htrack Hlast; [destruct Hin|].
  destruct (Z.eq_dec v0 vehicle_id) as [->|Hne].
  - simpl. rewrite Hseen.
    destruct (Z.ltb_spec (track_max_age st) (frame_count - seen)); [|lia].
    rewrite Htrack, Hlast. unfold PyDict.mem. simpl. rewrite Hseen.
    apply age_loop_settled with positions; simpl; auto.
    + apply PyDictFacts.get_set_same.
    + apply PyDictFacts.get_del_same.
  - destruct Hin as [Heq|Hin]; [contradiction|]. simpl.
    destruct (track_max_age st <? _); [|now apply IH].
    destruct (PyDict.get v0 (vehicle_tracks st)) as [positions0|];
      [|now apply IH].
    destruct (last_sample positions0) as [s0|]; [|now apply IH].
    apply IH; auto.
    + destruct (PyDict.mem v0 _); simpl;
        rewrite ?PyDictFacts.get_del_other by assumption; exact Hseen.
    + destruct (PyDict.mem v0 _); exact Hstale.
    + destruct (PyDict.mem v0 _); exact Htrack.
Qed.

(** An identity seen recently enough, or without a history, is left
    alone. *)
Lemma age_loop_keeps (frame_count : Z) (track_keys : list Z)
  (st : VehicleSpeedDetector) (vehicle_id : Z) :
  (exists seen,
     PyDict.get vehicle_id (track_last_seen st) = Some seen
     /\ frame_count - seen <= track_max_age st)
  \/ PyDict.get vehicle_id (vehicle_tracks st) = None
  \/ PyDict.get vehicle_id (vehicle_tracks st) = Some [] ->
  PyDict.get vehicle_id (track_last_seen (age_loop frame_count track_keys st))
  = PyDict.get vehicle_id (track_last_seen st)
  /\ PyDict.get vehicle_id
       (inactive_tracks (age_loop frame_count track_keys st))
     = PyDict.get vehicle_id (inactive_tracks st).
Proof.
  revert st. induction track_keys as [|v0 rest IH]; intros st Hkeep; simpl.
  - auto.
  - destruct (track_max_age st <? _) eqn:Htest; [|now apply IH].
    destruct (PyDict.get v0 (vehicle_tracks st)) as [positions0|] eqn:Hget0;
      [|now apply IH].
    destruct (last_sample positions0) as [s0|] eqn:Hlast0; [|now apply IH].
    assert (Hne : v0 <> vehicle_id).
    { intros ->. destruct Hkeep as [(seen & Hseen & Hfresh)|[Hnone|Hempty]].
      - rewrite Hseen in Htest. apply Z.ltb_lt in Htest. lia.
      - congruence.
      - rewrite Hget0 in Hempty. injection Hempty as ->. discriminate. }
    match goal with
    | |- context [age_loop frame_count rest ?x] =>
        destruct (IH x) as [IH1 IH2]
    end.
    + destruct (PyDict.mem v0 _); simpl;
        rewrite ?PyDictFacts.get_del_other by assumption; exact Hkeep.
    + rewrite IH1, IH2.
      destruct (PyDict.mem v0 _); simpl;
        rewrite ?PyDictFacts.get_del_other, ?PyDictFacts.get_set_other
          by assumption; auto.
Qed.

(** X5. What the aging block of a frame does to an identity. It never
    touches the histories, the smoothed speeds or the counter. An
    identity with a last-seen index more than [track_max_age] frames old
    and a history that is not empty becomes dormant at the last position
    of its history and loses its last-seen index. Every other identity
    keeps its last-seen index and its dormant position as they were. *)
Theorem aging_demotes_the_stale (frame_count : Z) (st : VehicleSpeedDetector)
  (vehicle_id : Z) :
  let st' := age_tracks frame_count st in
  vehicle_tracks st' = vehicle_tracks st
  /\ vehicle_speeds st' = vehicle_speeds st
  /\ next_vehicle_id st' = next_vehicle_id st
  /\ (forall seen positions s,
        PyDict.get vehicle_id (track_last_seen st) = Some seen ->
        track_max_age st < frame_count - seen ->
        PyDict.get vehicle_id (vehicle_tracks st) = Some positions ->
        last_sample positions = Some s ->
        PyDict.get vehicle_id (inactive_tracks st') = Some (position s)
        /\ PyDict.get vehicle_id (track_last_seen st') = None)
  /\ (PyDict.get vehicle_id (track_last_seen st) = None
      \/ (exists seen,
            PyDict.get vehicle_id (track_last_seen st) = Some seen
            /\ frame_count - seen <= track_max_age st)
      \/ PyDict.get vehicle_id (vehicle_tracks st) = None
      \/ PyDict.get vehicle_id (vehicle_tracks st) = Some [] ->
      PyDict.get vehicle_id (track_last_seen st')
      = PyDict.get vehicle_id (track_last_seen st)
      /\ PyDict.get vehicle_id (inactive_tracks st')
         = PyDict.get vehicle_id (inactive_tracks st)).
Proof.
  cbv zeta. unfold age_tracks.
  destruct (age_loop_state frame_count (PyDict.keys (track_last_seen st)) st)
    as (Hstate & _ & _).
  split; [rewrite Hstate; reflexivity|].
  split; [rewrite Hstate; reflexivity|].
  split; [rewrite Hstate; reflexivity|]. split.
  - intros seen positions s Hseen Hstale Htrack Hlast.
    apply age_loop_demotes with seen positions; auto.
    apply PyDictFacts.in_keys_get. eauto.
  - intros [Hnone|Hkeep].
    + apply age_loop_other. intros Hin.
      apply PyDictFacts.in_keys_get in Hin as [seen Hseen]. congruence.
    + now apply age_loop_keeps.
Qed.

Lemma aging_demotes_the_stale_witness :
  PyDict.get 1 (inactive_tracks (age_tracks 32 two_tracks)) = Some (100, 100)
  /\ PyDict.get 1 (track_last_seen (age_tracks 32 two_tracks)) = None
  /\ PyDict.get 1 (track_last_seen (age_tracks 31 two_tracks)) = Some 1
  /\ PyDict.get 1 (inactive_tracks (age_tracks 31 two_tracks)) = None.
Proof.
  destruct (aging_demotes_the_stale 32 two_tracks 1)
    as (_ & _ & _ & Hstale & _).
  destruct (aging_demotes_the_stale 31 two_tracks 1)
    as (_ & _ & _ & _ & Hkept).
  destruct (Hstale 1 [sample_at (100, 100) 1] (sample_at (100, 100) 1))
    as [Hdormant Hseen]; [reflexivity | simpl; lia | reflexivity
                          | reflexivity |].
  destruct Hkept as [Hseen' Hdormant'].
  { right. left. exists 1. split; [reflexivity | simpl; lia]. }
  split; [exact Hdormant|]. split; [exact Hseen|].
  split; [exact Hseen' | exact Hdormant'].
Defined.

(** ** The speed estimator reads the end of one history *)

Lemma last_n_length {A : Type} (n : nat) (l : list A) :
  List.length (last_n n l) = Nat.min n (List.length l).
Proof. unfold last_n. rewrite length_skipn. lia. Qed.

Lemma last_n_last_n {A : Type} (n m : nat) (l : list A) :
  (n <= m)%nat -> last_n n (last_n m l) = last_n n l.
Proof.
  intros Hnm. unfold last_n. rewrite length_skipn, skipn_skipn.
  f_equal. lia.
Qed.

Lemma neg_index_last_n {A : Type} (n i : nat) (l : list A) :
  (1 <= i <= n)%nat -> neg_index (last_n n l) i = neg_index l i.
Proof.
  intros Hi. unfold neg_index. rewrite last_n_length.
  destruct (Nat.leb_spec i (List.length l)) as [Hlen|Hlen].
  - replace (i <=? Nat.min n (List.length l))%nat with true
      by (symmetry; apply Nat.leb_le; lia).
    destruct (1 <=? i)%nat; [simpl|reflexivity].
    unfold last_n. rewrite nth_error_skipn. f_equal. lia.
  - replace (i <=? Nat.min n (List.length l))%nat with false
      by (symmetry; apply Nat.leb_gt; lia).
    now rewrite andb_false_r.
Qed.

Lemma fold_left_ext_in {A B : Type} (f g : A -> B -> A) (l : list B) (a : A) :
  (forall acc x, In x l -> f acc x = g acc x) ->
  fold_left f l a = fold_left g l a.
Proof.
  revert a. induction l as [|x r IH]; intros a H; simpl; [reflexivity|].
  rewrite (H a x) by now left. apply IH. intros acc y Hy. apply H. now right.
Qed.

(** The loop over the intervals reads the last six samples only. *)
Lemma interval_speeds_last_six (ppm : float) (track : list sample) :
  interval_speeds ppm (last_n 6 track) = interval_speeds ppm track.
Proof.
  unfold interval_speeds. rewrite last_n_length.
  replace (Nat.min (Nat.min 6 (List.length track)) 6)
    with (Nat.min (List.length track) 6) by lia.
  apply fold_left_ext_in. intros acc i Hi. apply in_seq in Hi.
  unfold speed_step.
  rewrite !neg_index_last_n by lia. reflexivity.
Qed.

Lemma appended_track_last_n (vehicle_id : Z) (current_pos : point)
  (frame_number : Z) (ts : float) (st : VehicleSpeedDetector) :
  appended_track vehicle_id current_pos frame_number ts st
  = last_n 15 (track_of vehicle_id st
               ++ [new_sample current_pos frame_number ts]).
Proof.
  unfold appended_track, track_of.
  destruct (Nat.ltb_spec 15
              (List.length
                 (match PyDict.get vehicle_id (vehicle_tracks st) with
                  | Some l => l
                  | None => []
                  end ++ [new_sample current_pos frame_number ts])));
    [reflexivity|].
  symmetry. now apply last_n_all.
Qed.

Lemma track_of_calculate_speed (vehicle_id : Z) (current_pos : point)
  (frame_number fps : Z) (st st' : VehicleSpeedDetector) (speed : float) :
  calculate_speed vehicle_id current_pos frame_number fps st
  = Ok (speed, st') ->
  track_of vehicle_id st'
  = appended_track vehicle_id current_pos frame_number
      (Z2float frame_number / Z2float fps)%float st.
Proof.
  intros H. pose proof (calculate_speed_fps _ _ _ _ _ _ _ H) as Hfps.
  apply calculate_speed_tracks in H; [|exact Hfps].
  unfold track_of at 1. rewrite H, PyDictFacts.get_set_same. reflexivity.
Qed.

(** X6. [calculate_speed] touches one vehicle. Its history becomes the
    old one followed by the new sample, cut to the last fifteen entries,
    so that it has between one and fifteen entries and ends with the new
    sample; every other history and every other smoothed speed is as it
    was, and so are the dormant tracks, the last-seen indices, the
    counter, the scale and the zone. The call returns only when the
    frame rate is not zero. *)
Theorem calculate_speed_touches_one_vehicle (vehicle_id : Z)
  (current_pos : point) (frame_number fps : Z)
  (st st' : VehicleSpeedDetector) (speed : float) :
  calculate_speed vehicle_id current_pos frame_number fps st
  = Ok (speed, st') ->
  let s := new_sample current_pos frame_number
             (Z2float frame_number / Z2float fps)%float in
  fps <> 0
  /\ PyDict.get vehicle_id (vehicle_tracks st')
     = Some (last_n 15 (track_of vehicle_id st ++ [s]))
  /\ last_sample (track_of vehicle_id st') = Some s
  /\ (1 <= List.length (track_of vehicle_id st') <= 15)%nat
  /\ (forall k, k <> vehicle_id ->
                PyDict.get k (vehicle_tracks st')
                = PyDict.get k (vehicle_tracks st)
                /\ PyDict.get k (vehicle_speeds st')
                   = PyDict.get k (vehicle_speeds st))
  /\ inactive_tracks st' = inactive_tracks st
  /\ track_last_seen st' = track_last_seen st
  /\ next_vehicle_id st' = next_vehicle_id st
  /\ pixels_per_meter st' = pixels_per_meter st
  /\ speed_detection_zone st' = speed_detection_zone st.
Proof.
  intros H s.
  pose proof (calculate_speed_fps _ _ _ _ _ _ _ H) as Hfps.
  pose proof (track_of_calculate_speed _ _ _ _ _ _ _ H) as Htrack.
  pose proof (calculate_speed_tracks _ _ _ _ _ _ _ Hfps H) as Htracks.
  apply calculate_speed_state in H as [Hstate Hspeeds].
  split; [exact Hfps|]. split; [|split; [|split; [|split]]].
  - rewrite Htracks, PyDictFacts.get_set_same.
    now rewrite appended_track_last_n.
  - rewrite Htrack. apply last_sample_appended.
  - rewrite Htrack. split; [|apply appended_track_length].
    rewrite appended_track_last_n, last_n_length, length_app.
    cbn [List.length]. lia.
  - intros k Hk. split.
    + rewrite Htracks. apply PyDictFacts.get_set_other. congruence.
    + destruct Hspeeds as [->| ->]; [reflexivity|].
      apply PyDictFacts.get_set_other. congruence.
  - rewrite Hstate. simpl. auto.
Qed.

Lemma calculate_speed_touches_one_vehicle_witness :
  exists speed st',
    calculate_speed 2 (170, 100) 2 30 two_tracks = Ok (speed, st')
    /\ (exists s, PyDict.get 2 (vehicle_tracks st')
                  = Some [sample_at (160, 100) 1; s]
                  /\ position s = (170, 100))
    /\ PyDict.get 1 (vehicle_tracks st') = Some [sample_at (100, 100) 1].
Proof.
  destruct (calculate_speed 2 (170, 100) 2 30 two_tracks)
    as [[speed st']|e] eqn:Hrun; [|vm_compute in Hrun; discriminate].
  destruct (calculate_speed_touches_one_vehicle 2 (170, 100) 2 30 two_tracks
              st' speed Hrun)
    as (_ & Hmine & _ & _ & Hother & _).
  exists speed, st'. split; [reflexivity|]. split.
  - eexists. split; [exact Hmine | reflexivity].
  - destruct (Hother 1) as [Htr _]; [discriminate|]. exact Htr.
Defined.

(** X7. The speed that [calculate_speed] returns depends on the history
    only through its last five entries, to which the new sample is
    added: two detectors with the same scale, the same smoothed speed
    for the vehicle and histories that agree on their last five entries
    return the same speed. *)
Theorem speed_reads_recent_samples (vehicle_id : Z) (current_pos : point)
  (frame_number fps : Z) (st_a st_b st_a' st_b' : VehicleSpeedDetector)
  (speed_a speed_b : float) :
  pixels_per_meter st_a = pixels_per_meter st_b ->
  PyDict.get vehicle_id (vehicle_speeds st_a)
  = PyDict.get vehicle_id (vehicle_speeds st_b) ->
  last_n 5 (track_of vehicle_id st_a) = last_n 5 (track_of vehicle_id st_b) ->
  calculate_speed vehicle_id current_pos frame_number fps st_a
  = Ok (speed_a, st_a') ->
  calculate_speed vehicle_id current_pos frame_number fps st_b
  = Ok (speed_b, st_b') ->
  speed_a = speed_b.
Proof.
  intros Hppm Hprev Hrecent Ha Hb.
  pose proof (calculate_speed_fps _ _ _ _ _ _ _ Ha) as Hfps.
  rewrite calculate_speed_unfold in Ha, Hb by assumption. cbv zeta in Ha, Hb.
  set (ts := (Z2float frame_number / Z2float fps)%float) in *.
  set (ta := appended_track vehicle_id current_pos frame_number ts st_a) in *.
  set (tb := appended_track vehicle_id current_pos frame_number ts st_b) in *.
  assert (Hsix : last_n 6 ta = last_n 6 tb).
  { subst ta tb. rewrite !appended_track_last_n.
    rewrite !last_n_last_n by lia. rewrite !(last_n_app_one 5).
    now rewrite Hrecent. }
  assert (Hlen : (List.length ta <? 3)%nat = (List.length tb <? 3)%nat).
  { apply (f_equal (@List.length _)) in Hsix. rewrite !last_n_length in Hsix.
    destruct (Nat.ltb_spec (List.length ta) 3),
      (Nat.ltb_spec (List.length tb) 3); try reflexivity; lia. }
  assert (Hspeeds : interval_speeds (pixels_per_meter st_a) ta
                    = interval_speeds (pixels_per_meter st_b) tb).
  { rewrite <- (interval_speeds_last_six _ ta),
      <- (interval_speeds_last_six _ tb). now rewrite Hsix, Hppm. }
  rewrite Hlen, Hspeeds, Hprev in Ha.
  destruct (List.length tb <? 3)%nat; [congruence|].
  destruct (interval_speeds (pixels_per_meter st_b) tb); [congruence|].
  destruct (PyDict.get vehicle_id (vehicle_speeds st_b)); congruence.
Qed.

Lemma speed_reads_recent_samples_witness :
  exists speed st_a' st_b',
    calculate_speed 1 (100, 170) 8 30 (tracking (seven_samples (100, 100)) None)
    = Ok (speed, st_a')
    /\ calculate_speed 1 (100, 170) 8 30 (tracking (seven_samples (0, 0)) None)
       = Ok (speed, st_b')
    /\ (0 <? speed)%float = true.
Proof.
  destruct (calculate_speed 1 (100, 170) 8 30
              (tracking (seven_samples (100, 100)) None))
    as [[speed_a st_a']|e] eqn:Ha; [|vm_compute in Ha; discriminate].
  destruct (calculate_speed 1 (100, 170) 8 30
              (tracking (seven_samples (0, 0)) None))
    as [[speed_b st_b']|e] eqn:Hb; [|vm_compute in Hb; discriminate].
  assert (Heq : speed_a = speed_b).
  { apply (speed_reads_recent_samples 1 (100, 170) 8 30
             (tracking (seven_samples (100, 100)) None)
             (tracking (seven_samples (0, 0)) None) st_a' st_b');
      [reflexivity | reflexivity | reflexivity | exact Ha | exact Hb]. }
  subst speed_b. exists speed_a, st_a', st_b'.
  split; [reflexivity|]. split; [reflexivity|].
  vm_compute in Ha. injection Ha as <- _. reflexivity.
Defined.

(** ** More on plate recognition *)

(** X8. [detect_license_plate] never raises, and it returns the bare
    [None] (not a pair) exactly when it is given no crop or a crop
    without pixels, whatever the filters and the engine do. *)
Theorem invalid_crop_returns_bare_none `{E : Externals}
  (vehicle_crop : option ndarray) :
  (exists r, detect_license_plate vehicle_crop = Ok r)
  /\ (detect_license_plate vehicle_crop = Ok ReturnNone <->
      match vehicle_crop with
      | None => True
      | Some crop =>
          size crop = 0%N \/ shape0 crop = 0%N \/ shape1 crop = 0%N
      end).
Proof.
  destruct vehicle_crop as [crop|].
  2:{ split; [now exists ReturnNone | now split]. }
  destruct (N.eq_dec (size crop) 0) as [Hzero|Hpos].
  - assert (Hbody : detect_license_plate (Some crop) = Ok ReturnNone).
    { unfold detect_license_plate, detect_license_plate_body.
      apply N.eqb_eq in Hzero. now rewrite Hzero. }
    split; [eauto|]. split; [intros _; now left | intros _; exact Hbody].
  - destruct (detect_license_plate_total crop) as (text & box & Hpair);
      [lia|].
    split; [eauto|]. rewrite Hpair. split; [discriminate|].
    unfold size in Hpos. intros [H|[H|H]]; exfalso.
    + now apply Hpos.
    + apply Hpos. rewrite H. reflexivity.
    + apply Hpos. rewrite H. lia.
Qed.

Lemma invalid_crop_returns_bare_none_witness :
  detect_license_plate (E := reading_engine) (Some empty_crop) = Ok ReturnNone
  /\ detect_license_plate (E := reading_engine) None = Ok ReturnNone.
Proof.
  destruct (invalid_crop_returns_bare_none (E := reading_engine)
              (Some empty_crop)) as [_ [_ Hcrop]].
  destruct (invalid_crop_returns_bare_none (E := reading_engine) None)
    as [_ [_ Hnone]].
  split; [apply Hcrop; left; reflexivity | apply Hnone; exact I].
Defined.

Lemma sort_head_first_best (l : list candidate) :
  (forall c, In c l -> comparable (cand_conf c)) ->
  l <> [] ->
  exists h rest, sort_by_confidence l = h :: rest /\ first_best l h.
Proof.
  induction l as [|x r IH]; intros Hcmp Hne; [congruence|].
  destruct r as [|y r'].
  - exists x, []. split; [reflexivity|].
    exists [], []. split; [reflexivity|]. split; intros c [].
  - destruct IH as (h & rest & Hsort & pre & post & Hr & Hpre & Hpost);
      [intros c Hc; apply Hcmp; now right | discriminate |].
    change (sort_by_confidence (x :: y :: r'))
      with (insert_desc x (sort_by_confidence (y :: r'))).
    rewrite Hsort. simpl.
    assert (Hh : In h (y :: r')).
    { rewrite Hr. apply in_or_app. right. now left. }
    destruct (cand_conf x <? cand_conf h)%float eqn:Hlt.
    + exists h, (insert_desc x rest). split; [reflexivity|].
      exists (x :: pre), post. split; [now rewrite Hr|].
      split; [|exact Hpost].
      intros c [<-|Hc]; [exact Hlt | now apply Hpre].
    + exists x, (h :: rest). split; [reflexivity|].
      exists [], (y :: r'). split; [reflexivity|]. split; [intros c []|].
      assert (Hhx : (cand_conf h <=? cand_conf x)%float = true).
      { apply ltb_false_leb; [| |exact Hlt].
        - apply Hcmp. now left.
        - apply Hcmp. now right. }
      intros c Hc. apply leb_trans with (cand_conf h); [|exact Hhx].
      rewrite Hr in Hc. apply in_app_or in Hc as [Hc|[<-|Hc]].
      * apply ltb_leb. now apply Hpre.
      * apply leb_refl. apply Hcmp. now right.
      * now apply Hpost.
Qed.

Lemma detect_license_plate_body_of `{E : Externals}
  (vehicle_crop : option ndarray) (plate : string) (box : option quad) :
  detect_license_plate vehicle_crop = Ok (ReturnPair (Some plate) box) ->
  exists enhanced thresh results1 results2,
    readtext enhanced = Ok results1 /\ readtext thresh = Ok results2
    /\ best_plate (results1 ++ results2) = ReturnPair (Some plate) box.
Proof.
  unfold detect_license_plate, try_except. intros H.
  destruct (detect_license_plate_body vehicle_crop) as [r|e] eqn:Hbody;
    [|discriminate].
  injection H as ->.
  apply detect_license_plate_body_ok in Hbody
    as [Hnone|(enhanced & thresh & results1 & results2 & H1 & H2 & Hbest)];
    [discriminate|].
  now exists enhanced, thresh, results1, results2.
Qed.

Lemma collect_plates_app `{E : Externals} (a b : list ocr_result) :
  collect_plates (a ++ b) = collect_plates a ++ collect_plates b.
Proof.
  induction a as [|[[bbox text] c] a IH]; cbn [app collect_plates];
    [reflexivity|].
  destruct (0.4 <? c)%float; [|exact IH].
  destruct (plate_like (clean_text text)); [|exact IH].
  cbn [app]. now rewrite IH.
Qed.

(** The filters applied to a crop with pixels, in the order of the
    source, and the two readings. *)
Lemma detect_license_plate_body_steps `{E : Externals}
  (vehicle_crop : option ndarray) (text : option string) (box : option quad) :
  detect_license_plate_body vehicle_crop = Ok (ReturnPair text box) ->
  exists crop0 crop1 gray bilateral enhanced thresh results1 results2,
    vehicle_crop = Some crop0
    /\ (if ((shape0 crop0 <? 100) || (shape1 crop0 <? 100))%N
        then exists fh fw,
               int_truediv 100 (Z.of_N (shape0 crop0)) = Ok fh
               /\ int_truediv 100 (Z.of_N (shape1 crop0)) = Ok fw
               /\ cv2_resize crop0 (py_max fh fw) (py_max fh fw) = Ok crop1
        else crop1 = crop0)
    /\ cv2_cvtColor crop1 = Ok gray
    /\ cv2_bilateralFilter gray = Ok bilateral
    /\ clahe_apply bilateral = Ok enhanced
    /\ cv2_threshold enhanced = Ok thresh
    /\ readtext enhanced = Ok results1
    /\ readtext thresh = Ok results2
    /\ best_plate (results1 ++ results2) = ReturnPair text box.
Proof.
  unfold detect_license_plate_body.
  destruct vehicle_crop as [crop0|]; [|discriminate].
  destruct (_ || _)%N; [discriminate|]. cbv zeta. intros H.
  apply bind_ok in H. destruct H as (crop1 & Hcrop & H).
  apply bind_ok in H. destruct H as (gray & Hgray & H).
  apply bind_ok in H. destruct H as (bilateral & Hbil & H).
  apply bind_ok in H. destruct H as (enhanced & Henh & H).
  apply bind_ok in H. destruct H as (thresh & Hthr & H).
  apply bind_ok in H. destruct H as (results1 & H1 & H).
  apply bind_ok in H. destruct H as (results2 & H2 & H).
  injection H as Hbest.
  exists crop0, crop1, gray, bilateral, enhanced, thresh, results1, results2.
  split; [reflexivity|]. split.
  { destruct ((shape0 crop0 <? 100) || (shape1 crop0 <? 100))%N.
    - apply bind_ok in Hcrop. destruct Hcrop as (fh & Hfh & Hcrop).
      apply bind_ok in Hcrop. destruct Hcrop as (fw & Hfw & Hcrop).
      now exists fh, fw.
    - now injection Hcrop as <-. }
  repeat (split; [assumption|]). assumption.
Qed.

(** X9. Ties between readings go to the first one. When
    [detect_license_plate] returns a plate, its crop went through the
    filters in the order of the source, the enhanced image and then the
    thresholded image were read, and the plate is the first, among the
    plausible readings of the enhanced image followed by those of the
    thresholded image, of those with the highest confidence: every
    plausible reading before it has a strictly lower confidence, none
    after it has a higher one. *)
Theorem first_of_the_best_readings_wins `{E : Externals}
  (vehicle_crop : option ndarray) (plate : string) (box : option quad) :
  detect_license_plate vehicle_crop = Ok (ReturnPair (Some plate) box) ->
  exists crop0 crop1 gray bilateral enhanced thresh results1 results2 c bbox,
    vehicle_crop = Some crop0
    /\ (if ((shape0 crop0 <? 100) || (shape1 crop0 <? 100))%N
        then exists fh fw,
               int_truediv 100 (Z.of_N (shape0 crop0)) = Ok fh
               /\ int_truediv 100 (Z.of_N (shape1 crop0)) = Ok fw
               /\ cv2_resize crop0 (py_max fh fw) (py_max fh fw) = Ok crop1
        else crop1 = crop0)
    /\ cv2_cvtColor crop1 = Ok gray
    /\ cv2_bilateralFilter gray = Ok bilateral
    /\ clahe_apply bilateral = Ok enhanced
    /\ cv2_threshold enhanced = Ok thresh
    /\ readtext enhanced = Ok results1
    /\ readtext thresh = Ok results2
    /\ box = Some bbox
    /\ first_best (collect_plates results1 ++ collect_plates results2)
         (plate, c, bbox).
Proof.
  unfold detect_license_plate, try_except. intros H.
  destruct (detect_license_plate_body vehicle_crop) as [r|e] eqn:Hbody;
    [|discriminate].
  injection H as ->.
  apply detect_license_plate_body_steps in Hbody
    as (crop0 & crop1 & gray & bilateral & enhanced & thresh & results1
        & results2 & Hcrop & Hresize & Hgray & Hbil & Henh & Hthr & H1 & H2
        & Hbest).
  exists crop0, crop1, gray, bilateral, enhanced, thresh, results1, results2.
  unfold best_plate in Hbest. rewrite <- collect_plates_app.
  destruct (collect_plates (results1 ++ results2)) as [|first others] eqn:Hall;
    [discriminate|].
  destruct (sort_head_first_best (first :: others))
    as (h & rest & Hsort & Hfirst); [|discriminate|].
  - intros [[text c] b] Hc. rewrite <- Hall in Hc.
    apply in_collect_plates in Hc as (raw & _ & Hconf & _).
    now apply ltb_comparable with 0.4%float.
  - rewrite Hsort in Hbest. simpl in Hbest. destruct h as [[text c] b].
    injection Hbest as <- <-. exists c, b.
    repeat (split; [assumption|]). split; [reflexivity|exact Hfirst].
Qed.

Lemma first_of_the_best_readings_wins_witness :
  detect_license_plate (E := tie_engine) (Some crop_120_200)
  = Ok (ReturnPair (Some "KA01AB1234"%string) (Some corner_quad))
  /\ collect_plates (E := tie_engine) thresholded_reading
     = [("MH12AB0001"%string, 0.8%float,
         [(5, 5); (65, 5); (65, 25); (5, 25)]%Z)]
  /\ (exists c,
        first_best
          (collect_plates (E := tie_engine) enhanced_reading
           ++ collect_plates (E := tie_engine) thresholded_reading)
          ("KA01AB1234"%string, c, corner_quad))
  /\ (forall c,
        ~ first_best
            (collect_plates (E := tie_engine) thresholded_reading
             ++ collect_plates (E := tie_engine) enhanced_reading)
            ("KA01AB1234"%string, c, corner_quad)).
Proof.
  assert (Hrun : detect_license_plate (E := tie_engine) (Some crop_120_200)
                 = Ok (ReturnPair (Some "KA01AB1234"%string)
                         (Some corner_quad)))
    by (vm_compute; reflexivity).
  split; [exact Hrun|]. split; [vm_compute; reflexivity|].
  split.
  2:{ intros c (pre & post & Hl & Hpre & _).
      destruct pre as [|x pre]; [discriminate|].
      injection Hl as <- Hl.
      specialize (Hpre _ (or_introl eq_refl)).
      destruct pre as [|y pre]; [|destruct pre; discriminate].
      injection Hl as <- _. vm_compute in Hpre. discriminate. }
  destruct (first_of_the_best_readings_wins (E := tie_engine) _ _ _ Hrun)
    as (crop0 & crop1 & gray & bilateral & enhanced & thresh & results1
        & results2 & c & bbox & Hcrop & Hresize & Hgray & Hbil & Henh & Hthr
        & H1 & H2 & Hbox & Hfirst).
  injection Hcrop as <-. cbn in Hresize. subst crop1.
  cbn in Hgray. injection Hgray as <-.
  cbn in Hbil. injection Hbil as <-.
  cbn in Henh. injection Henh as <-.
  cbn in Hthr. injection Hthr as <-.
  cbn in H1. injection H1 as <-. cbn in H2. injection H2 as <-.
  injection Hbox as <-. exists c. exact Hfirst.
Defined.

(** ** A plate that was read is reused on the frames in between *)







(** A plate that recognition returns is not the empty string. *)
Lemma detected_plate_truthy `{E : Externals} (vehicle_crop : option ndarray)
  (plate : string) (box : option quad) :
  detect_license_plate vehicle_crop = Ok (ReturnPair (Some plate) box) ->
  truthy (Some plate) = true.
Proof.
  intros H. apply detect_license_plate_body_of in H
    as (enhanced & thresh & results1 & results2 & _ & _ & Hbest).
  destruct (best_plate_spec (results1 ++ results2))
    as [[_ Hnone]|(p & c & b & Hsome & Hin & _)]; [congruence|].
  rewrite Hsome in Hbest. injection Hbest as <- _.
  apply in_collect_plates in Hin as (raw & _ & _ & _ & Hlike).
  unfold plate_like in Hlike.
  apply andb_prop in Hlike as [Hlike _]. apply andb_prop in Hlike as [Hlen _].
  destruct p; [discriminate | reflexivity].
Qed.



(** ** The settings of a run and the records it writes *)

Lemma assign_vehicle_id_state (center_x center_y frame_number : Z)
  (st st' : VehicleSpeedDetector) (vehicle_id : Z) :
  assign_vehicle_id center_x center_y frame_number st = Ok (vehicle_id, st') ->
  st' = with_track_last_seen (track_last_seen st')
          (with_inactive_tracks (inactive_tracks st')
             (with_next_vehicle_id (next_vehicle_id st') st)).
Proof.
  intros Hrun.
  apply assign_vehicle_id_cases in Hrun
    as (m1 & a1 & st1 & Hscan & Hcases).
  pose proof (scan_active_state (center_x, center_y) frame_number 50
                (vehicle_tracks st) PrimFloat.infinity None st) as Hstate.
  rewrite Hscan in Hstate.
  destruct Hcases as [[Ha1 ->]
                     |[[Ha1 (m2 & st2 & Hin & ->)]
                      |[Ha1 (m2 & st2 & Hin & Hid & ->)]]].
  - rewrite Hstate. now destruct st.
  - apply scan_inactive_state in Hin. rewrite Hin, Hstate. now destruct st.
  - apply scan_inactive_state in Hin. rewrite Hin, Hstate. now destruct st.
Qed.

Lemma emit_record_fields `{E : Externals} (frame_count fps : Z)
  (d : detection) (vehicle_id : Z) (speed : float) (is_overspeed : bool)
  (plate : option string) (st : VehicleSpeedDetector)
  (records : list DetectionRecord) :
  emit_record frame_count fps d vehicle_id speed is_overspeed plate st
  = Ok records ->
  (records = [] /\ (0 <? speed)%float = false)
  \/ exists r,
       records = [r] /\ (0 <? speed)%float = true
       /\ r_frame_number r = frame_count
       /\ r_vehicle_id r = vehicle_id
       /\ r_speed r = py_round speed 2
       /\ r_is_overspeed r = is_overspeed
       /\ (r_x1 r, r_y1 r, r_x2 r, r_y2 r) = bbox d
       /\ r_confidence r = py_round (confidence d) 2
       /\ r_vehicle_class r = get_class_name (class_id d)
       /\ r_timestamp r = (Z2float frame_count / Z2float fps)%float
       /\ r_license_plate r
          = (if truthy plate
             then match plate with Some p => p | None => "N/A"%string end
             else "N/A"%string)
       /\ r_license_plate_confidence r
          = match PyDict.get vehicle_id (vehicle_tracks st) with
            | Some (s :: track) =>
                match first_confidence plate (rev (s :: track)) with
                | Some c => c
                | None => 0%float
                end
            | _ => 0%float
            end.
Proof.
  unfold emit_record. intros H.
  destruct (0 <? speed)%float; [|injection H as <-; now left].
  right. destruct (bbox d) as [[[x1 y1] x2] y2].
  apply bind_ok in H. destruct H as (ts & Hts & H).
  assert (Hfps : fps <> 0).
  { intros ->. rewrite int_truediv_zero in Hts. discriminate. }
  rewrite int_truediv_ok in Hts by assumption. injection Hts as <-.
  injection H as <-. eexists. split; [reflexivity|]. cbn [r_frame_number
    r_vehicle_id r_speed r_is_overspeed r_x1 r_y1 r_x2 r_y2 r_confidence
    r_vehicle_class r_timestamp r_license_plate r_license_plate_confidence].
  repeat (split; [reflexivity|]).
  split; [destruct plate as [[|c p]|]; reflexivity | reflexivity].
Qed.

Lemma settings_eq (st st' : VehicleSpeedDetector) :
  settings st' = settings st ->
  track_max_age st' = track_max_age st
  /\ speed_limit st' = speed_limit st
  /\ pixels_per_meter st' = pixels_per_meter st
  /\ speed_detection_zone st' = speed_detection_zone st.
Proof. unfold settings. intros [= -> -> -> ->]. auto. Qed.

Lemma age_tracks_settings (frame_count : Z) (st : VehicleSpeedDetector) :
  settings (age_tracks frame_count st) = settings st.
Proof.
  unfold age_tracks.
  destruct (age_loop_state frame_count (PyDict.keys (track_last_seen st)) st)
    as (Hstate & _). rewrite Hstate. reflexivity.
Qed.

(** One detection leaves the settings alone and writes at most one
    record, which describes it. *)
Lemma process_detection_record `{E : Externals} (frame : ndarray)
  (frame_count fps : Z) (st st' : VehicleSpeedDetector)
  (data data' : list DetectionRecord) (canvas canvas' : list draw_op)
  (d : detection) :
  process_detection frame frame_count fps (st, data, canvas) d
  = Ok (st', data', canvas') ->
  settings st' = settings st
  /\ (data' = data
      \/ exists r,
           data' = data ++ [r]
           /\ record_of fps (speed_limit st) frame_count d r).
Proof.
  intros H. apply process_detection_steps in H
    as (vehicle_id & st1 & speed & st2 & plate & plate_bbox & zone & records
        & Hassign & Hspeed & Hplate & Hzone & Hrec & -> & ->).
  apply assign_vehicle_id_state in Hassign.
  apply calculate_speed_state in Hspeed as [Hspeed _].
  apply plate_stage_state in Hplate.
  assert (Hset : settings st' = settings st).
  { rewrite Hplate, Hspeed, Hassign. reflexivity. }
  split; [exact Hset|].
  apply settings_eq in Hset as (_ & Hlimit & _ & _).
  apply emit_record_fields in Hrec
    as [[-> _]|(r & -> & Hpos & Hfr & _ & Hsp & Hov & Hbox & Hconf & Hcls
                & Hts & _ & _)].
  - left. now rewrite app_nil_r.
  - right. exists r. split; [reflexivity|].
    repeat (split; [assumption|]).
    exists speed. rewrite <- Hlimit. auto.
Qed.

Lemma process_detections_records `{E : Externals} (frame : ndarray)
  (frame_count fps : Z) (ds : list detection)
  (st st' : VehicleSpeedDetector)
  (data data' : list DetectionRecord) (canvas canvas' : list draw_op) :
  process_detections frame frame_count fps (st, data, canvas) ds
  = Ok (st', data', canvas') ->
  settings st' = settings st
  /\ exists news,
       data' = data ++ news
       /\ (List.length news <= List.length ds)%nat
       /\ Forall (fun r => exists d,
                    In d ds /\ record_of fps (speed_limit st) frame_count d r)
            news.
Proof.
  revert st data canvas.
  induction ds as [|d rest IH]; intros st data canvas Hrun.
  - simpl in Hrun. injection Hrun as <- <- <-. split; [reflexivity|].
    exists []. rewrite app_nil_r. auto.
  - change (process_detections frame frame_count fps (st, data, canvas)
              (d :: rest))
      with (acc1 <- process_detection frame frame_count fps
                      (st, data, canvas) d ;;
            process_detections frame frame_count fps acc1 rest) in Hrun.
    apply bind_ok in Hrun.
    destruct Hrun as ([[st1 data1] canvas1] & Hd & Hrun).
    apply process_detection_record in Hd as (Hset1 & Hd).
    apply IH in Hrun as (Hset & news & -> & Hlen & Hnews).
    split; [congruence|].
    apply settings_eq in Hset1 as (_ & Hlimit & _ & _).
    rewrite Hlimit in Hnews.
    assert (Hnews' : Forall (fun r => exists d0,
                               In d0 (d :: rest)
                               /\ record_of fps (speed_limit st) frame_count
                                    d0 r) news).
    { eapply Forall_impl; [|exact Hnews]. simpl.
      intros r (d0 & Hin & Hr). exists d0. auto. }
    destruct Hd as [->|(r & -> & Hr)].
    + exists news. split; [reflexivity|]. split; [simpl; lia|exact Hnews'].
    + exists (r :: news). split; [now rewrite <- app_assoc|].
      split; [simpl; lia|]. constructor; [|exact Hnews'].
      exists d. split; [now left | exact Hr].
Qed.

Lemma nondecreasing_app_one (l : list Z) (x : Z) :
  nondecreasing l -> Forall (fun y => y <= x) l -> nondecreasing (l ++ [x]).
Proof.
  induction l as [|y r IH]; intros Hl Hx; simpl.
  - split; constructor.
  - destruct Hl as [Hy Hr]. inversion Hx as [|? ? Hyx Hrx]; subst.
    split; [|now apply IH].
    apply Forall_app. split; [exact Hy|]. constructor; [exact Hyx|constructor].
Qed.

Lemma nondecreasing_app_const (l m : list Z) (x : Z) :
  nondecreasing l -> Forall (fun y => y <= x) l ->
  Forall (fun y => y = x) m ->
  nondecreasing (l ++ m) /\ Forall (fun y => y <= x) (l ++ m).
Proof.
  revert l. induction m as [|y m IH]; intros l Hl Hx Hm.
  - rewrite app_nil_r. auto.
  - inversion Hm as [|? ? Hy Hm']; subst.
    replace (l ++ x :: m) with ((l ++ [x]) ++ m)
      by (rewrite <- app_assoc; reflexivity).
    apply IH; [now apply nondecreasing_app_one| |exact Hm'].
    apply Forall_app. split; [exact Hx|]. constructor; [lia|constructor].
Qed.

Lemma from_frames_app `{E : Externals} (fps limit : Z)
  (done more : list frame_in) (r : DetectionRecord) :
  from_frames fps limit done r -> from_frames fps limit (done ++ more) r.
Proof.
  intros (fr & d & Hone & Hnth & Hin & Hr). exists fr, d.
  split; [exact Hone|]. split; [|auto].
  rewrite nth_error_app1; [exact Hnth|].
  apply nth_error_Some. congruence.
Qed.

Lemma run_invariant_step `{E : Externals} (fps total : Z)
  (st0 : VehicleSpeedDetector) (done : list frame_in) (fr : frame_in)
  (rs rs' : run_state) :
  run_invariant fps total st0 done rs ->
  process_frame fps total rs fr = Ok rs' ->
  run_invariant fps total st0 (done ++ [fr]) rs'.
Proof.
  intros (Hset & Hcount & Hfrom & Hord & Hle & Hlen & Hwritten & Hprog) Hfr.
  apply process_frame_steps in Hfr
    as (_ & st1 & data1 & canvas & zone & Hds & _ & ->).
  apply process_detections_records in Hds as (Hset1 & news & -> & Hnews & Hrec).
  rewrite age_tracks_settings in Hset1.
  assert (Hlimit : speed_limit
                     (age_tracks (frame_count rs + 1) (detector rs))
                   = speed_limit st0).
  { pose proof (age_tracks_settings (frame_count rs + 1) (detector rs)) as Ha.
    apply settings_eq in Ha as (_ & -> & _).
    now apply settings_eq in Hset as (_ & -> & _). }
  rewrite Hlimit in Hrec.
  assert (Hnum : Forall (fun r => r_frame_number r = frame_count rs + 1) news).
  { eapply Forall_impl; [|exact Hrec]. simpl.
    intros r (d & _ & Hr & _). exact Hr. }
  destruct (nondecreasing_app_const
              (map r_frame_number (detection_data rs))
              (map r_frame_number news) (frame_count rs + 1))
    as [Hord' Hle']; [exact Hord | | |].
  { apply Forall_map. eapply Forall_impl; [|exact Hle]. simpl. lia. }
  { apply Forall_map. exact Hnum. }
  unfold run_invariant. simpl.
  split; [congruence|]. split; [rewrite length_app; simpl; lia|].
  split; [|split; [|split; [|split; [|split]]]].
  - apply Forall_app. split.
    + eapply Forall_impl; [|exact Hfrom].
      intros r. apply from_frames_app.
    + rewrite Forall_forall in Hrec, Hnum. apply Forall_forall.
      intros r Hr. destruct (Hrec r Hr) as (d & Hd & Hof).
      specialize (Hnum r Hr). exists fr, d. rewrite Hnum.
      split; [lia|]. split; [|split; [exact Hd|]].
      * replace (Z.to_nat (frame_count rs + 1 - 1)) with (List.length done)
          by lia.
        rewrite nth_error_app2 by lia. now rewrite Nat.sub_diag.
      * exact Hof.
  - now rewrite map_app.
  - rewrite <- map_app in Hle'.
    exact (proj1 (Forall_map r_frame_number
                    (fun y => y <= frame_count rs + 1) _) Hle').
  - rewrite all_detections_app, all_detections_one, !length_app. lia.
  - rewrite !length_app. simpl. lia.
  - rewrite length_app. cbn [List.length].
    rewrite Nat.add_1_r, seq_S, map_app, Hprog. cbn [map].
    replace (Z.of_nat (1 + List.length done)) with (frame_count rs + 1)
      by lia.
    reflexivity.
Qed.

Lemma run_invariant_start `{E : Externals} (fps total : Z)
  (st0 : VehicleSpeedDetector) :
  run_invariant fps total st0 [] (start_state st0).
Proof.
  unfold run_invariant, start_state. simpl.
  repeat (split; [first [reflexivity | constructor | lia]|]). reflexivity.
Qed.

Lemma process_video_invariant `{E : Externals} (v : video) (rs : run_state) :
  process_video v = Ok rs ->
  exists st0,
    calibrate v init = Ok st0
    /\ run_invariant (fps v) (total_frames v) st0 (frames v) rs.
Proof.
  intros Hrun. apply process_video_start in Hrun as (st0 & Hcal & Hrun).
  exists st0. split; [exact Hcal|].
  apply (process_frames_ind (fps v) (total_frames v)
           (run_invariant (fps v) (total_frames v) st0))
    with (done := []) in Hrun; [exact Hrun| |apply run_invariant_start].
  intros done fr rs0 rs1. apply run_invariant_step.
Qed.

(** The result of [min(8, max(5, x))] lies between 5 and 8, whatever
    [x] is. *)
Lemma clamp_bounds (x : float) :
  (5 <=? py_min 8 (py_max 5 x))%float = true
  /\ (py_min 8 (py_max 5 x) <=? 8)%float = true.
Proof.
  assert (Hlow : (5 <=? py_max 5 x)%float = true).
  { unfold py_max. destruct (5 <? x)%float eqn:H;
      [now apply ltb_leb | reflexivity]. }
  unfold py_min. destruct (py_max 5 x <? 8)%float eqn:H.
  - split; [exact Hlow | now apply ltb_leb].
  - split; reflexivity.
Qed.

(** X11. The calibration is fixed for the run. The scale is
    [min(8, max(5, width * 0.6 / 7))], which lies between 5 and 8 pixels
    per metre for every frame width; the zone spans the width of the
    frame between 40% and 70% of its height; the limit is 80 and the
    maximum age 30. A run ends with the settings it started with. *)
Theorem calibration_is_fixed `{E : Externals} (v : video) (rs : run_state) :
  process_video v = Ok rs ->
  (exists zone_top zone_bottom,
     py_int (Z2float (height v) * 0.4)%float = Ok zone_top
     /\ py_int (Z2float (height v) * 0.7)%float = Ok zone_bottom
     /\ speed_detection_zone (detector rs)
        = Some (0, zone_top, width v, zone_bottom))
  /\ pixels_per_meter (detector rs)
     = py_min 8 (py_max 5 (Z2float (width v) * 0.6 / (Z2float 2 * 3.5)))%float
  /\ (5 <=? pixels_per_meter (detector rs))%float = true
  /\ (pixels_per_meter (detector rs) <=? 8)%float = true
  /\ speed_limit (detector rs) = 80
  /\ track_max_age (detector rs) = 30.
Proof.
  intros Hrun. apply process_video_invariant in Hrun as (st0 & Hcal & Hinv).
  destruct Hinv as (Hset & _).
  apply settings_eq in Hset as (Hage & Hlimit & Hppm & Hzone).
  apply calibrate_state in Hcal as (zone_top & zone_bottom & Htop & Hbottom
                                    & Hst0).
  rewrite Hage, Hlimit, Hppm, Hzone, Hst0. simpl.
  split; [now exists zone_top, zone_bottom|]. split; [reflexivity|].
  destruct (clamp_bounds (Z2float (width v) * 0.6 / (Z2float 2 * 3.5))%float).
  auto.
Qed.

Lemma calibration_is_fixed_witness :
  exists rs,
    process_video (E := silent_engine) five_frames = Ok rs
    /\ speed_detection_zone (detector rs) = Some (0, 192, 640, 336)
    /\ pixels_per_meter (detector rs) = 8%float.
Proof.
  destruct (process_video (E := silent_engine) five_frames) as [rs|e] eqn:Hrun;
    [|vm_compute in Hrun; discriminate].
  destruct (calibration_is_fixed (E := silent_engine) five_frames rs Hrun)
    as ((zone_top & zone_bottom & Htop & Hbottom & Hzone) & Hppm & _).
  exists rs. split; [reflexivity|]. split.
  - rewrite Hzone. vm_compute in Htop, Hbottom.
    injection Htop as <-. injection Hbottom as <-. reflexivity.
  - rewrite Hppm. vm_compute. reflexivity.
Defined.

(** X12. Every record of a run was written for a speed above zero; it
    holds that speed rounded to two places, and its overspeed flag says
    whether the speed as computed, before the rounding, is strictly
    above 80. *)
Theorem overspeed_flag_of_every_record `{E : Externals} (v : video)
  (rs : run_state) :
  process_video v = Ok rs ->
  Forall (fun r => exists speed,
            (0 <? speed)%float = true
            /\ r_speed r = py_round speed 2
            /\ r_is_overspeed r = (80 <? speed)%float)
    (detection_data rs).
Proof.
  intros Hrun. apply process_video_invariant in Hrun as (st0 & Hcal & Hinv).
  destruct Hinv as (_ & _ & Hfrom & _).
  apply calibrate_state in Hcal as (zone_top & zone_bottom & _ & _ & Hst0).
  eapply Forall_impl; [|exact Hfrom]. simpl.
  intros r (fr & d & _ & _ & _ & _ & _ & _ & _ & _ & speed & Hpos & Hsp & Hov).
  exists speed. split; [exact Hpos|]. split; [exact Hsp|].
  rewrite Hov, Hst0. reflexivity.
Qed.

Lemma overspeed_flag_of_every_record_witness :
  exists rs,
    process_video (E := silent_engine) five_frames = Ok rs
    /\ List.length (detection_data rs) = 3%nat
    /\ Forall (fun r => exists speed,
                 (0 <? speed)%float = true
                 /\ r_speed r = speed
                 /\ r_is_overspeed r = (80 <? speed)%float)
         (detection_data rs).
Proof.
  destruct (process_video (E := silent_engine) five_frames) as [rs|e] eqn:Hrun;
    [|vm_compute in Hrun; discriminate].
  pose proof (overspeed_flag_of_every_record (E := silent_engine) five_frames
                rs Hrun) as Hall.
  exists rs. split; [reflexivity|]. split; [|exact Hall].
  vm_compute in Hrun. injection Hrun as <-. reflexivity.
Defined.

Lemma vehicle_class_named (class_id : Z) :
  In class_id vehicle_classes ->
  In (get_class_name class_id)
    ["car"%string; "motorcycle"%string; "bus"%string; "truck"%string].
Proof.
  unfold vehicle_classes. simpl.
  intros [<-|[<-|[<-|[<-|[]]]]]; simpl; auto.
Qed.

Lemma in_list_In (x : Z) (l : list Z) : in_list x l = true <-> In x l.
Proof.
  unfold in_list. rewrite existsb_exists. split.
  - intros (y & Hy & Heq). apply Z.eqb_eq in Heq. now subst.
  - intros H. exists x. split; [exact H | apply Z.eqb_refl].
Qed.

Lemma in_detections_of_boxes (boxes : list box) (d : detection) :
  In d (detections_of_boxes boxes) <->
  exists b,
    In b boxes /\ In (cls b) vehicle_classes /\ (0.5 <? conf b)%float = true
    /\ d = {| bbox := xyxy b;
              center := ((fst (fst (fst (xyxy b))) + snd (fst (xyxy b))) / 2,
                         (snd (fst (fst (xyxy b))) + snd (xyxy b)) / 2);
              confidence := conf b;
              class_id := cls b |}.
Proof.
  induction boxes as [|b rest IH].
  - simpl. split; [intros [] | intros (b & [] & _)].
  - assert (Hhead : detections_of_boxes (b :: rest)
                    = if in_list (cls b) vehicle_classes
                         && (0.5 <? conf b)%float
                      then {| bbox := xyxy b;
                              center :=
                                ((fst (fst (fst (xyxy b)))
                                  + snd (fst (xyxy b))) / 2,
                                 (snd (fst (fst (xyxy b)))
                                  + snd (xyxy b)) / 2);
                              confidence := conf b;
                              class_id := cls b |}
                           :: detections_of_boxes rest
                      else detections_of_boxes rest).
    { cbn [detections_of_boxes].
      destruct (in_list (cls b) vehicle_classes); [|reflexivity].
      destruct (xyxy b) as [[[x1 y1] x2] y2].
      destruct (0.5 <? conf b)%float; reflexivity. }
    rewrite Hhead. clear Hhead.
    destruct (in_list (cls b) vehicle_classes && (0.5 <? conf b)%float)
      eqn:Hkeep.
    + apply andb_prop in Hkeep as [Hcls Hconf]. apply in_list_In in Hcls.
      split.
      * intros [<-|Hin].
        -- exists b. split; [now left|]. auto.
        -- apply IH in Hin as (b' & Hin & H).
           exists b'. split; [now right | exact H].
      * intros (b' & [<-|Hin] & Hc & Hf & ->); [now left|].
        right. apply IH. exists b'. auto.
    + split.
      * intros Hin. apply IH in Hin as (b' & Hin & H).
        exists b'. split; [now right | exact H].
      * intros (b' & [<-|Hin] & Hc & Hf & ->).
        -- apply in_list_In in Hc. rewrite Hc, Hf in Hkeep. discriminate.
        -- apply IH. exists b'. auto.
Qed.

Lemma in_collect_detections (rs : list (option (list box))) (d : detection) :
  In d (collect_detections rs) <->
  exists boxes, In (Some boxes) rs /\ In d (detections_of_boxes boxes).
Proof.
  induction rs as [|[boxes|] rest IH]; cbn [collect_detections].
  - split; [intros [] | intros (b & [] & _)].
  - rewrite in_app_iff. split.
    + intros [Hd|Hd].
      * exists boxes. split; [now left | exact Hd].
      * apply IH in Hd as (boxes' & Hin & Hd).
        exists boxes'. split; [now right | exact Hd].
    + intros (boxes' & [Heq|Hin] & Hd).
      * injection Heq as <-. now left.
      * right. apply IH. now exists boxes'.
  - split.
    + intros Hd. apply IH in Hd as (boxes' & Hin & Hd).
      exists boxes'. split; [now right | exact Hd].
    + intros (boxes' & [Heq|Hin] & Hd); [discriminate|].
      apply IH. now exists boxes'.
Qed.

(** X13. Every record of a run describes a detection of the frame that
    its frame number names: the frame number counts the frames from 1,
    the box, the rounded confidence and the class name are those of one
    of that frame's detections, the class name is one of the four
    vehicle names, never ['unknown'], and the timestamp is the frame
    number divided by the frame rate. *)
Theorem every_record_describes_a_detection `{E : Externals} (v : video)
  (rs : run_state) :
  process_video v = Ok rs ->
  Forall (fun r => exists fr d,
            1 <= r_frame_number r <= Z.of_nat (List.length (frames v))
            /\ nth_error (frames v) (Z.to_nat (r_frame_number r - 1))
               = Some fr
            /\ In d (collect_detections (results fr))
            /\ (r_x1 r, r_y1 r, r_x2 r, r_y2 r) = bbox d
            /\ r_confidence r = py_round (confidence d) 2
            /\ r_vehicle_class r = get_class_name (class_id d)
            /\ In (r_vehicle_class r)
                 ["car"%string; "motorcycle"%string; "bus"%string;
                  "truck"%string]
            /\ r_timestamp r
               = (Z2float (r_frame_number r) / Z2float (fps v))%float)
    (detection_data rs).
Proof.
  intros Hrun. apply process_video_invariant in Hrun as (st0 & _ & Hinv).
  destruct Hinv as (_ & _ & Hfrom & _).
  eapply Forall_impl; [|exact Hfrom]. simpl.
  intros r (fr & d & Hone & Hnth & Hin & _ & Hbox & Hconf & Hcls & Hts & _).
  exists fr, d. split; [|split; [exact Hnth|]].
  - split; [exact Hone|].
    assert (Hlt : (Z.to_nat (r_frame_number r - 1)
                   < List.length (frames v))%nat)
      by (apply nth_error_Some; congruence).
    lia.
  - split; [exact Hin|]. split; [exact Hbox|]. split; [exact Hconf|].
    split; [exact Hcls|]. split; [|exact Hts].
    rewrite Hcls. apply vehicle_class_named.
    apply in_collect_detections in Hin as (boxes & _ & Hin).
    apply in_detections_of_boxes in Hin as (b & _ & Hc & _ & ->). exact Hc.
Qed.

Lemma every_record_describes_a_detection_witness :
  exists rs,
    process_video (E := silent_engine) five_frames = Ok rs
    /\ List.length (detection_data rs) = 3%nat
    /\ Forall (fun r => 1 <= r_frame_number r <= 5
                        /\ r_vehicle_class r = "car"%string)
         (detection_data rs).
Proof.
  destruct (process_video (E := silent_engine) five_frames) as [rs|e] eqn:Hrun;
    [|vm_compute in Hrun; discriminate].
  pose proof (every_record_describes_a_detection (E := silent_engine)
                five_frames rs Hrun) as Hall.
  exists rs. split; [reflexivity|]. split.
  - vm_compute in Hrun. injection Hrun as <-. reflexivity.
  - eapply Forall_impl; [|exact Hall]. simpl.
    intros r (fr & d & Hnum & Hnth & Hin & _ & _ & Hcls & _).
    split; [exact Hnum|]. rewrite Hcls.
    assert (Hfr : In fr (frames five_frames))
      by (eapply nth_error_In; exact Hnth).
    simpl in Hfr.
    destruct Hfr as [<-|[<-|[<-|[<-|[<-|[]]]]]];
      simpl in Hin; destruct Hin as [<-|[]]; reflexivity.
Defined.

(** X14. The records of a run are in the order of the frames: their
    frame numbers never decrease. There are at most as many records as
    detections, and the run counts every frame it read. *)
Theorem records_follow_the_frames `{E : Externals} (v : video)
  (rs : run_state) :
  process_video v = Ok rs ->
  nondecreasing (map r_frame_number (detection_data rs))
  /\ (List.length (detection_data rs)
      <= List.length (all_detections (frames v)))%nat
  /\ frame_count rs = Z.of_nat (List.length (frames v)).
Proof.
  intros Hrun. apply process_video_invariant in Hrun as (st0 & _ & Hinv).
  destruct Hinv as (_ & Hcount & _ & Hord & _ & Hlen & _). auto.
Qed.

Lemma records_follow_the_frames_witness :
  exists rs,
    process_video (E := silent_engine) five_frames = Ok rs
    /\ map r_frame_number (detection_data rs) = [3; 4; 5]
    /\ nondecreasing (map r_frame_number (detection_data rs))
    /\ frame_count rs = 5.
Proof.
  destruct (process_video (E := silent_engine) five_frames) as [rs|e] eqn:Hrun;
    [|vm_compute in Hrun; discriminate].
  destruct (records_follow_the_frames (E := silent_engine) five_frames rs
              Hrun) as (Hord & _ & Hcount).
  exists rs. split; [reflexivity|]. split; [|split; [exact Hord|exact Hcount]].
  vm_compute in Hrun. injection Hrun as <-. reflexivity.
Defined.

(** ** What is written and reported for each frame *)

Lemma process_detections_drawn `{E : Externals} (frame : ndarray)
  (frame_count fps : Z) (ds : list detection)
  (st st' : VehicleSpeedDetector)
  (data data' : list DetectionRecord) (canvas canvas' : list draw_op) :
  process_detections frame frame_count fps (st, data, canvas) ds
  = Ok (st', data', canvas') ->
  List.length (drawn_ids canvas')
  = (List.length (drawn_ids canvas) + List.length ds)%nat.
Proof.
  revert st data canvas.
  induction ds as [|d rest IH]; intros st data canvas Hrun.
  - simpl in Hrun. injection Hrun as <- <- <-. simpl. lia.
  - change (process_detections frame frame_count fps (st, data, canvas)
              (d :: rest))
      with (acc1 <- process_detection frame frame_count fps
                      (st, data, canvas) d ;;
            process_detections frame frame_count fps acc1 rest) in Hrun.
    apply bind_ok in Hrun.
    destruct Hrun as ([[st1 data1] canvas1] & Hd & Hrun).
    apply IH in Hrun. rewrite Hrun.
    apply process_detection_steps in Hd
      as (vehicle_id & _ & speed & _ & plate & plate_bbox & zone & _
          & _ & _ & _ & _ & _ & _ & ->).
    rewrite drawn_ids_app, drawn_ids_overlay, length_app. simpl. lia.
Qed.

(** X15. For every frame read the run writes one frame and reports one
    progress value, in the order of the frames: the [k]-th progress
    value is [k / total_frames * 100], and the [k]-th frame written
    carries one identity label per detection of the [k]-th frame,
    followed by the zone lines and the frame information. *)
Theorem one_frame_written_per_frame_read `{E : Externals} (v : video)
  (rs : run_state) :
  process_video v = Ok rs ->
  Forall2 (written_for (total_frames v)) (written rs) (frames v)
  /\ progress rs
     = map (fun k => (Z2float (Z.of_nat k) / Z2float (total_frames v)
                      * 100)%float)
         (seq 1 (List.length (frames v))).
Proof.
  intros Hrun.
  apply process_video_invariant in Hrun as Hinv.
  destruct Hinv as (st0' & _ & _ & _ & _ & _ & _ & _ & _ & Hprog).
  split; [|exact Hprog].
  apply process_video_start in Hrun as (st0 & _ & Hrun).
  apply (process_frames_ind (fps v) (total_frames v)
           (fun done rs =>
              Forall2 (written_for (total_frames v)) (written rs) done))
    with (done := []) in Hrun; [exact Hrun| |constructor].
  clear. intros done fr rs rs' Hdone Hfr.
  apply process_frame_steps in Hfr
    as (_ & st1 & data1 & canvas & zone & Hds & _ & ->).
  simpl. apply Forall2_app; [exact Hdone|]. constructor; [|constructor].
  exists canvas, zone, (frame_count rs + 1). split; [reflexivity|].
  apply process_detections_drawn in Hds. rewrite Hds. reflexivity.
Qed.

Lemma one_frame_written_per_frame_read_witness :
  exists rs,
    process_video (E := silent_engine) five_frames = Ok rs
    /\ List.length (written rs) = 5%nat
    /\ progress rs = [20; 40; 60; 80; 100]%float.
Proof.
  destruct (process_video (E := silent_engine) five_frames) as [rs|e] eqn:Hrun;
    [|vm_compute in Hrun; discriminate].
  destruct (one_frame_written_per_frame_read (E := silent_engine) five_frames
              rs Hrun) as (Hwritten & Hprog).
  exists rs. split; [reflexivity|]. split.
  - apply Forall2_length in Hwritten. exact Hwritten.
  - rewrite Hprog. vm_compute. reflexivity.
Defined.

(** ** What the detector's answer becomes *)

(** X16. A detection that the frame loop keeps is a box of one of the
    classes 2, 3, 5 and 7 with a confidence strictly above 0.5; its class
    has a name other than ['unknown']; and its centre is the midpoint of
    the box, rounded down, which lies inside the box whenever the box is
    not inverted. *)
Theorem detections_are_confident_vehicles
  (answer : list (option (list box))) (d : detection) :
  In d (collect_detections answer) ->
  (exists boxes b,
     In (Some boxes) answer /\ In b boxes
     /\ bbox d = xyxy b /\ confidence d = conf b /\ class_id d = cls b)
  /\ In (class_id d) vehicle_classes
  /\ (0.5 <? confidence d)%float = true
  /\ get_class_name (class_id d) <> "unknown"%string
  /\ let '(x1, y1, x2, y2) := bbox d in
     center d = ((x1 + x2) / 2, (y1 + y2) / 2)
     /\ (x1 <= x2 -> x1 <= fst (center d) <= x2)
     /\ (y1 <= y2 -> y1 <= snd (center d) <= y2).
Proof.
  intros Hin. apply in_collect_detections in Hin as (boxes & Hboxes & Hin).
  apply in_detections_of_boxes in Hin as (b & Hb & Hcls & Hconf & ->).
  simpl. split; [exists boxes, b; auto|]. split; [exact Hcls|].
  split; [exact Hconf|]. split.
  - apply vehicle_class_named in Hcls. simpl in Hcls.
    destruct Hcls as [H|[H|[H|[H|[]]]]]; rewrite <- H; discriminate.
  - destruct (xyxy b) as [[[x1 y1] x2] y2]. simpl.
    split; [reflexivity|].
    split; intros Hle; split;
      first [apply Z.div_le_lower_bound; lia
            | apply Z.div_le_upper_bound; lia].
Qed.

Lemma detections_are_confident_vehicles_witness :
  collect_detections mixed_answer = [seen_at 100 100]
  /\ In (class_id (seen_at 100 100)) vehicle_classes
  /\ (0.5 <? confidence (seen_at 100 100))%float = true.
Proof.
  assert (Hall : collect_detections mixed_answer = [seen_at 100 100])
    by reflexivity.
  split; [exact Hall|].
  destruct (detections_are_confident_vehicles mixed_answer (seen_at 100 100))
    as (_ & Hcls & Hconf & _); [rewrite Hall; now left|].
  split; assumption.
Defined.

(** ** Videos that report no frame count or no frame rate *)

(** X17. A video whose reported frame count is zero stops the run with
    [ZeroDivisionError] on the first frame that is read, before anything
    is detected or written; when no frame can be read the run returns
    with nothing. *)
Theorem zero_frame_count_stops_the_run `{E : Externals} (v : video)
  (st0 : VehicleSpeedDetector) :
  total_frames v = 0 -> calibrate v init = Ok st0 ->
  process_video v
  = match frames v with
    | [] => Ok (start_state st0)
    | _ :: _ => Raise ZeroDivisionError
    end.
Proof.
  intros Htotal Hcal. unfold process_video, process_video_from.
  rewrite Hcal, Htotal. cbn [bind].
  destruct (frames v) as [|fr rest]; [reflexivity|].
  cbn [process_frames]. unfold process_frame.
  now rewrite int_truediv_zero.
Qed.

Lemma zero_frame_count_stops_the_run_witness :
  process_video (E := silent_engine) (uncounted [frame_of [car_at 100 100]])
  = Raise ZeroDivisionError
  /\ exists rs,
       process_video (E := silent_engine) (uncounted []) = Ok rs
       /\ frame_count rs = 0.
Proof.
  destruct (calibrate (uncounted [frame_of [car_at 100 100]]) init)
    as [st0|e] eqn:Hcal; [|vm_compute in Hcal; discriminate].
  split.
  - exact (zero_frame_count_stops_the_run (E := silent_engine)
             (uncounted [frame_of [car_at 100 100]]) st0 eq_refl Hcal).
  - exists (start_state st0). split; [|reflexivity].
    exact (zero_frame_count_stops_the_run (E := silent_engine)
             (uncounted []) st0 eq_refl Hcal).
Defined.

Lemma process_frame_quiet `{E : Externals} (fps total_frames : Z)
  (rs : run_state) (fr : frame_in) :
  total_frames <> 0 -> ready (detector rs) ->
  collect_detections (results fr) = [] ->
  exists rs',
    process_frame fps total_frames rs fr = Ok rs'
    /\ detector rs' = age_tracks (frame_count rs + 1) (detector rs)
    /\ detection_data rs' = detection_data rs
    /\ frame_count rs' = frame_count rs + 1.
Proof.
  intros Htotal Hready Hnone. unfold process_frame.
  rewrite int_truediv_ok by assumption. rewrite Hnone. simpl.
  destruct (age_tracks_ready (frame_count rs + 1) _ Hready)
    as [_ [[[[zx1 zy1] zx2] zy2] Hzone]].
  rewrite Hzone. simpl. eexists. split; [reflexivity|]. simpl. auto.
Qed.

Lemma process_frames_unpaced `{E : Externals} (total_frames : Z)
  (frs : list frame_in) (rs : run_state) :
  total_frames <> 0 -> ready (detector rs) ->
  all_detections frs <> [] ->
  process_frames 0 total_frames rs frs = Raise ZeroDivisionError.
Proof.
  intros Htotal. revert rs.
  induction frs as [|fr rest IH]; intros rs Hready Hsome;
    [now elim Hsome|].
  simpl. destruct (collect_detections (results fr)) as [|d ds] eqn:Hds.
  - destruct (process_frame_quiet 0 total_frames rs fr Htotal Hready Hds)
      as (rs' & -> & Hdet & _). simpl. apply IH.
    + rewrite Hdet. now apply age_tracks_ready.
    + unfold all_detections in Hsome. simpl in Hsome.
      now rewrite Hds in Hsome.
  - unfold process_frame. rewrite int_truediv_ok by assumption.
    rewrite Hds. simpl.
    change (process_detections (image fr) (frame_count rs + 1) 0
              (age_tracks (frame_count rs + 1) (detector rs),
               detection_data rs, []) (d :: ds))
      with (acc1 <- process_detection (image fr) (frame_count rs + 1) 0
                      (age_tracks (frame_count rs + 1) (detector rs),
                       detection_data rs, []) d ;;
            process_detections (image fr) (frame_count rs + 1) 0 acc1 ds).
    unfold process_detection. destruct (center d) as [center_x center_y].
    destruct (assign_vehicle_id_total center_x center_y (frame_count rs + 1)
                _ (age_tracks_ready (frame_count rs + 1) _ Hready))
      as (vehicle_id & st1 & -> & _).
    reflexivity.
Qed.

(** X18. A video whose reported frame rate is zero stops the run with
    [ZeroDivisionError] at the first detection: the frames before it are
    read and written, and the timestamp of the first sample divides by
    the frame rate. *)
Theorem zero_frame_rate_stops_at_first_detection `{E : Externals} (v : video)
  (st0 : VehicleSpeedDetector) :
  fps v = 0 -> total_frames v <> 0 -> calibrate v init = Ok st0 ->
  all_detections (frames v) <> [] ->
  process_video v = Raise ZeroDivisionError.
Proof.
  intros Hfps Htotal Hcal Hsome. unfold process_video, process_video_from.
  rewrite Hcal, Hfps. simpl.
  apply process_frames_unpaced; [exact Htotal| |exact Hsome].
  apply calibrate_state in Hcal as (zone_top & zone_bottom & _ & _ & ->).
  split; [constructor | eexists; reflexivity].
Qed.

Lemma zero_frame_rate_stops_at_first_detection_witness :
  process_video (E := silent_engine)
    (unpaced [frame_of []; frame_of [car_at 100 100]])
  = Raise ZeroDivisionError.
Proof.
  destruct (calibrate (unpaced [frame_of []; frame_of [car_at 100 100]]) init)
    as [st0|e] eqn:Hcal; [|vm_compute in Hcal; discriminate].
  apply (zero_frame_rate_stops_at_first_detection (E := silent_engine)
           (unpaced [frame_of []; frame_of [car_at 100 100]]) st0);
    [reflexivity | discriminate | exact Hcal | discriminate].
Defined.

Lemma process_frames_quiet `{E : Externals} (fps total_frames : Z)
  (frs : list frame_in) (rs : run_state) :
  total_frames <> 0 -> ready (detector rs) ->
  track_last_seen (detector rs) = [] ->
  all_detections frs = [] ->
  exists rs',
    process_frames fps total_frames rs frs = Ok rs'
    /\ detector rs' = detector rs
    /\ detection_data rs' = detection_data rs
    /\ frame_count rs' = frame_count rs + Z.of_nat (List.length frs).
Proof.
  intros Htotal. revert rs.
  induction frs as [|fr rest IH]; intros rs Hready Hseen Hnone.
  - exists rs. simpl. repeat split; auto. lia.
  - unfold all_detections in Hnone. simpl in Hnone.
    apply app_eq_nil in Hnone as [Hfr Hrest].
    destruct (process_frame_quiet fps total_frames rs fr Htotal Hready Hfr)
      as (rs1 & Hrun & Hdet & Hdata & Hcount).
    assert (Hsame : detector rs1 = detector rs).
    { rewrite Hdet. unfold age_tracks. now rewrite Hseen. }
    destruct (IH rs1) as (rs' & Hrun' & Hdet' & Hdata' & Hcount').
    + now rewrite Hsame.
    + now rewrite Hsame.
    + exact Hrest.
    + exists rs'. simpl. rewrite Hrun. simpl.
      split; [exact Hrun'|]. split; [congruence|]. split; [congruence|].
      cbn [List.length]. lia.
Qed.

(** X19. A video in which the detector finds no vehicle is read to the
    end, whatever its frame rate: no record is written, no identity is
    handed out and the detector is left as the calibration set it. *)
Theorem run_without_detections `{E : Externals} (v : video)
  (st0 : VehicleSpeedDetector) :
  total_frames v <> 0 -> calibrate v init = Ok st0 ->
  all_detections (frames v) = [] ->
  exists rs,
    process_video v = Ok rs
    /\ detector rs = st0
    /\ next_vehicle_id (detector rs) = 1
    /\ detection_data rs = []
    /\ frame_count rs = Z.of_nat (List.length (frames v)).
Proof.
  intros Htotal Hcal Hnone. unfold process_video, process_video_from.
  rewrite Hcal. simpl.
  apply calibrate_state in Hcal as (zone_top & zone_bottom & _ & _ & Hst0).
  destruct (process_frames_quiet (fps v) (total_frames v) (frames v)
              {| detector := st0; frame_count := 0; detection_data := [];
                 written := []; progress := [] |})
    as (rs & Hrun & Hdet & Hdata & Hcount); try assumption.
  - rewrite Hst0. split; [constructor | eexists; reflexivity].
  - rewrite Hst0. reflexivity.
  - exists rs. split; [exact Hrun|]. split; [exact Hdet|].
    split; [rewrite Hdet, Hst0; reflexivity|]. split; [exact Hdata|].
    exact Hcount.
Qed.

Lemma run_without_detections_witness :
  exists rs,
    process_video (E := silent_engine) (unpaced [frame_of []; frame_of []])
    = Ok rs
    /\ detection_data rs = []
    /\ frame_count rs = 2.
Proof.
  destruct (calibrate (unpaced [frame_of []; frame_of []]) init)
    as [st0|e] eqn:Hcal; [|vm_compute in Hcal; discriminate].
  destruct (run_without_detections (E := silent_engine)
              (unpaced [frame_of []; frame_of []]) st0)
    as (rs & Hrun & _ & _ & Hdata & Hcount);
    [discriminate | exact Hcal | reflexivity |].
  exists rs. split; [exact Hrun|]. split; [exact Hdata | exact Hcount].
Defined.

(** ** Histories stay short *)

Lemma in_set_inv {V : Type} (k k0 : Z) (v v0 : V) (d : PyDict.t V) :
  In (k, v) (PyDict.set k0 v0 d) -> (k = k0 /\ v = v0) \/ In (k, v) d.
Proof.
  induction d as [|[k' v'] r IH]; simpl.
  - intros [[= <- <-]|[]]. now left.
  - destruct (k0 =? k').
    + intros [[= <- <-]|H]; [now left | right; now right].
    + intros [H|H]; [right; now left|].
      destruct (IH H) as [Heq|Hin]; [now left | right; now right].
Qed.

Lemma get_In {V : Type} (k : Z) (v : V) (d : PyDict.t V) :
  PyDict.get k d = Some v -> In (k, v) d.
Proof.
  induction d as [|[k' v'] r IH]; simpl; [discriminate|].
  destruct (Z.eqb_spec k k') as [->|Hne].
  - intros [= ->]. now left.
  - intros H. right. now apply IH.
Qed.

Lemma update_last_length {A : Type} (f : A -> A) (l : list A) :
  List.length (update_last f l) = List.length l.
Proof.
  induction l as [|x [|y r] IH]; simpl in *; auto.
Qed.

Lemma process_detection_bounded `{E : Externals} (frame : ndarray)
  (frame_count fps : Z) (st st' : VehicleSpeedDetector)
  (data data' : list DetectionRecord) (canvas canvas' : list draw_op)
  (d : detection) :
  tracks_bounded st ->
  process_detection frame frame_count fps (st, data, canvas) d
  = Ok (st', data', canvas') ->
  tracks_bounded st'.
Proof.
  intros Hst H. apply process_detection_steps in H
    as (vehicle_id & st1 & speed & st2 & plate & plate_bbox & zone & records
        & Hassign & Hspeed & Hplate & _).
  apply assign_vehicle_id_state in Hassign.
  assert (Hst1 : tracks_bounded st1).
  { unfold tracks_bounded. rewrite Hassign. exact Hst. }
  pose proof (calculate_speed_fps _ _ _ _ _ _ _ Hspeed) as Hfps.
  apply calculate_speed_tracks in Hspeed; [|exact Hfps].
  assert (Hst2 : tracks_bounded st2).
  { unfold tracks_bounded. rewrite Hspeed. intros k h Hin.
    apply in_set_inv in Hin as [[_ ->]|Hin]; [|now apply (Hst1 k)].
    split; [|apply appended_track_length].
    rewrite appended_track_last_n, last_n_length, length_app.
    cbn [List.length]. lia. }
  apply plate_stage_tracks in Hplate
    as [Heq|(track & c & Hget & Heq)];
    unfold tracks_bounded; rewrite Heq; [exact Hst2|].
  intros k h Hin.
  apply in_set_inv in Hin as [[_ ->]|Hin]; [|now apply (Hst2 k)].
  rewrite update_last_length. apply (Hst2 vehicle_id). now apply get_In.
Qed.

(** X20. Histories stay short: at the end of a run every history held by
    the detector has at least one and at most fifteen entries. *)
Theorem histories_stay_short `{E : Externals} (v : video) (rs : run_state) :
  process_video v = Ok rs ->
  forall vehicle_id history,
    PyDict.get vehicle_id (vehicle_tracks (detector rs)) = Some history ->
    (1 <= List.length history <= 15)%nat.
Proof.
  intros Hrun vehicle_id history Hget.
  apply process_video_start in Hrun as (st0 & Hcal & Hrun).
  apply calibrate_state in Hcal as (zone_top & zone_bottom & _ & _ & Hst0).
  apply (process_frames_ind (fps v) (total_frames v)
           (fun _ rs => tracks_bounded (detector rs)))
    with (done := []) in Hrun.
  - apply (Hrun vehicle_id). now apply get_In.
  - clear. intros done fr rs rs' Hrs Hfr.
    apply process_frame_steps in Hfr
      as (_ & st1 & data1 & canvas & zone & Hds & _ & ->).
    simpl.
    apply (process_detections_ind (image fr) (frame_count rs + 1) (fps v)
             (fun acc => tracks_bounded (fst (fst acc)))
             (collect_detections (results fr)))
      in Hds; [exact Hds| |].
    + intros [[st data] cv] d [[st' data'] cv'] _ Hacc Hd. simpl in *.
      exact (process_detection_bounded _ _ _ _ _ _ _ _ _ _ Hacc Hd).
    + simpl. unfold tracks_bounded. rewrite age_tracks_vehicle_tracks.
      exact Hrs.
  - rewrite Hst0. intros k h [].
Qed.

Lemma histories_stay_short_witness :
  exists rs history,
    process_video (E := silent_engine) five_frames = Ok rs
    /\ PyDict.get 1 (vehicle_tracks (detector rs)) = Some history
    /\ (1 <= List.length history <= 15)%nat.
Proof.
  destruct (process_video (E := silent_engine) five_frames) as [rs|e] eqn:Hrun;
    [|vm_compute in Hrun; discriminate].
  destruct (PyDict.get 1 (vehicle_tracks (detector rs))) as [history|]
    eqn:Hget.
  2:{ vm_compute in Hrun. injection Hrun as <-. vm_compute in Hget.
      discriminate. }
  exists rs, history. split; [reflexivity|]. split; [exact Hget|].
  exact (histories_stay_short (E := silent_engine) five_frames rs Hrun 1
           history Hget).
Defined.

(** ** The identity resolver revives the nearest dormant track *)

Lemma SFltb_asym (x y : spec_float) :
  SFltb x y = true -> SFltb y x = false.
Proof.
  unfold SFltb.
  destruct x as [[]|[]| |[] mx ex], y as [[]|[]| |[] my ey];
    simpl; try congruence; intros H1;
    order_cases; simpl in *; try congruence; try lia.
Qed.

Lemma ltb_asym (x y : float) :
  (x <? y)%float = true -> (y <? x)%float = false.
Proof. rewrite !FloatAxioms.ltb_spec. apply SFltb_asym. Qed.

Lemma ltb_irrefl (x : float) : (x <? x)%float = false.
Proof.
  destruct (x <? x)%float eqn:H; [|reflexivity].
  apply ltb_asym in H as H'. congruence.
Qed.

(** What the loop over the dormant tracks leaves in [min_distance] and
    [assigned_id], when the identifiers it visits are distinct. *)
Lemma scan_inactive_nearest (current_pos : point) (frame_number : Z)
  (max_distance : float) (ids : list Z)
  (min_distance : float) (assigned_id : option Z)
  (st st' : VehicleSpeedDetector) (m' : float) (a' : option Z) :
  NoDup ids ->
  scan_inactive current_pos frame_number max_distance ids min_distance
    assigned_id st = Ok (m', a', st') ->
  (m' = min_distance /\ a' = assigned_id
   /\ forall k q,
        In k ids -> PyDict.get k (inactive_tracks st) = Some q ->
        (calculate_distance current_pos q <? max_distance)%float = true ->
        (calculate_distance current_pos q <? min_distance)%float = false)
  \/ exists pre v post q,
       ids = pre ++ v :: post
       /\ a' = Some v
       /\ PyDict.get v (inactive_tracks st) = Some q
       /\ m' = calculate_distance current_pos q
       /\ (m' <? max_distance)%float = true
       /\ (m' <? min_distance)%float = true
       /\ (forall k q',
             In k pre -> PyDict.get k (inactive_tracks st) = Some q' ->
             (calculate_distance current_pos q' <? max_distance)%float = true ->
             (m' <? calculate_distance current_pos q')%float = true)
       /\ (forall k q',
             In k post -> PyDict.get k (inactive_tracks st) = Some q' ->
             (calculate_distance current_pos q' <? max_distance)%float = true ->
             (calculate_distance current_pos q' <? m')%float = false).
Proof.
  revert min_distance assigned_id st.
  induction ids as [|v0 rest IH]; intros m a st Hnd Hrun.
  - simpl in Hrun. injection Hrun as <- <- <-. left.
    split; [reflexivity|]. split; [reflexivity|]. intros k q [].
  - inversion Hnd as [|? ? Hnotin Hrest]; subst.
    simpl in Hrun. apply bind_ok in Hrun. destruct Hrun as (q0 & Hq0 & Hrun).
    unfold PyDict.lookup in Hq0.
    destruct (PyDict.get v0 (inactive_tracks st)) as [q0'|] eqn:Hget0;
      [|discriminate].
    injection Hq0 as ->.
    set (d0 := calculate_distance current_pos q0) in *.
    destruct ((d0 <? max_distance)%float && (d0 <? m)%float) eqn:Hcond.
    + apply andb_prop in Hcond as [Hgate Hmin].
      apply IH in Hrun; [|exact Hrest].
      assert (Hsame : forall k, In k rest ->
                PyDict.get k
                  (inactive_tracks
                     (with_inactive_tracks
                        (PyDict.del v0
                           (inactive_tracks
                              (with_track_last_seen
                                 (PyDict.set v0 frame_number
                                    (track_last_seen st)) st)))
                        (with_track_last_seen
                           (PyDict.set v0 frame_number (track_last_seen st))
                           st)))
                = PyDict.get k (inactive_tracks st)).
      { intros k Hk. simpl. apply PyDictFacts.get_del_other.
        intros ->. contradiction. }
      right.
      destruct Hrun as [(-> & -> & Hall)
                       |(pre & v & post & q & -> & -> & Hq & -> & Hg & Hlt
                         & Hpre & Hpost)].
      * exists [], v0, rest, q0. split; [reflexivity|].
        split; [reflexivity|]. split; [exact Hget0|].
        split; [reflexivity|]. split; [exact Hgate|]. split; [exact Hmin|].
        split; [intros k q' []|].
        intros k q' Hk Hq' Hg'. apply (Hall k q' Hk); [|exact Hg'].
        now rewrite Hsame.
      * assert (Hv : In v (pre ++ v :: post))
          by (apply in_or_app; right; now left).
        exists (v0 :: pre), v, post, q. split; [reflexivity|].
        split; [reflexivity|].
        split; [now rewrite <- (Hsame v Hv)|]. split; [reflexivity|].
        split; [exact Hg|]. split; [now apply ltb_trans with d0|].
        split.
        -- intros k q' [<-|Hk] Hq' Hg'.
           ++ rewrite Hget0 in Hq'. injection Hq' as <-. exact Hlt.
           ++ apply (Hpre k q' Hk); [|exact Hg'].
              rewrite Hsame; [exact Hq'|].
              apply in_or_app. now left.
        -- intros k q' Hk Hq' Hg'. apply (Hpost k q' Hk); [|exact Hg'].
           rewrite Hsame; [exact Hq'|].
           apply in_or_app. right. now right.
    + apply IH in Hrun; [|exact Hrest].
      destruct Hrun as [(-> & -> & Hall)
                       |(pre & v & post & q & -> & -> & Hq & -> & Hg & Hlt
                         & Hpre & Hpost)].
      * left. split; [reflexivity|]. split; [reflexivity|].
        intros k q' [<-|Hk] Hq' Hg'.
        -- rewrite Hget0 in Hq'. injection Hq' as <-. fold d0 in Hg'.
           rewrite Hg' in Hcond. exact Hcond.
        -- exact (Hall k q' Hk Hq' Hg').
      * right. exists (v0 :: pre), v, post, q. split; [reflexivity|].
        split; [reflexivity|]. split; [exact Hq|]. split; [reflexivity|].
        split; [exact Hg|]. split; [exact Hlt|]. split; [|exact Hpost].
        intros k q' [<-|Hk] Hq' Hg'.
        -- rewrite Hget0 in Hq'. injection Hq' as <-. fold d0 in Hg'.
           rewrite Hg' in Hcond. simpl in Hcond.
           exact (ltb_below_other _ _ _ _ Hlt Hg' Hcond).
        -- exact (Hpre k q' Hk Hq' Hg').
Qed.

(** The identity left in [assigned_id] is no longer dormant. *)
Lemma scan_inactive_removed (current_pos : point) (frame_number : Z)
  (max_distance : float) (ids : list Z)
  (min_distance : float) (assigned_id : option Z)
  (st st' : VehicleSpeedDetector) (m' : float) (a' : option Z) :
  scan_inactive current_pos frame_number max_distance ids min_distance
    assigned_id st = Ok (m', a', st') ->
  (forall v, assigned_id = Some v ->
             PyDict.get v (inactive_tracks st) = None) ->
  forall v, a' = Some v -> PyDict.get v (inactive_tracks st') = None.
Proof.
  revert min_distance assigned_id st.
  induction ids as [|v0 rest IH]; intros m a st Hrun Ha.
  - simpl in Hrun. injection Hrun as <- <- <-. exact Ha.
  - simpl in Hrun. apply bind_ok in Hrun. destruct Hrun as (q0 & _ & Hrun).
    destruct (_ && _).
    + apply (IH _ _ _ Hrun).
      intros v [= <-]. simpl. apply PyDictFacts.get_del_same.
    + apply (IH _ _ _ Hrun). exact Ha.
Qed.

Lemma scan_active_none (current_pos : point) (frame_number : Z)
  (max_distance : float) (st st1 : VehicleSpeedDetector) (m1 : float) :
  scan_active current_pos frame_number max_distance (vehicle_tracks st)
    PrimFloat.infinity None st = (m1, None, st1) ->
  m1 = PrimFloat.infinity
  /\ forall v p d,
       In (v, p) (vehicle_tracks st) ->
       ~ in_gate current_pos max_distance p d.
Proof.
  intros Hscan.
  pose proof (scan_active_nearest current_pos frame_number max_distance
                (vehicle_tracks st) PrimFloat.infinity None st) as Hnear.
  rewrite Hscan in Hnear.
  destruct Hnear as [(-> & _ & Hnone)|(pre & w & q & post & _ & [=] & _)].
  split; [reflexivity|]. intros v p d Hin Hgate.
  specialize (Hnone v p d Hin Hgate). destruct Hgate as [_ Hd].
  apply ltb_below_infinity in Hd. congruence.
Qed.

(** X21. When no active track ends inside the gate and some dormant
    track lies inside it, [assign_vehicle_id] returns the identity of
    the nearest dormant track: no dormant track inside the gate is
    strictly nearer. That identity is dormant no more, has the current
    frame as its last-seen index, and no identity is handed out. *)
Theorem nearest_dormant_track_is_revived (center_x center_y frame_number : Z)
  (st st' : VehicleSpeedDetector) (vehicle_id : Z) :
  NoDup (PyDict.keys (inactive_tracks st)) ->
  (forall v p d,
     In (v, p) (vehicle_tracks st) ->
     ~ in_gate (center_x, center_y) 50 p d) ->
  (exists k q,
     PyDict.get k (inactive_tracks st) = Some q
     /\ (calculate_distance (center_x, center_y) q <? 50)%float = true) ->
  assign_vehicle_id center_x center_y frame_number st = Ok (vehicle_id, st') ->
  exists q,
    PyDict.get vehicle_id (inactive_tracks st) = Some q
    /\ (calculate_distance (center_x, center_y) q <? 50)%float = true
    /\ (forall k q',
          PyDict.get k (inactive_tracks st) = Some q' ->
          (calculate_distance (center_x, center_y) q' <? 50)%float = true ->
          (calculate_distance (center_x, center_y) q'
           <? calculate_distance (center_x, center_y) q)%float = false)
    /\ PyDict.get vehicle_id (inactive_tracks st') = None
    /\ PyDict.get vehicle_id (track_last_seen st') = Some frame_number
    /\ next_vehicle_id st' = next_vehicle_id st.
Proof.
  intros Hnd Hfar (k0 & q0 & Hget0 & Hgate0) Hrun.
  pose proof (assign_vehicle_id_seen _ _ _ _ _ _ Hrun) as Hseen.
  apply assign_vehicle_id_cases in Hrun
    as (m1 & a1 & st1 & Hscan & Hcases).
  pose proof (scan_active_state (center_x, center_y) frame_number 50
                (vehicle_tracks st) PrimFloat.infinity None st) as Hstate.
  pose proof (scan_active_nearest (center_x, center_y) frame_number 50
                (vehicle_tracks st) PrimFloat.infinity None st) as Hnear.
  rewrite Hscan in Hstate, Hnear.
  assert (Hin1 : inactive_tracks st1 = inactive_tracks st)
    by (rewrite Hstate; reflexivity).
  assert (Hnext1 : next_vehicle_id st1 = next_vehicle_id st)
    by (rewrite Hstate; reflexivity).
  assert (Ha1 : a1 = None /\ m1 = PrimFloat.infinity).
  { destruct Hnear as [(-> & -> & _)
                      |(pre & w & p & post & Hitems & _ & Hp & _)];
      [auto|].
    exfalso. apply (Hfar w p m1); [|exact Hp].
    rewrite Hitems. apply in_or_app. right. now left. }
  destruct Ha1 as [-> ->].
  assert (Hdormant : forall m2 a2 st2,
            scan_inactive (center_x, center_y) frame_number 50
              (PyDict.keys (inactive_tracks st1)) PrimFloat.infinity None st1
            = Ok (m2, a2, st2) ->
            a2 = Some vehicle_id -> st' = st2 ->
            exists q,
              PyDict.get vehicle_id (inactive_tracks st) = Some q
              /\ (calculate_distance (center_x, center_y) q <? 50)%float = true
              /\ (forall k q',
                    PyDict.get k (inactive_tracks st) = Some q' ->
                    (calculate_distance (center_x, center_y) q' <? 50)%float
                    = true ->
                    (calculate_distance (center_x, center_y) q'
                     <? calculate_distance (center_x, center_y) q)%float
                    = false)
              /\ PyDict.get vehicle_id (inactive_tracks st') = None
              /\ PyDict.get vehicle_id (track_last_seen st')
                 = Some frame_number
              /\ next_vehicle_id st' = next_vehicle_id st).
  { intros m2 a2 st2 Hin -> ->.
    pose proof (scan_inactive_state _ _ _ _ _ _ _ _ _ _ Hin) as Hstate2.
    pose proof (scan_inactive_removed _ _ _ _ _ _ _ _ _ _ Hin) as Hgone.
    apply scan_inactive_nearest in Hin; [|now rewrite Hin1].
    rewrite Hin1 in Hin.
    destruct Hin as [(_ & [=] & _)
                    |(pre & v & post & q & Hids & [= <-] & Hq & -> & Hg & _
                      & Hpre & Hpost)].
    exists q. split; [exact Hq|]. split; [exact Hg|].
    split; [|split; [|split]].
    - intros k q' Hq' Hg'.
      assert (Hk : In k (pre ++ vehicle_id :: post)).
      { rewrite <- Hids. apply PyDictFacts.in_keys_get. eauto. }
      apply in_app_or in Hk as [Hk|[<-|Hk]].
      + apply ltb_asym. exact (Hpre k q' Hk Hq' Hg').
      + assert (q' = q) as -> by congruence. apply ltb_irrefl.
      + exact (Hpost k q' Hk Hq' Hg').
    - apply Hgone; [discriminate | reflexivity].
    - exact Hseen.
    - rewrite Hstate2. simpl. exact Hnext1. }
  destruct Hcases as [[[=] _]
                     |[[_ (m2 & st2 & Hin & Heq)]
                      |[_ (m2 & st2 & Hin & Hid & Heq)]]].
  - exact (Hdormant m2 (Some vehicle_id) st2 Hin eq_refl Heq).
  - exfalso. apply scan_inactive_nearest in Hin; [|now rewrite Hin1].
    rewrite Hin1 in Hin.
    destruct Hin as [(_ & _ & Hall)|(pre & v & post & q & _ & [=] & _)].
    assert (Hk : In k0 (PyDict.keys (inactive_tracks st)))
      by (apply PyDictFacts.in_keys_get; eauto).
    specialize (Hall k0 q0 Hk Hget0 Hgate0).
    apply ltb_below_infinity in Hgate0. congruence.
Qed.

Lemma nearest_dormant_track_is_revived_witness :
  exists st',
    assign_vehicle_id 145 100 40 two_dormant = Ok (2, st')
    /\ PyDict.get 2 (inactive_tracks st') = None
    /\ PyDict.get 1 (inactive_tracks two_dormant) = Some (100, 100)
    /\ (calculate_distance (145, 100)%Z (100, 100)%Z <? 50)%float = true.
Proof.
  destruct (assign_vehicle_id 145 100 40 two_dormant) as [[vid st']|e]
    eqn:Hrun; [|vm_compute in Hrun; discriminate].
  assert (Hvid : vid = 2) by (vm_compute in Hrun; congruence). subst vid.
  destruct (nearest_dormant_track_is_revived 145 100 40 two_dormant st' 2)
    as (q & _ & _ & _ & Hgone & _).
  - repeat constructor; simpl; intuition discriminate.
  - intros v p d [].
  - exists 1, (100, 100). split; reflexivity.
  - exact Hrun.
  - exists st'. split; [reflexivity|]. split; [exact Hgone|].
    split; reflexivity.
Defined.

(** X22. [assign_vehicle_id] hands out a new identity exactly when no
    active track ends inside the gate and no dormant track lies inside
    it; the new identity is the value of the counter. *)
Theorem new_identity_iff_nothing_near (center_x center_y frame_number : Z)
  (st st' : VehicleSpeedDetector) (vehicle_id : Z) :
  NoDup (PyDict.keys (inactive_tracks st)) ->
  assign_vehicle_id center_x center_y frame_number st = Ok (vehicle_id, st') ->
  (next_vehicle_id st' = next_vehicle_id st + 1
   <-> (forall v p d,
          In (v, p) (vehicle_tracks st) ->
          ~ in_gate (center_x, center_y) 50 p d)
       /\ (forall k q,
             PyDict.get k (inactive_tracks st) = Some q ->
             (calculate_distance (center_x, center_y) q <? 50)%float = false))
  /\ (next_vehicle_id st' = next_vehicle_id st + 1 ->
      vehicle_id = next_vehicle_id st).
Proof.
  intros Hnd Hrun.
  apply assign_vehicle_id_cases in Hrun
    as (m1 & a1 & st1 & Hscan & Hcases).
  pose proof (scan_active_state (center_x, center_y) frame_number 50
                (vehicle_tracks st) PrimFloat.infinity None st) as Hstate.
  pose proof (scan_active_nearest (center_x, center_y) frame_number 50
                (vehicle_tracks st) PrimFloat.infinity None st) as Hnear.
  rewrite Hscan in Hstate, Hnear.
  assert (Hin1 : inactive_tracks st1 = inactive_tracks st)
    by (rewrite Hstate; reflexivity).
  assert (Hnext1 : next_vehicle_id st1 = next_vehicle_id st)
    by (rewrite Hstate; reflexivity).
  destruct Hcases as [[Ha1 ->]
                     |[[Ha1 (m2 & st2 & Hin & ->)]
                      |[Ha1 (m2 & st2 & Hin & Hid & ->)]]].
  - split; [|lia]. split; [lia|]. intros [Hfar _]. exfalso.
    destruct Hnear as [(_ & Hnone & _)
                      |(pre & w & p & post & Hitems & _ & Hp & _)];
      [congruence|].
    apply (Hfar w p m1); [|exact Hp].
    rewrite Hitems. apply in_or_app. right. now left.
  - pose proof (scan_inactive_state _ _ _ _ _ _ _ _ _ _ Hin) as Hstate2.
    assert (Hnext2 : next_vehicle_id st2 = next_vehicle_id st)
      by (rewrite Hstate2; simpl; exact Hnext1).
    split; [|lia]. split; [lia|]. intros [_ Hfar]. exfalso.
    apply scan_inactive_nearest in Hin; [|now rewrite Hin1].
    rewrite Hin1 in Hin.
    destruct Hin as [(_ & [=] & _)
                    |(pre & v & post & q & _ & _ & Hq & -> & Hg & _)].
    rewrite (Hfar v q Hq) in Hg. discriminate.
  - pose proof (scan_inactive_state _ _ _ _ _ _ _ _ _ _ Hin) as Hstate2.
    assert (Hnext2 : next_vehicle_id st2 = next_vehicle_id st)
      by (rewrite Hstate2; simpl; exact Hnext1).
    split; [|intros _; congruence].
    split; [intros _|intros _; simpl; lia].
    subst a1. apply scan_active_none in Hscan as [-> Hfar].
    split; [exact Hfar|]. intros k q Hq.
    apply scan_inactive_nearest in Hin; [|now rewrite Hin1].
    rewrite Hin1 in Hin.
    destruct Hin as [(_ & _ & Hall)|(pre & v & post & q' & _ & [=] & _)].
    destruct (calculate_distance (center_x, center_y) q <? 50)%float eqn:Hg;
      [|reflexivity].
    assert (Hk : In k (PyDict.keys (inactive_tracks st)))
      by (apply PyDictFacts.in_keys_get; eauto).
    specialize (Hall k q Hk Hq Hg).
    apply ltb_below_infinity in Hg. congruence.
Qed.

Lemma new_identity_iff_nothing_near_witness :
  exists st',
    assign_vehicle_id 300 300 40 two_dormant = Ok (3, st')
    /\ next_vehicle_id st' = 4
    /\ (calculate_distance (300, 300)%Z (160, 100)%Z <? 50)%float = false.
Proof.
  destruct (assign_vehicle_id 300 300 40 two_dormant) as [[vid st']|e]
    eqn:Hrun; [|vm_compute in Hrun; discriminate].
  assert (Hnd : NoDup (PyDict.keys (inactive_tracks two_dormant)))
    by (repeat constructor; simpl; intuition discriminate).
  destruct (new_identity_iff_nothing_near 300 300 40 two_dormant st' vid
              Hnd Hrun) as [[Hto _] Hid].
  assert (Hnext : next_vehicle_id st' = 4)
    by (vm_compute in Hrun; injection Hrun as _ <-; reflexivity).
  assert (Hvid : vid = 3) by (apply Hid; rewrite Hnext; reflexivity).
  subst vid. exists st'. split; [reflexivity|]. split; [exact Hnext|].
  destruct Hto as [_ Hfar]; [rewrite Hnext; reflexivity|].
  apply (Hfar 2). reflexivity.
Defined.

(** ** The plate and its confidence in the record of the reading frame *)

Lemma first_confidence_last (plate : string) (box : option quad) (c : float)
  (track : list sample) (s : sample) :
  last_sample track = Some s ->
  first_confidence (Some plate)
    (rev (update_last (store_plate (Some plate) box c) track))
  = Some c.
Proof.
  intros Hlast. destruct (last_sample_inv _ _ Hlast) as (pre & ->).
  rewrite update_last_app, rev_app_distr. simpl.
  now rewrite String.eqb_refl.
Qed.

(** What [plate_stage] stores, and when. *)
Lemma plate_stage_store `{E : Externals} (frame_count : Z) (speed : float)
  (vehicle_id : Z) (vehicle_crop : ndarray) (st st' : VehicleSpeedDetector)
  (plate : option string) (plate_bbox : option quad) :
  plate_stage frame_count speed vehicle_id vehicle_crop st
  = Ok (plate, plate_bbox, st') ->
  vehicle_tracks st' = vehicle_tracks st
  \/ (recognition_due frame_count speed vehicle_crop = true
      /\ exists p s track,
           plate = Some p /\ truthy plate = true
           /\ detect_license_plate (Some vehicle_crop)
              = Ok (ReturnPair plate plate_bbox)
           /\ PyDict.get vehicle_id (vehicle_tracks st) = Some (s :: track)
           /\ vehicle_tracks st'
              = PyDict.set vehicle_id
                  (update_last
                     (store_plate plate plate_bbox
                        (ocr_confidence vehicle_crop p))
                     (s :: track))
                  (vehicle_tracks st)).
Proof.
  unfold plate_stage. intros H.
  destruct (recognition_due frame_count speed vehicle_crop) eqn:Hdue.
  - apply bind_ok in H. destruct H as (r & Hdetect & H).
    apply bind_ok in H. destruct H as ([text box] & Hunpack & H).
    destruct r as [|text' box']; [discriminate|].
    injection Hunpack as -> ->.
    destruct text as [p|]; [|injection H as <- <- <-; now left].
    destruct (truthy (Some p)) eqn:Htruthy;
      [|injection H as <- <- <-; now left].
    destruct (PyDict.mem vehicle_id (vehicle_tracks st));
      [|injection H as <- <- <-; now left].
    cbn [andb] in H.
    destruct (PyDict.get vehicle_id (vehicle_tracks st)) as [[|s track]|]
      eqn:Hget; [injection H as <- <- <-; now left| |
                 injection H as <- <- <-; now left].
    injection H as <- <- <-. right. split; [reflexivity|].
    exists p, s, track. auto.
  - left.
    destruct (PyDict.get vehicle_id (vehicle_tracks st)) as [[|s track]|];
      [now injection H as <- <- <-| |now injection H as <- <- <-].
    destruct (cached_plate _) as [[p b]|]; now injection H as <- <- <-.
Qed.

(** The confidence looked up in the reading of the crop as it was cut
    out is the one of the first entry whose clean text is the plate. *)
Lemma matching_confidence_first `{E : Externals} (plate : string)
  (pre post : list ocr_result) (b : quad) (text : string) (c : float) :
  clean_text text = plate ->
  (forall b' text' c', In (b', text', c') pre -> clean_text text' <> plate) ->
  matching_confidence plate (pre ++ (b, text, c) :: post) = c.
Proof.
  intros Htext. induction pre as [|[[b0 t0] c0] pre IH]; intros Hpre;
    cbn [app matching_confidence].
  - apply String.eqb_eq in Htext. now rewrite Htext.
  - destruct (String.eqb (clean_text t0) plate) eqn:Heq.
    + apply String.eqb_eq in Heq. exfalso.
      apply (Hpre b0 t0 c0); [now left|exact Heq].
    + apply IH. intros b' t' c' Hin. apply (Hpre b' t' c'). now right.
Qed.

Lemma matching_confidence_none `{E : Externals} (plate : string)
  (results1 : list ocr_result) :
  (forall b text c, In (b, text, c) results1 -> clean_text text <> plate) ->
  matching_confidence plate results1 = 0%float.
Proof.
  induction results1 as [|[[b0 t0] c0] rest IH]; intros Hnone;
    cbn [matching_confidence]; [reflexivity|].
  destruct (String.eqb (clean_text t0) plate) eqn:Heq.
  - apply String.eqb_eq in Heq. exfalso.
    apply (Hnone b0 t0 c0); [now left|exact Heq].
  - apply IH. intros b t c Hin. apply (Hnone b t c). now right.
Qed.

(** X23. On a frame where recognition is due and reads a plate for a
    vehicle whose speed is above zero, the record of that detection
    carries the plate, and the plate is written on the frame. The plate
    confidence of the record comes from a further reading, of the crop as
    it was cut out: it is the confidence of the first entry of that
    reading whose clean text is the plate; it is zero when no entry has
    that clean text, and zero when that reading raises. *)
Theorem reading_frame_record_has_confidence `{E : Externals} (frame : ndarray)
  (frame_count fps : Z) (st st' st1 st2 : VehicleSpeedDetector)
  (data data' : list DetectionRecord) (canvas canvas' : list draw_op)
  (d : detection) (vehicle_id : Z) (speed : float) (p : string)
  (plate_bbox : option quad) :
  process_detection frame frame_count fps (st, data, canvas) d
  = Ok (st', data', canvas') ->
  assign_vehicle_id (fst (center d)) (snd (center d)) frame_count st
  = Ok (vehicle_id, st1) ->
  calculate_speed vehicle_id (center d) frame_count fps st1
  = Ok (speed, st2) ->
  recognition_due frame_count speed (slice_frame frame canvas (bbox d))
  = true ->
  detect_license_plate (Some (slice_frame frame canvas (bbox d)))
  = Ok (ReturnPair (Some p) plate_bbox) ->
  (0 <? speed)%float = true ->
  exists r,
    data' = data ++ [r]
    /\ r_license_plate r = p
    /\ r_license_plate_confidence r
       = ocr_confidence (slice_frame frame canvas (bbox d)) p
    /\ (forall e,
          readtext (slice_frame frame canvas (bbox d)) = Raise e ->
          r_license_plate_confidence r = 0%float)
    /\ (forall results1,
          readtext (slice_frame frame canvas (bbox d)) = Ok results1 ->
          (forall pre b text c post,
             results1 = pre ++ (b, text, c) :: post ->
             clean_text text = p ->
             (forall b' text' c',
                In (b', text', c') pre -> clean_text text' <> p) ->
             r_license_plate_confidence r = c)
          /\ ((forall b text c,
                 In (b, text, c) results1 -> clean_text text <> p) ->
              r_license_plate_confidence r = 0%float))
    /\ In (PlateText p) canvas'.
Proof.
  intros Hrun Hassign Hspeed Hdue Hdetect Hpos.
  apply process_detection_steps in Hrun
    as (vehicle_id' & st1' & speed' & st2' & plate & box & zone & records
        & Hassign' & Hspeed' & Hplate & Hzone & Hrec & -> & ->).
  rewrite Hassign in Hassign'. injection Hassign' as <- <-.
  rewrite Hspeed in Hspeed'. injection Hspeed' as <- <-.
  pose proof (detected_plate_truthy _ _ _ Hdetect) as Htruthy.
  pose proof (track_of_calculate_speed _ _ _ _ _ _ _ Hspeed) as Htrack.
  assert (Hlast : last_sample (track_of vehicle_id st2)
                  = Some (new_sample (center d) frame_count
                            (Z2float frame_count / Z2float fps)%float)).
  { rewrite Htrack. apply last_sample_appended. }
  assert (Hget : exists s track,
             PyDict.get vehicle_id (vehicle_tracks st2) = Some (s :: track)
             /\ track_of vehicle_id st2 = s :: track).
  { unfold track_of in *.
    destruct (PyDict.get vehicle_id (vehicle_tracks st2)) as [[|s track]|];
      [discriminate | eauto | discriminate]. }
  destruct Hget as (s & track & Hget & Htrack2). rewrite Htrack2 in Hlast.
  assert (Hst' : plate = Some p /\ box = plate_bbox
                 /\ vehicle_tracks st'
                    = PyDict.set vehicle_id
                        (update_last
                           (store_plate (Some p) plate_bbox
                              (ocr_confidence
                                 (slice_frame frame canvas (bbox d)) p))
                           (s :: track))
                        (vehicle_tracks st2)).
  { unfold plate_stage in Hplate. rewrite Hdue, Hdetect in Hplate.
    cbn [bind unpack_plate] in Hplate. rewrite Htruthy in Hplate.
    unfold PyDict.mem in Hplate. rewrite Hget in Hplate.
    cbn [andb] in Hplate. injection Hplate as <- <- <-.
    split; [reflexivity|]. split; reflexivity. }
  destruct Hst' as (-> & -> & Htracks').
  apply emit_record_fields in Hrec
    as [[_ Hneg]|(r & -> & _ & _ & _ & _ & _ & _ & _ & _ & _ & Hlp & Hlc)];
    [congruence|].
  assert (Hconf : r_license_plate_confidence r
                  = ocr_confidence (slice_frame frame canvas (bbox d)) p).
  { rewrite Hlc, Htracks', PyDictFacts.get_set_same.
    destruct (update_last
                (store_plate (Some p) plate_bbox
                   (ocr_confidence (slice_frame frame canvas (bbox d)) p))
                (s :: track)) as [|s' track'] eqn:Hupd.
    { apply (f_equal (@List.length _)) in Hupd.
      rewrite update_last_length in Hupd. discriminate. }
    rewrite <- Hupd, (first_confidence_last _ _ _ _ _ Hlast). reflexivity. }
  exists r. split; [reflexivity|].
  split; [now rewrite Hlp, Htruthy|]. split; [exact Hconf|].
  split; [|split].
  - intros e Hraise. rewrite Hconf. unfold ocr_confidence. now rewrite Hraise.
  - intros results1 Hread. rewrite Hconf. unfold ocr_confidence.
    rewrite Hread. split.
    + intros pre b text c post -> Htext Hpre.
      now apply matching_confidence_first.
    + apply matching_confidence_none.
  - destruct (bbox d) as [[[x1 y1] x2] y2] eqn:Hbox.
    apply in_or_app. right. unfold overlay. rewrite Hbox.
    destruct (center d) as [cx cy]. destruct zone as [[[zx1 zy1] zx2] zy2].
    apply in_or_app. right. apply in_or_app. right. rewrite Htruthy.
    now left.
Qed.

Lemma reading_frame_record_has_confidence_witness :
  (exists st' r canvas',
     process_detection (E := twice_engine) blank_image 5 30
       (seen_twice, [], []) (seen_at 100 104)
     = Ok (st', [r], canvas')
     /\ r_license_plate r = "KA01AB1234"%string
     /\ r_license_plate_confidence r = 0.5%float)
  /\ (exists st' r canvas',
        process_detection (E := other_engine) blank_image 5 30
          (seen_twice, [], []) (seen_at 100 104)
        = Ok (st', [r], canvas')
        /\ r_license_plate r = "KA01AB1234"%string
        /\ r_license_plate_confidence r = 0%float)
  /\ (exists st' r canvas',
        process_detection (E := raw_failing_engine) blank_image 5 30
          (seen_twice, [], []) (seen_at 100 104)
        = Ok (st', [r], canvas')
        /\ r_license_plate r = "KA01AB1234"%string
        /\ r_license_plate_confidence r = 0%float).
Proof.
  split; [|split].
  - destruct (process_detection (E := twice_engine) blank_image 5 30
                (seen_twice, [], []) (seen_at 100 104))
      as [[[st' data'] canvas']|e] eqn:Hrun;
      [|vm_compute in Hrun; discriminate].
    destruct (assign_vehicle_id 100 104 5 seen_twice) as [[vid st1]|e]
      eqn:Hassign; [|vm_compute in Hassign; discriminate].
    destruct (calculate_speed vid (100, 104) 5 30 st1) as [[speed st2]|e]
      eqn:Hspeed.
    2:{ vm_compute in Hassign. injection Hassign as <- <-.
        vm_compute in Hspeed. discriminate. }
    destruct (reading_frame_record_has_confidence (E := twice_engine)
                blank_image 5 30 seen_twice st' st1 st2 [] data' [] canvas'
                (seen_at 100 104) vid speed "KA01AB1234"%string
                (Some corner_quad) Hrun Hassign Hspeed)
      as (r & Hdata & Hplate & _ & Hraise & Hread & _).
    + vm_compute in Hassign. injection Hassign as <- <-.
      vm_compute in Hspeed. injection Hspeed as <- _. reflexivity.
    + reflexivity.
    + vm_compute in Hassign. injection Hassign as <- <-.
      vm_compute in Hspeed. injection Hspeed as <- _. reflexivity.
    + simpl in Hdata. subst data'. exists st', r, canvas'.
      split; [reflexivity|]. split; [exact Hplate|].
      destruct (Hread raw_twice eq_refl) as [Hfirst _].
      apply (Hfirst [(corner_quad, "AB"%string, 0.99%float)] corner_quad
               "KA01 AB1234"%string 0.5%float
               [(corner_quad, "KA-01-AB-1234"%string, 0.7%float)]);
        [reflexivity|reflexivity|].
      intros b' text' c' [[= <- <- <-]|[]]. discriminate.
  - destruct (process_detection (E := other_engine) blank_image 5 30
                (seen_twice, [], []) (seen_at 100 104))
      as [[[st' data'] canvas']|e] eqn:Hrun;
      [|vm_compute in Hrun; discriminate].
    destruct (assign_vehicle_id 100 104 5 seen_twice) as [[vid st1]|e]
      eqn:Hassign; [|vm_compute in Hassign; discriminate].
    destruct (calculate_speed vid (100, 104) 5 30 st1) as [[speed st2]|e]
      eqn:Hspeed.
    2:{ vm_compute in Hassign. injection Hassign as <- <-.
        vm_compute in Hspeed. discriminate. }
    destruct (reading_frame_record_has_confidence (E := other_engine)
                blank_image 5 30 seen_twice st' st1 st2 [] data' [] canvas'
                (seen_at 100 104) vid speed "KA01AB1234"%string
                (Some corner_quad) Hrun Hassign Hspeed)
      as (r & Hdata & Hplate & _ & Hraise & Hread & _).
    + vm_compute in Hassign. injection Hassign as <- <-.
      vm_compute in Hspeed. injection Hspeed as <- _. reflexivity.
    + reflexivity.
    + vm_compute in Hassign. injection Hassign as <- <-.
      vm_compute in Hspeed. injection Hspeed as <- _. reflexivity.
    + simpl in Hdata. subst data'. exists st', r, canvas'.
      split; [reflexivity|]. split; [exact Hplate|].
      destruct (Hread [(corner_quad, "MH12 AB 0001"%string, 0.9%float)]
                  eq_refl) as [_ Hnone].
      apply Hnone. intros b text c [[= <- <- <-]|[]]. discriminate.
  - destruct (process_detection (E := raw_failing_engine) blank_image 5 30
                (seen_twice, [], []) (seen_at 100 104))
      as [[[st' data'] canvas']|e] eqn:Hrun;
      [|vm_compute in Hrun; discriminate].
    destruct (assign_vehicle_id 100 104 5 seen_twice) as [[vid st1]|e]
      eqn:Hassign; [|vm_compute in Hassign; discriminate].
    destruct (calculate_speed vid (100, 104) 5 30 st1) as [[speed st2]|e]
      eqn:Hspeed.
    2:{ vm_compute in Hassign. injection Hassign as <- <-.
        vm_compute in Hspeed. discriminate. }
    destruct (reading_frame_record_has_confidence (E := raw_failing_engine)
                blank_image 5 30 seen_twice st' st1 st2 [] data' [] canvas'
                (seen_at 100 104) vid speed "KA01AB1234"%string
                (Some corner_quad) Hrun Hassign Hspeed)
      as (r & Hdata & Hplate & _ & Hraise & Hread & _).
    + vm_compute in Hassign. injection Hassign as <- <-.
      vm_compute in Hspeed. injection Hspeed as <- _. reflexivity.
    + reflexivity.
    + vm_compute in Hassign. injection Hassign as <- <-.
      vm_compute in Hspeed. injection Hspeed as <- _. reflexivity.
    + simpl in Hdata. subst data'. exists st', r, canvas'.
      split; [reflexivity|]. split; [exact Hplate|].
      apply (Hraise (EngineError 1)). reflexivity.
Defined.

(** ** Every sample of a history *)

Lemma in_skipn {A : Type} (n : nat) (l : list A) (x : A) :
  In x (skipn n l) -> In x l.
Proof.
  intros H. rewrite <- (firstn_skipn n l). apply in_or_app. now right.
Qed.

Lemma in_update_last {A : Type} (f : A -> A) (l : list A) (x : A) :
  In x (update_last f l) ->
  In x l \/ exists r y, l = r ++ [y] /\ x = f y.
Proof.
  induction l as [|a [|b r] IH]; intros H.
  - destruct H.
  - destruct H as [<-|[]]. right. exists [], a. auto.
  - change (update_last f (a :: b :: r)) with (a :: update_last f (b :: r))
      in H.
    destruct H as [<-|H]; [left; now left|].
    destruct (IH H) as [Hin|(r' & y & Heq & ->)]; [left; now right|].
    right. exists (a :: r'), y. rewrite Heq. auto.
Qed.

Lemma recognition_due_fifth (frame_count : Z) (speed : float)
  (vehicle_crop : ndarray) :
  recognition_due frame_count speed vehicle_crop = true ->
  frame_count mod 5 = 0.
Proof.
  unfold recognition_due. intros H. apply andb_prop in H as [H _].
  apply Z.eqb_eq in H. destruct (speed <? 40)%float; [exact H|].
  apply Z.mod_divide in H; [|lia]. apply Z.mod_divide; [lia|].
  destruct H as [q ->]. exists (q * 2). lia.
Qed.

Lemma sample_from_app (fps : Z) (done more : list frame_in) (s : sample) :
  sample_from fps done s -> sample_from fps (done ++ more) s.
Proof.
  intros (fr & d & Hone & Hnth & Hrest). exists fr, d.
  split; [exact Hone|]. split; [|exact Hrest].
  rewrite nth_error_app1; [exact Hnth|].
  apply nth_error_Some. congruence.
Qed.

(** One detection of the frame [fr], which follows the frames [done],
    keeps the samples sound. *)
Lemma process_detection_samples `{E : Externals} (fps : Z)
  (done : list frame_in) (fr : frame_in) (st st' : VehicleSpeedDetector)
  (data data' : list DetectionRecord) (canvas canvas' : list draw_op)
  (d : detection) :
  In d (collect_detections (results fr)) ->
  samples_sound fps (done ++ [fr]) st ->
  process_detection (image fr) (Z.of_nat (List.length done) + 1) fps
    (st, data, canvas) d
  = Ok (st', data', canvas') ->
  samples_sound fps (done ++ [fr]) st'.
Proof.
  intros Hd Hst H. apply process_detection_steps in H
    as (vehicle_id & st1 & speed & st2 & plate & plate_bbox & zone & records
        & Hassign & Hspeed & Hplate & _).
  set (fc := Z.of_nat (List.length done) + 1) in *.
  apply assign_vehicle_id_state in Hassign.
  assert (Hst1 : samples_sound fps (done ++ [fr]) st1).
  { unfold samples_sound. rewrite Hassign. exact Hst. }
  pose proof (calculate_speed_fps _ _ _ _ _ _ _ Hspeed) as Hfps.
  pose proof (track_of_calculate_speed _ _ _ _ _ _ _ Hspeed) as Htrack.
  apply calculate_speed_tracks in Hspeed; [|exact Hfps].
  set (new := new_sample (center d) fc (Z2float fc / Z2float fps)%float)
    in *.
  assert (Hnew : sample_from fps (done ++ [fr]) new /\ plate_on_fifth new).
  { split.
    - exists fr, d. simpl. split; [lia|]. split; [|auto].
      replace (Z.to_nat (fc - 1)) with (List.length done) by lia.
      rewrite nth_error_app2 by lia. now rewrite Nat.sub_diag.
    - intros [H|[H|H]]; now elim H. }
  assert (Hst2 : samples_sound fps (done ++ [fr]) st2).
  { unfold samples_sound. rewrite Hspeed. intros k h s Hin Hs.
    apply in_set_inv in Hin as [[_ ->]|Hin]; [|now apply (Hst1 k h)].
    rewrite appended_track_last_n in Hs. apply in_skipn in Hs.
    apply in_app_or in Hs as [Hs|[<-|[]]]; [|exact Hnew].
    unfold track_of in Hs.
    destruct (PyDict.get vehicle_id (vehicle_tracks st1)) as [old|] eqn:Hget;
      [|destruct Hs].
    apply (Hst1 vehicle_id old); [now apply get_In | exact Hs]. }
  apply plate_stage_store in Hplate
    as [Heq|(Hdue & p & s0 & track & -> & Htruthy & _ & Hget & Heq)];
    unfold samples_sound; rewrite Heq; [exact Hst2|].
  intros k h s Hin Hs.
  apply in_set_inv in Hin as [[_ ->]|Hin]; [|now apply (Hst2 k h)].
  apply in_update_last in Hs as [Hs|(r & y & Hr & ->)].
  - apply (Hst2 vehicle_id (s0 :: track)); [now apply get_In | exact Hs].
  - assert (Hy : y = new).
    { assert (Hlast : last_sample (track_of vehicle_id st2) = Some new).
      { rewrite Htrack. apply last_sample_appended. }
      unfold track_of in Hlast. rewrite Hget, Hr, last_sample_app in Hlast.
      congruence. }
    subst y. split.
    + destruct Hnew as [(fr' & d' & H1 & H2 & H3 & H4 & H5) _].
      exists fr', d'. auto.
    + intros _. simpl. split; [|split; [exact Htruthy | discriminate]].
      now apply recognition_due_fifth in Hdue.
Qed.

Lemma process_video_samples `{E : Externals} (v : video) (rs : run_state) :
  process_video v = Ok rs ->
  samples_sound (fps v) (frames v) (detector rs).
Proof.
  intros Hrun. apply process_video_start in Hrun as (st0 & Hcal & Hrun).
  apply calibrate_state in Hcal as (zone_top & zone_bottom & _ & _ & Hst0).
  apply (process_frames_ind (fps v) (total_frames v)
           (fun done rs =>
              frame_count rs = Z.of_nat (List.length done)
              /\ samples_sound (fps v) done (detector rs)))
    with (done := []) in Hrun.
  - exact (proj2 Hrun).
  - clear. intros done fr rs rs' [Hcount Hrs] Hfr.
    apply process_frame_steps in Hfr
      as (_ & st1 & data1 & canvas & zone & Hds & _ & ->).
    simpl. split; [rewrite length_app; simpl; lia|].
    rewrite Hcount in Hds.
    apply (process_detections_ind (image fr)
             (Z.of_nat (List.length done) + 1) (fps v)
             (fun acc => samples_sound (fps v) (done ++ [fr]) (fst (fst acc)))
             (collect_detections (results fr)))
      in Hds; [exact Hds| |].
    + intros [[st data] cv] d [[st' data'] cv'] Hin Hacc Hd. simpl in *.
      exact (process_detection_samples _ _ _ _ _ _ _ _ _ _ Hin Hacc Hd).
    + simpl. unfold samples_sound. rewrite age_tracks_vehicle_tracks.
      intros k h s Hin Hs. destruct (Hrs k h s Hin Hs) as [Hfrom Hplate].
      split; [now apply sample_from_app | exact Hplate].
  - split; [reflexivity|]. rewrite Hst0. intros k h s [].
Qed.

(** X24. At the end of a run every sample of every history describes a
    detection of the frame it names: the frame number counts the frames
    from 1, the position is the centre of one of that frame's
    detections, and the timestamp is the frame number divided by the
    frame rate. *)
Theorem every_sample_describes_a_detection `{E : Externals} (v : video)
  (rs : run_state) (vehicle_id : Z) (history : list sample) (s : sample) :
  process_video v = Ok rs ->
  PyDict.get vehicle_id (vehicle_tracks (detector rs)) = Some history ->
  In s history ->
  exists fr d,
    1 <= frame s <= Z.of_nat (List.length (frames v))
    /\ nth_error (frames v) (Z.to_nat (frame s - 1)) = Some fr
    /\ In d (collect_detections (results fr))
    /\ position s = center d
    /\ timestamp s = (Z2float (frame s) / Z2float (fps v))%float.
Proof.
  intros Hrun Hget Hs. apply process_video_samples in Hrun.
  destruct (Hrun vehicle_id history s (get_In _ _ _ Hget) Hs)
    as [(fr & d & Hone & Hnth & Hrest) _].
  exists fr, d. split; [|split; [exact Hnth | exact Hrest]].
  split; [exact Hone|].
  assert (Hlt : (Z.to_nat (frame s - 1) < List.length (frames v))%nat)
    by (apply nth_error_Some; congruence).
  lia.
Qed.

Lemma every_sample_describes_a_detection_witness :
  exists rs history s,
    process_video (E := silent_engine) five_frames = Ok rs
    /\ PyDict.get 1 (vehicle_tracks (detector rs)) = Some history
    /\ last_sample history = Some s
    /\ frame s = 5 /\ position s = (100, 108).
Proof.
  destruct (process_video (E := silent_engine) five_frames) as [rs|e] eqn:Hrun;
    [|vm_compute in Hrun; discriminate].
  destruct (PyDict.get 1 (vehicle_tracks (detector rs))) as [history|]
    eqn:Hget.
  2:{ vm_compute in Hrun. injection Hrun as <-. vm_compute in Hget.
      discriminate. }
  destruct (last_sample history) as [s|] eqn:Hlast.
  2:{ vm_compute in Hrun. injection Hrun as <-. vm_compute in Hget.
      injection Hget as <-. vm_compute in Hlast. discriminate. }
  assert (Hs : In s history).
  { destruct (last_sample_inv _ _ Hlast) as (r & ->).
    apply in_or_app. right. now left. }
  destruct (every_sample_describes_a_detection (E := silent_engine)
              five_frames rs 1 history s Hrun Hget Hs)
    as (fr & d & _ & _ & _ & _ & _).
  exists rs, history, s. split; [reflexivity|]. split; [exact Hget|].
  split; [exact Hlast|].
  vm_compute in Hrun. injection Hrun as <-. vm_compute in Hget.
  injection Hget as <-. vm_compute in Hlast. injection Hlast as <-.
  split; reflexivity.
Defined.

(** X25. Plates are stored only on frames where recognition runs: at
    the end of a run a sample that has a plate, a plate box or a plate
    confidence was seen in a frame whose number is a multiple of 5, its
    plate is not empty, and it has a confidence. *)
Theorem plates_are_stored_on_fifth_frames `{E : Externals} (v : video)
  (rs : run_state) (vehicle_id : Z) (history : list sample) (s : sample) :
  process_video v = Ok rs ->
  PyDict.get vehicle_id (vehicle_tracks (detector rs)) = Some history ->
  In s history ->
  license_plate s <> None \/ license_plate_bbox s <> None
  \/ license_plate_confidence s <> None ->
  frame s mod 5 = 0
  /\ truthy (license_plate s) = true
  /\ license_plate_confidence s <> None.
Proof.
  intros Hrun Hget Hs Hplate. apply process_video_samples in Hrun.
  destruct (Hrun vehicle_id history s (get_In _ _ _ Hget) Hs) as [_ Hfifth].
  exact (Hfifth Hplate).
Qed.

Lemma plates_are_stored_on_fifth_frames_witness :
  exists rs history s,
    process_video (E := reading_engine) five_frames = Ok rs
    /\ PyDict.get 1 (vehicle_tracks (detector rs)) = Some history
    /\ last_sample history = Some s
    /\ license_plate s = Some "KA01AB1234"%string
    /\ frame s mod 5 = 0.
Proof.
  destruct (process_video (E := reading_engine) five_frames) as [rs|e]
    eqn:Hrun; [|vm_compute in Hrun; discriminate].
  destruct (PyDict.get 1 (vehicle_tracks (detector rs))) as [history|]
    eqn:Hget.
  2:{ vm_compute in Hrun. injection Hrun as <-. vm_compute in Hget.
      discriminate. }
  destruct (last_sample history) as [s|] eqn:Hlast.
  2:{ vm_compute in Hrun. injection Hrun as <-. vm_compute in Hget.
      injection Hget as <-. vm_compute in Hlast. discriminate. }
  assert (Hs : In s history).
  { destruct (last_sample_inv _ _ Hlast) as (r & ->).
    apply in_or_app. right. now left. }
  assert (Hplate : license_plate s = Some "KA01AB1234"%string).
  { vm_compute in Hrun. injection Hrun as <-. vm_compute in Hget.
    injection Hget as <-. vm_compute in Hlast. injection Hlast as <-.
    reflexivity. }
  destruct (plates_are_stored_on_fifth_frames (E := reading_engine)
              five_frames rs 1 history s Hrun Hget Hs) as (Hfifth & _).
  { left. rewrite Hplate. discriminate. }
  exists rs, history, s. split; [reflexivity|]. split; [exact Hget|].
  split; [exact Hlast|]. split; [exact Hplate | exact Hfifth].
Defined.
